(** * Marathon access bot: payment ledger, identity binding and audit log

    A shallow embedding of the bot's database handlers:

    - [app/db/models.py]            the four tables ([Payment], [User],
                                    [AccessLog], [CurrentGroup]);
    - [app/webhooks.py]             payload normalisation and the upsert of
                                    [handle_prodamus];
    - [app/main.py]                 the self-service claim
                                    [handle_email_or_order], [add_test_payment]
                                    and [set_group];
    - [app/handlers/join_requests.py]  [approve_join_request];
    - [app/handlers/admin.py]       the administrative lookup, rebind,
                                    remove and unban handlers.

    A table is the list of its rows in insertion order.  A handler is a
    function from the committed database (and its inputs) to the database
    that is committed when the handler ends, together with the trace of its
    outward effects in program order.  A text is held as its UTF-8 bytes; the
    methods of [str] that depend on the Unicode character database are
    parameters of the development ([PyStr.Methods]), and the concrete runs
    are evaluated on ASCII text ([AsciiText]). *)

From Stdlib Require Import ZArith Lia Bool List Ascii Sorted Permutation.
From stdpp Require Import gmap strings pretty.
Import ListNotations.

Local Open Scope Z_scope.

(* ------------------------------------------------------------------ *)
(** ** Python strings *)
(* ------------------------------------------------------------------ *)

(** A text is held as the UTF-8 bytes of the Python string.  Equality,
    emptiness, the search for an ASCII character and the prefix and suffix
    tests are the same on the bytes as on the characters (no byte of a
    multi-byte character is an ASCII byte or starts a character) and are
    defined here.  The methods that consult the Unicode character database
    ([strip], [lower], [isdigit], [split]) or count characters ([len],
    slicing) are the fields of [Methods]: what they return is fixed by
    CPython, and the development relies on the listed facts about them and
    on nothing else. *)
Module PyStr.

Definition chars (s : string) : list ascii := String.list_ascii_of_string s.
Definition of_chars (l : list ascii) : string := String.string_of_list_ascii l.

(** An ASCII white-space byte: tab, line feed, vertical tab, form feed,
    carriage return, the four separators 28 to 31 and the space.  Each is a
    character [str.split()] splits at and [str.strip()] removes (they also
    act on the white space outside ASCII, which takes several bytes). *)
Definition isspace (c : ascii) : bool :=
  let n := nat_of_ascii c in
  ((9 <=? n)%nat && (n <=? 13)%nat) || ((28 <=? n)%nat && (n <=? 32)%nat).

(** ["@" in s] *)
Definition contains_at (s : string) : bool :=
  existsb (Ascii.eqb "@"%char) (chars s).

Fixpoint list_eqb (a b : list ascii) : bool :=
  match a, b with
  | [], [] => true
  | x :: a', y :: b' => Ascii.eqb x y && list_eqb a' b'
  | _, _ => false
  end.

(** [s.endswith(suffix)] *)
Definition endswith (s suffix : string) : bool :=
  let l := chars s in
  let t := chars suffix in
  list_eqb (skipn (length l - length t) l) t
  && (length t <=? length l)%nat.

(** [s.startswith(prefix)] *)
Definition startswith (s prefix : string) : bool := String.prefix prefix s.

(** truth value of a string: [bool(s)] *)
Definition truthy (s : string) : bool :=
  match s with EmptyString => false | _ => true end.

(** truth value of an optional string: [None] and [""] are false *)
Definition otruthy (o : option string) : bool :=
  match o with Some s => truthy s | None => false end.

(** [a or b] on strings *)
Definition str_or (a b : string) : string := if truthy a then a else b.

(** SQL [column = value]: a NULL column matches nothing *)
Definition col_eqb (col : option string) (v : string) : bool :=
  match col with Some c => String.eqb c v | None => false end.

Class Methods := {
  (** [s.strip()] *)
  strip : string -> string;
  (** [s.lower()] *)
  lower : string -> string;
  (** ["".join(ch for ch in s if ch.isdigit())] *)
  digits : string -> string;
  (** [s.isdigit()] *)
  str_isdigit : string -> bool;
  (** [s.split()] *)
  split : string -> list string;
  (** [s.split(maxsplit=n)] *)
  split_max : nat -> string -> list string;
  (** [len(s)] *)
  len : string -> nat;
  (** [s[-n:]], for [n] above 0 *)
  last : nat -> string -> string;

  (** stripping what is stripped changes nothing *)
  strip_strip : forall s, strip (strip s) = strip s;
  strip_empty : strip "" = "";
  (** the characters kept by the filter all pass it *)
  digits_digits : forall s, digits (digits s) = digits s;
  len_empty : len "" = 0%nat;
  (** no part of a split is empty *)
  split_max_nonempty :
    forall n s, List.Forall (fun w => w <> "") (split_max n s);
  (** the parts cut off by the [n] splits are words: no white space is left
      in them (the part after the last split may have some) *)
  split_max_words :
    forall n s,
      List.Forall
        (fun w => forallb (fun c => negb (isspace c)) (chars w) = true)
        (firstn n (split_max n s))
}.

End PyStr.

(* ------------------------------------------------------------------ *)
(** ** The tables ([app/db/models.py]) *)
(* ------------------------------------------------------------------ *)

Module Payment.
Record t := mk {
  id : Z;
  order_id : string;
  email : option string;
  phone : option string;
  status : string;
  product_name : option string;
  created_at : Z;
  used : bool
}.
End Payment.

Module User.
Record t := mk {
  id : Z;
  telegram_id : string;
  username : option string;
  full_name : option string;
  payment_id : option Z
}.
End User.

Module AccessLog.
Record t := mk {
  id : Z;
  telegram_id : string;
  email : option string;
  order_id : string;
  group_name : string;
  group_id : string;
  action : string;
  timestamp : Z;
  comment : string
}.
End AccessLog.

Module CurrentGroup.
Record t := mk {
  id : Z;
  chat_id : option string;
  group_name : string;
  invite_link : string
}.
End CurrentGroup.

(** The committed database: every table in insertion order. *)
Record DB := mkDB {
  payments : list Payment.t;
  users : list User.t;
  access_logs : list AccessLog.t;
  current_group : list CurrentGroup.t
}.

Definition empty_db : DB := mkDB [] [] [] [].

(** [autoincrement=True] on an integer primary key: one more than the
    largest key in the table, 1 for an empty table. *)
Definition next_id (ids : list Z) : Z := 1 + fold_right Z.max 0 ids.

(* ------------------------------------------------------------------ *)
(** ** Query combinators: [.filter(..)], [.order_by(..)], [.first()] *)
(* ------------------------------------------------------------------ *)

Module Query.
Section Combinators.
Context {A : Type}.

Fixpoint insert_by (before : A -> A -> bool) (x : A) (l : list A) : list A :=
  match l with
  | [] => [x]
  | y :: l' => if before x y then x :: l else y :: insert_by before x l'
  end.

(** [.order_by(..)]: the rows sorted so that [before a b] holds for
    [a] ahead of [b]. *)
Definition order_by (before : A -> A -> bool) (l : list A) : list A :=
  fold_right (insert_by before) [] l.

(** [.first()] *)
Definition first (l : list A) : option A := hd_error l.

(** [.filter(c).first()] without an ordering: first row in table order *)
Definition first_where (c : A -> bool) (l : list A) : option A :=
  List.find c l.
End Combinators.

(** [Payment.created_at.desc(), Payment.id.desc()] *)
Definition created_desc_id_desc (a b : Payment.t) : bool :=
  (Payment.created_at b <? Payment.created_at a)
  || ((Payment.created_at a =? Payment.created_at b)
      && (Payment.id b <=? Payment.id a)).

(** [Payment.id.desc()] *)
Definition id_desc (a b : Payment.t) : bool :=
  Payment.id b <=? Payment.id a.

(** [CurrentGroup.id.desc()] *)
Definition group_id_desc (a b : CurrentGroup.t) : bool :=
  CurrentGroup.id b <=? CurrentGroup.id a.

(** [db.query(CurrentGroup).order_by(CurrentGroup.id.desc()).first()] *)
Definition latest_group (db : DB) : option CurrentGroup.t :=
  first (order_by group_id_desc (current_group db)).
End Query.

(** Row updates through the session's identity map: the row with the given
    primary key is replaced, every other row is left as it is. *)
Definition update_payment (pid : Z) (f : Payment.t -> Payment.t)
    (rows : list Payment.t) : list Payment.t :=
  map (fun p => if Payment.id p =? pid then f p else p) rows.

Definition update_user (uid : Z) (f : User.t -> User.t)
    (rows : list User.t) : list User.t :=
  map (fun u => if User.id u =? uid then f u else u) rows.

Definition update_group (gid : Z) (f : CurrentGroup.t -> CurrentGroup.t)
    (rows : list CurrentGroup.t) : list CurrentGroup.t :=
  map (fun g => if CurrentGroup.id g =? gid then f g else g) rows.

Definition set_used (p : Payment.t) : Payment.t :=
  Payment.mk (Payment.id p) (Payment.order_id p) (Payment.email p)
    (Payment.phone p) (Payment.status p) (Payment.product_name p)
    (Payment.created_at p) true.

Definition set_payment_id (v : option Z) (u : User.t) : User.t :=
  User.mk (User.id u) (User.telegram_id u) (User.username u)
    (User.full_name u) v.

Definition set_chat_id (v : string) (g : CurrentGroup.t) : CurrentGroup.t :=
  CurrentGroup.mk (CurrentGroup.id g) (Some v) (CurrentGroup.group_name g)
    (CurrentGroup.invite_link g).

(** [user.payment]: the relationship loads the payment by primary key. *)
Definition payment_by_id (db : DB) (pid : Z) : option Payment.t :=
  Query.first_where (fun p => Payment.id p =? pid) (payments db).

(** [payment.user]: the user whose foreign key points at the payment. *)
Definition payment_user (db : DB) (p : Payment.t) : option User.t :=
  Query.first_where
    (fun u => match User.payment_id u with
              | Some k => k =? Payment.id p
              | None => false
              end) (users db).

(* ------------------------------------------------------------------ *)
(** ** Webhook ingestion ([app/webhooks.py]) *)
(* ------------------------------------------------------------------ *)

Module Webhooks.

(** The decoded body: a dictionary from field name to [str(value)].
    A JSON [null] is read like an absent key, as [_get_first] skips both. *)
Abbreviation Payload := (gmap string string).

Record Request := mkRequest {
  header_token : string;   (* request.headers.get("X-Webhook-Token", "") *)
  query_token : string;    (* request.query.get("token", "") *)
  path_token : string;     (* request.match_info.get("token", "") *)
  payload : Payload        (* _read_payload(request) *)
}.

Inductive Response :=
| Ok200            (* 200 {"ok": true} *)
| BadRequest400    (* 400 missing order_id or email/phone *)
| Unauthorized401. (* 401 unauthorized *)

Section Text.
Context {pystr : PyStr.Methods}.

Fixpoint _get_first (payload : Payload) (keys : list string) : option string :=
  match keys with
  | [] => None
  | key :: rest =>
      match payload !! key with
      | None => _get_first payload rest
      | Some value =>
          let text := PyStr.strip value in
          if PyStr.truthy text then Some text else _get_first payload rest
      end
  end.

Definition status_mapping : list (string * string) :=
  [ ("success", "paid"); ("succeeded", "paid"); ("paid", "paid");
    ("completed", "paid"); ("cancelled", "cancelled");
    ("canceled", "cancelled"); ("failed", "failed");
    ("pending", "pending") ].

(** [mapping.get(key, default)] *)
Fixpoint mapping_get (m : list (string * string)) (key default : string) : string :=
  match m with
  | [] => default
  | (k, v) :: m' => if String.eqb k key then v else mapping_get m' key default
  end.

Definition _normalize_status (value : option string) : string :=
  match value with
  | None => "paid"
  | Some v =>
      if negb (PyStr.truthy v) then "paid"
      else
        let normalized := PyStr.lower (PyStr.strip v) in
        mapping_get status_mapping normalized normalized
  end.

Definition _normalize_phone (value : option string) : option string :=
  match value with
  | None => None
  | Some v =>
      if negb (PyStr.truthy v) then None
      else
        let digits := PyStr.digits v in
        if PyStr.truthy digits then Some digits else None
  end.

Definition _is_authorized (WEBHOOK_TOKEN : string) (request : Request) : bool :=
  if negb (PyStr.truthy WEBHOOK_TOKEN) then true
  else
    let body_token :=
      PyStr.strip (default "" (payload request !! "token")) in
    existsb (String.eqb WEBHOOK_TOKEN)
      [header_token request; query_token request; body_token;
       path_token request].

(** The alternative field names tried, in order, for each field. *)
Definition ORDER_ID_KEYS : list string :=
  ["order_id"; "orderId"; "order"; "payment_id"].
Definition EMAIL_KEYS : list string :=
  ["email"; "customer_email"; "client_email"; "buyer_email"].
Definition PHONE_KEYS : list string :=
  ["phone"; "phone_number"; "customer_phone"; "client_phone";
   "buyer_phone"; "telephone"; "tel"].
Definition STATUS_KEYS : list string :=
  ["status"; "payment_status"; "paymentStatus"].
Definition PRODUCT_KEYS : list string :=
  ["product_name"; "product"; "title"; "name"].
Definition CREATED_KEYS : list string :=
  ["created_at"; "createdAt"; "date"; "created"].

Section Handler.
(** [datetime.strptime(value, fmt)], [None] for [ValueError]. *)
Variable strptime : string -> string -> option Z.
Variable WEBHOOK_TOKEN : string.

Definition _parse_timestamp (now : Z) (value : option string) : Z :=
  match value with
  | None => now
  | Some v =>
      if negb (PyStr.truthy v) then now
      else
        match strptime v "%Y-%m-%d %H:%M:%S" with
        | Some t => t
        | None =>
            match strptime v "%Y-%m-%dT%H:%M:%S" with
            | Some t => t
            | None => now
            end
        end
  end.

(** The [else] branch of the upsert: overlay on the stored row. *)
Definition overlay (email phone : option string) (status : string)
    (product_name : option string) (created_at : Z)
    (payment : Payment.t) : Payment.t :=
  Payment.mk (Payment.id payment) (Payment.order_id payment)
    (if PyStr.otruthy email then email else Payment.email payment)
    (if PyStr.otruthy phone then phone else Payment.phone payment)
    status
    (if PyStr.otruthy product_name then product_name
     else Payment.product_name payment)
    created_at
    (Payment.used payment).

Definition handle_prodamus (now : Z) (db : DB) (request : Request)
    : DB * Response :=
  let payload := payload request in
  if negb (_is_authorized WEBHOOK_TOKEN request) then (db, Unauthorized401)
  else
    let order_id := _get_first payload ORDER_ID_KEYS in
    let email := _get_first payload EMAIL_KEYS in
    let phone_raw := _get_first payload PHONE_KEYS in
    let status_raw := _get_first payload STATUS_KEYS in
    let product_name := _get_first payload PRODUCT_KEYS in
    let created_raw := _get_first payload CREATED_KEYS in
    let phone := _normalize_phone phone_raw in
    match order_id with
    | None => (db, BadRequest400)
    | Some order_id =>
        if negb (PyStr.otruthy email) && negb (PyStr.otruthy phone)
        then (db, BadRequest400)
        else
          let status := _normalize_status status_raw in
          let created_at := _parse_timestamp now created_raw in
          match Query.first_where
                  (fun p => String.eqb (Payment.order_id p) order_id)
                  (payments db) with
          | None =>
              let payment :=
                Payment.mk (next_id (map Payment.id (payments db)))
                  order_id email phone status product_name created_at
                  false in
              (mkDB (payments db ++ [payment]) (users db)
                 (access_logs db) (current_group db), Ok200)
          | Some payment =>
              (mkDB (update_payment (Payment.id payment)
                       (overlay email phone status product_name created_at)
                       (payments db))
                 (users db) (access_logs db) (current_group db), Ok200)
          end
    end.

(** [handle_tilda] forwards to [handle_prodamus]. *)
Definition handle_tilda := handle_prodamus.
End Handler.
End Text.

End Webhooks.

(* ------------------------------------------------------------------ *)
(** ** Messages, replies and outward effects *)
(* ------------------------------------------------------------------ *)

Record FromUser := mkFromUser {
  fu_id : Z;                      (* message.from_user.id *)
  fu_username : option string;
  fu_full_name : string
}.

Record Message := mkMessage {
  from_user : option FromUser;
  text : option string
}.

(** [str(x)] of an integer: its decimal rendering. *)
Definition py_str (x : Z) : string := pretty x.

(** The texts the handlers send, one constructor per message. *)
Inductive Reply :=
| AskForIdentifier      (* "Отправь, пожалуйста, email, телефон или номер заказа." *)
| PaymentAlreadyUsed    (* "Эта оплата уже использована для доступа. ..." *)
| PaidOrderNotFound     (* "Я не нашёл оплаченный заказ по этим данным. ..." *)
| UsedByOtherAccount    (* "Эта оплата уже использована с другим Telegram-аккаунтом. ..." *)
| GroupNotConfigured    (* "Оплата подтверждена, но пока не настроена группа ..." *)
| InviteLink (group_name join_url : string)   (* "Оплата найдена" with the join button *)
| TestPaymentUsage      (* "Формат: /add_test_payment ..." *)
| TestPaymentAdded (order_id email : string)
| GroupSet (group_name invite_link : string)  (* "Текущая группа установлена: ..." *)
| AdminMenuShown        (* "Админ-меню:" *)
| PaymentNotFound       (* "Оплата не найдена." *)
| PaymentInfo (payment : Payment.t) (user : option User.t)
    (logs : list AccessLog.t)                 (* "Найденная оплата: ..." *)
| PaymentRebound (order_id telegram_id : string)
| UserNotBound          (* "Пользователь не привязан к этой оплате." *)
| CannotRemoveSelf      (* "Нельзя удалить самого себя." *)
| ChatIdUnknown         (* "Не вижу chat_id группы. ..." *)
| RemoveFailed          (* "Не удалось удалить пользователя. Проверь права бота." *)
| UserRemoved           (* "Пользователь удалён из группы и заблокирован." *)
| UnbanFailed           (* "Не удалось разбанить пользователя. Проверь права бота." *)
| UserUnbanned.         (* "Пользователь разбанен. ..." *)

(** What a handler does to the outside world, in program order.  A ban or
    an unban is recorded with the two stored texts the handler converts for
    it: the call is
    [bot.ban_chat_member(chat_id=int(chat_id), user_id=int(user_id))]. *)
Inductive Effect :=
| Answer (r : Reply)                         (* await message.answer(..) *)
| Commit                                     (* db.commit() *)
| BanChatMember (chat_id user_id : string)   (* await bot.ban_chat_member(..) *)
| UnbanChatMember (chat_id user_id : string) (* await bot.unban_chat_member(..) *)
| ApproveJoinRequest                         (* await event.approve() *)
| Raised.                                    (* an exception leaves the handler *)

(* ------------------------------------------------------------------ *)
(** ** Administrative handlers ([app/handlers/admin.py]) *)
(* ------------------------------------------------------------------ *)

Module Admin.

Definition ADMIN_MENU : string := "Админ-меню".
Definition ADMIN_SET_GROUP : string := "Установить группу".
Definition ADMIN_EXPORT_LOGS : string := "Выгрузить логи".
Definition ADMIN_FIND_PAYMENT : string := "Найти оплату".
Definition ADMIN_REBIND_PAYMENT : string := "Перепривязать оплату".
Definition ADMIN_REMOVE_USER : string := "Удалить участника".
Definition ADMIN_UNBAN_USER : string := "Разбанить участника".
Definition ADMIN_CANCEL : string := "Отмена".

Definition ADMIN_MENU_BUTTONS : list string :=
  [ADMIN_MENU; ADMIN_SET_GROUP; ADMIN_EXPORT_LOGS; ADMIN_FIND_PAYMENT;
   ADMIN_REBIND_PAYMENT; ADMIN_REMOVE_USER; ADMIN_UNBAN_USER; ADMIN_CANCEL].

Section Text.
Context {pystr : PyStr.Methods}.

Definition normalize_phone (value : string) : string := PyStr.digits value.

Definition last10_of (digits : string) : string :=
  if (10 <=? PyStr.len digits)%nat then PyStr.last 10 digits else digits.

Definition phone_variants (value : string) : option string * option string :=
  let digits := normalize_phone value in
  if negb (PyStr.truthy digits) then (None, None)
  else (Some digits, Some (last10_of digits)).

(** The disjunction [or_] of the list [filters], with
    [filters = [Payment.email == query, Payment.order_id == query]]
    and the two phone disjuncts when the query has digits. *)
Definition payment_filters (query : string) (p : Payment.t) : bool :=
  let '(phone, phone_last10) := phone_variants query in
  PyStr.col_eqb (Payment.email p) query
  || String.eqb (Payment.order_id p) query
  || (match phone with
      | Some ph => PyStr.truthy ph && PyStr.col_eqb (Payment.phone p) ph
      | None => false
      end)
  || (match phone_last10 with
      | Some l10 =>
          PyStr.truthy l10 && (10 <=? PyStr.len l10)%nat
          && match Payment.phone p with
             | Some stored => PyStr.endswith stored l10
             | None => false
             end
      | None => false
      end).

(** The lookup shared by [send_payment_info], [rebind_payment_to_user],
    [admin_remove_user] and [admin_unban_user]:
    the matching rows ordered by [Payment.id.desc()], then [.first()]. *)
Definition find_payment (db : DB) (query : string) : option Payment.t :=
  Query.first
    (Query.order_by Query.id_desc
       (List.filter (payment_filters query) (payments db))).

Definition send_payment_info (db : DB) (query : string) : DB * list Effect :=
  match find_payment db query with
  | None => (db, [Answer PaymentNotFound])
  | Some payment =>
      let logs :=
        List.filter
          (fun l =>
             (* [AccessLog.email == payment.email]; against [None] the
                comparison is rendered [IS NULL] *)
             match Payment.email payment, AccessLog.email l with
             | Some e, Some e' => String.eqb e' e
             | None, None => true
             | _, _ => false
             end
             || String.eqb (AccessLog.order_id l) (Payment.order_id payment))
          (access_logs db) in
      let recent :=
        firstn 5
          (Query.order_by
             (fun a b => AccessLog.timestamp b <=? AccessLog.timestamp a)
             logs) in
      (db, [Answer (PaymentInfo payment (payment_user db payment) recent)])
  end.

Definition rebind_payment_to_user (db : DB) (payment_key telegram_id : string)
    : DB * list Effect :=
  match find_payment db payment_key with
  | None => (db, [Answer PaymentNotFound])
  | Some payment =>
      (* new_user: a stored row, or a pending object without a key yet *)
      let new_user :=
        Query.first_where
          (fun u => String.eqb (User.telegram_id u) telegram_id) (users db) in
      let old_user :=
        Query.first_where
          (fun u => match User.payment_id u with
                    | Some k => k =? Payment.id payment
                    | None => false
                    end) (users db) in
      let users1 :=
        match old_user with
        | Some old =>
            let differs :=
              match new_user with
              | Some nu => negb (User.id old =? User.id nu)
              | None => true
              end in
            if differs
            then update_user (User.id old) (set_payment_id None) (users db)
            else users db
        | None => users db
        end in
      let users2 :=
        match new_user with
        | Some nu =>
            update_user (User.id nu)
              (set_payment_id (Some (Payment.id payment))) users1
        | None =>
            users1 ++
              [User.mk (next_id (map User.id (users db))) telegram_id
                 None None (Some (Payment.id payment))]
        end in
      (mkDB (update_payment (Payment.id payment) set_used (payments db))
         users2 (access_logs db) (current_group db),
       [Commit;
        Answer (PaymentRebound (Payment.order_id payment) telegram_id)])
  end.

Definition create_current_group (db : DB) (invite_link group_name : string)
    : DB * list Effect :=
  (mkDB (payments db) (users db) (access_logs db)
     (current_group db ++
        [CurrentGroup.mk (next_id (map CurrentGroup.id (current_group db)))
           None group_name invite_link]),
   [Commit; Answer (GroupSet group_name invite_link)]).

Section Handlers.
Variable ADMIN_IDS : list Z.

Definition is_admin (message : Message) : bool :=
  match from_user message with
  | Some sender => existsb (Z.eqb (fu_id sender)) ADMIN_IDS
  | None => false
  end.

(** The part common to removal and unban once the payment is found:
    the bound user must exist and carry a numeric telegram id. *)
Definition bound_numeric_user (db : DB) (payment : Payment.t)
    : option User.t :=
  match payment_user db payment with
  | Some user =>
      if PyStr.str_isdigit (User.telegram_id user) then Some user else None
  | None => None
  end.

(** [ban_ok] tells whether the [try] block, that is the conversions
    [int(current_group.chat_id)] and [int(user.telegram_id)] and the call of
    [bot.ban_chat_member] with their results, completes ([true]) or raises
    ([false]).  In the second case [BanChatMember] stands for the attempt. *)
Definition admin_remove_user (ban_ok : bool) (now : Z) (db : DB)
    (message : Message) : DB * list Effect :=
  if negb (is_admin message) then (db, [])
  else
    match text message with
    | None => (db, [])
    | Some raw =>
        if negb (PyStr.truthy raw) then (db, [])
        else
          let text := PyStr.strip raw in
          if String.eqb text ADMIN_CANCEL then (db, [Answer AdminMenuShown])
          else
            match find_payment db text with
            | None => (db, [Answer PaymentNotFound])
            | Some payment =>
                match bound_numeric_user db payment with
                | None => (db, [Answer UserNotBound])
                | Some user =>
                    let self :=
                      match from_user message with
                      | Some sender =>
                          String.eqb (py_str (fu_id sender))
                            (User.telegram_id user)
                      | None => false
                      end in
                    if self then (db, [Answer CannotRemoveSelf])
                    else
                      match Query.latest_group db with
                      | None => (db, [Answer ChatIdUnknown])
                      | Some cg =>
                          match CurrentGroup.chat_id cg with
                          | None => (db, [Answer ChatIdUnknown])
                          | Some chat =>
                              if negb (PyStr.truthy chat)
                              then (db, [Answer ChatIdUnknown])
                              else if negb ban_ok
                              then (db, [BanChatMember chat
                                           (User.telegram_id user);
                                         Answer RemoveFailed])
                              else
                                (mkDB (payments db) (users db)
                                   (access_logs db ++
                                      [AccessLog.mk
                                         (next_id (map AccessLog.id
                                                     (access_logs db)))
                                         (User.telegram_id user)
                                         (Some (if PyStr.otruthy
                                                     (Payment.email payment)
                                                then default ""
                                                       (Payment.email payment)
                                                else "unknown"))
                                         (PyStr.str_or
                                            (Payment.order_id payment)
                                            "unknown")
                                         (CurrentGroup.group_name cg) chat
                                         "revoked" now "Removed by admin"])
                                   (current_group db),
                                 [BanChatMember chat (User.telegram_id user);
                                  Commit; Answer UserRemoved])
                          end
                      end
                end
            end
    end.

(** [unban_ok]: as [ban_ok], for [bot.unban_chat_member(..)]. *)
Definition admin_unban_user (unban_ok : bool) (now : Z) (db : DB)
    (message : Message) : DB * list Effect :=
  if negb (is_admin message) then (db, [])
  else
    match text message with
    | None => (db, [])
    | Some raw =>
        if negb (PyStr.truthy raw) then (db, [])
        else
          let text := PyStr.strip raw in
          if String.eqb text ADMIN_CANCEL then (db, [Answer AdminMenuShown])
          else
            match find_payment db text with
            | None => (db, [Answer PaymentNotFound])
            | Some payment =>
                match bound_numeric_user db payment with
                | None => (db, [Answer UserNotBound])
                | Some user =>
                    match Query.latest_group db with
                    | None => (db, [Answer ChatIdUnknown])
                    | Some cg =>
                        match CurrentGroup.chat_id cg with
                        | None => (db, [Answer ChatIdUnknown])
                        | Some chat =>
                            if negb (PyStr.truthy chat)
                            then (db, [Answer ChatIdUnknown])
                            else if negb unban_ok
                            then (db, [UnbanChatMember chat
                                         (User.telegram_id user);
                                       Answer UnbanFailed])
                            else
                              (mkDB (payments db) (users db)
                                 (access_logs db ++
                                    [AccessLog.mk
                                       (next_id (map AccessLog.id
                                                   (access_logs db)))
                                       (User.telegram_id user)
                                       (Some (if PyStr.otruthy
                                                   (Payment.email payment)
                                              then default ""
                                                     (Payment.email payment)
                                              else "unknown"))
                                       (PyStr.str_or
                                          (Payment.order_id payment)
                                          "unknown")
                                       (CurrentGroup.group_name cg) chat
                                       "unbanned" now "Unbanned by admin"])
                                 (current_group db),
                               [UnbanChatMember chat (User.telegram_id user);
                                Commit; Answer UserUnbanned])
                        end
                    end
                end
            end
    end.
End Handlers.
End Text.

End Admin.

(* ------------------------------------------------------------------ *)
(** ** Self-service claim and setup commands ([app/main.py]) *)
(* ------------------------------------------------------------------ *)

Module Main.

Definition BUTTON_CHECK_PAYMENT : string := "Проверить оплату".
Definition BUTTON_SUPPORT : string := "Поддержка".

Section Text.
Context {pystr : PyStr.Methods}.

Definition normalize_phone (value : string) : string := PyStr.digits value.

(** [digits[-10:] if len(digits) >= 10 else digits] *)
Definition last10_of (digits : string) : string :=
  if (10 <=? PyStr.len digits)%nat then PyStr.last 10 digits else digits.

Definition phone_variants (value : string) : option string * option string :=
  let digits := normalize_phone value in
  if negb (PyStr.truthy digits) then (None, None)
  else (Some digits, Some (last10_of digits)).

(** The disjuncts appended to [filters] for the phone variants. *)
Definition phone_filters (value : string) (p : Payment.t) : bool :=
  let '(phone, phone_last10) := phone_variants value in
  (match phone with
   | Some ph => PyStr.truthy ph && PyStr.col_eqb (Payment.phone p) ph
   | None => false
   end)
  || (match phone_last10 with
      | Some l10 =>
          PyStr.truthy l10 && (10 <=? PyStr.len l10)%nat
          && match Payment.phone p with
             | Some stored => PyStr.endswith stored l10
             | None => false
             end
      | None => false
      end).

(** The identifier criterion of the self-service lookup
    (both branches of [if "@" in text]). *)
Definition identifier_matches (text : string) (p : Payment.t) : bool :=
  if PyStr.contains_at text
  then PyStr.col_eqb (Payment.email p) text
  else String.eqb (Payment.order_id p) text || phone_filters text p.

(** [payment]: paid, unused, newest first. *)
Definition claim_query (db : DB) (text : string) : option Payment.t :=
  Query.first
    (Query.order_by Query.created_desc_id_desc
       (List.filter
          (fun p => identifier_matches text p
                    && String.eqb (Payment.status p) "paid"
                    && negb (Payment.used p))
          (payments db))).

(** [used_payment]: paid, used or not, newest first. *)
Definition used_probe (db : DB) (text : string) : option Payment.t :=
  Query.first
    (Query.order_by Query.created_desc_id_desc
       (List.filter
          (fun p => identifier_matches text p
                    && String.eqb (Payment.status p) "paid")
          (payments db))).

(** The filter [handle_email_or_order] is registered with:
    [F.text & ~F.text.startswith("/") & ~F.text.in_(ADMIN_MENU_BUTTONS)].
    The [StateFilter(None)] beside it is not a property of the message: the
    handler is considered for a sender who is in no dialogue state.  (The
    handlers registered before this one take their messages first: these
    are commands and administrative buttons, which this filter refuses, and
    the two main-menu buttons, on which the handler below does nothing.) *)
Definition handle_email_or_order_filter (message : Message) : bool :=
  match text message with
  | Some t =>
      PyStr.truthy t && negb (PyStr.startswith t "/")
      && negb (existsb (String.eqb t) Admin.ADMIN_MENU_BUTTONS)
  | None => false
  end.

(** [answer_ok] tells whether [await message.answer(..)] returns ([true])
    or raises ([false]).  An exception leaves the handler through
    [finally: db.close()]: what the session has not committed is lost. *)
Definition handle_email_or_order (answer_ok : bool) (db : DB)
    (message : Message) : DB * list Effect :=
  let answer r := Answer r :: (if answer_ok then [] else [Raised]) in
  match from_user message, text message with
  | Some sender, Some raw =>
      if negb (PyStr.truthy raw) then (db, [])
      else
      let text := PyStr.strip raw in
      if String.eqb text BUTTON_CHECK_PAYMENT || String.eqb text BUTTON_SUPPORT
      then (db, [])
      else if negb (PyStr.truthy text) then (db, answer AskForIdentifier)
      else
        match claim_query db text with
        | None =>
            match used_probe db text with
            | Some _ => (db, answer PaymentAlreadyUsed)
            | None => (db, answer PaidOrderNotFound)
            end
        | Some payment =>
            let tg_id := py_str (fu_id sender) in
            let existing_user :=
              Query.first_where
                (fun u => match User.payment_id u with
                          | Some k => k =? Payment.id payment
                          | None => false
                          end) (users db) in
            let taken :=
              match existing_user with
              | Some eu => negb (String.eqb (User.telegram_id eu) tg_id)
              | None => false
              end in
            if taken then (db, answer UsedByOtherAccount)
            else
              let users' :=
                match Query.first_where
                        (fun u => String.eqb (User.telegram_id u) tg_id)
                        (users db) with
                | None =>
                    users db ++
                      [User.mk (next_id (map User.id (users db))) tg_id
                         (fu_username sender) (Some (fu_full_name sender))
                         (Some (Payment.id payment))]
                | Some user =>
                    update_user (User.id user)
                      (set_payment_id (Some (Payment.id payment))) (users db)
                end in
              let payments' :=
                update_payment (Payment.id payment) set_used (payments db) in
              let db' :=
                mkDB payments' users' (access_logs db) (current_group db) in
              match Query.latest_group db with
              | None =>
                  (* the answer comes before the commit *)
                  if answer_ok
                  then (db', [Answer GroupNotConfigured; Commit])
                  else (db, [Answer GroupNotConfigured; Raised])
              | Some current_group =>
                  (db', Commit ::
                          answer (InviteLink
                                    (CurrentGroup.group_name current_group)
                                    (CurrentGroup.invite_link current_group)))
              end
        end
  | _, _ => (db, [])
  end.

(** What the dispatcher does with a text message as far as this handler is
    concerned: the handler runs when its filter accepts the message. *)
Definition dispatch_email_or_order (answer_ok : bool) (db : DB)
    (message : Message) : DB * list Effect :=
  if handle_email_or_order_filter message
  then handle_email_or_order answer_ok db message
  else (db, []).

Section Setup.
Variable ADMIN_IDS : list Z.

Definition sender_is_admin (message : Message) : bool :=
  match from_user message with
  | Some sender => existsb (Z.eqb (fu_id sender)) ADMIN_IDS
  | None => false
  end.

(** [/add_test_payment <order_id> <email> [phone]].  The insert violates
    the [unique=True] constraint of [Payment.order_id] when the order id
    is already stored: the commit raises and nothing is written. *)
Definition add_test_payment (now : Z) (db : DB) (message : Message)
    : DB * list Effect :=
  if negb (sender_is_admin message) then (db, [])
  else
    match text message with
    | None => (db, [])
    | Some raw =>
        if negb (PyStr.truthy raw) then (db, [])
        else
          let insert order_id email phone :=
            if existsb (fun p => String.eqb (Payment.order_id p) order_id)
                 (payments db)
            then (db, [Raised])
            else
              (mkDB (payments db ++
                       [Payment.mk (next_id (map Payment.id (payments db)))
                          order_id (Some email) phone "paid" None now false])
                 (users db) (access_logs db) (current_group db),
               [Commit; Answer (TestPaymentAdded order_id email)]) in
          match PyStr.split raw with
          | [_; order_id; email] => insert order_id email None
          | [_; order_id; email; ph] =>
              insert order_id email (Some (normalize_phone ph))
          | _ => (db, [Answer TestPaymentUsage])
          end
    end.
End Setup.
End Text.

End Main.

(* ------------------------------------------------------------------ *)
(** ** Join-request confirmation ([app/handlers/join_requests.py]) *)
(* ------------------------------------------------------------------ *)

Module JoinRequests.

Record ChatJoinRequest := mkEvent {
  ev_from_user_id : Z;     (* event.from_user.id *)
  ev_chat_id : Z;          (* event.chat.id *)
  ev_chat_title : string   (* str(event.chat.title) *)
}.

(** [approve_ok] tells whether [await event.approve()] returns ([true]) or
    raises ([false]). *)
Definition approve_join_request (approve_ok : bool) (now : Z) (db : DB)
    (event : ChatJoinRequest) : DB * list Effect :=
  let tg_id := py_str (ev_from_user_id event) in
  match Query.first_where
          (fun u => String.eqb (User.telegram_id u) tg_id) (users db) with
  | None => (db, [])
  | Some user =>
      match User.payment_id user with
      | None => (db, [])
      | Some pid =>
          if pid =? 0 then (db, [])
          else
            match payment_by_id db pid with
            | None => (db, [])
            | Some payment =>
                if negb (String.eqb (Payment.status payment) "paid")
                then (db, [])
                else
                  let chat := py_str (ev_chat_id event) in
                  let log groups :=
                    let db' :=
                      mkDB (update_payment (Payment.id payment) set_used
                              (payments db))
                        (users db)
                        (access_logs db ++
                           [AccessLog.mk
                              (next_id (map AccessLog.id (access_logs db)))
                              tg_id (Payment.email payment)
                              (Payment.order_id payment)
                              (ev_chat_title event) chat "granted" now
                              "Auto-approved join request"])
                        groups in
                    (db', Commit :: ApproveJoinRequest ::
                            (if approve_ok then [] else [Raised])) in
                  match Query.latest_group db with
                  | None => log (current_group db)
                  | Some cg =>
                      if PyStr.otruthy (CurrentGroup.chat_id cg)
                         && negb (PyStr.col_eqb (CurrentGroup.chat_id cg) chat)
                      then (db, [])
                      else if negb (PyStr.otruthy (CurrentGroup.chat_id cg))
                      then log (update_group (CurrentGroup.id cg)
                                  (set_chat_id chat) (current_group db))
                      else log (current_group db)
                  end
            end
      end
  end.

End JoinRequests.

(* ------------------------------------------------------------------ *)
(** ** The bot as a transition system *)
(* ------------------------------------------------------------------ *)

(** One inbound event per handler; a handler runs to completion before the
    next event is taken.  [TextMessage] is a text message from a sender who
    is in no dialogue state, offered to [handle_email_or_order]; the
    commands and the administrative dialogues have events of their own. *)
Inductive Event :=
| Webhook (now : Z) (request : Webhooks.Request)
| TextMessage (answer_ok : bool) (message : Message)
| AddTestPayment (now : Z) (message : Message)
| SetGroup (invite_link group_name : string)
| JoinRequest (approve_ok : bool) (now : Z)
    (event : JoinRequests.ChatJoinRequest)
| FindPayment (query : string)
| Rebind (payment_key telegram_id : string)
| RemoveUser (ban_ok : bool) (now : Z) (message : Message)
| UnbanUser (unban_ok : bool) (now : Z) (message : Message).

Section System.
Context {pystr : PyStr.Methods}.
Variable strptime : string -> string -> option Z.
Variable WEBHOOK_TOKEN : string.
Variable ADMIN_IDS : list Z.

Definition step (db : DB) (e : Event) : DB :=
  match e with
  | Webhook now request =>
      fst (Webhooks.handle_prodamus strptime WEBHOOK_TOKEN now db request)
  | TextMessage answer_ok message =>
      fst (Main.dispatch_email_or_order answer_ok db message)
  | AddTestPayment now message =>
      fst (Main.add_test_payment ADMIN_IDS now db message)
  | SetGroup invite_link group_name =>
      fst (Admin.create_current_group db invite_link group_name)
  | JoinRequest approve_ok now event =>
      fst (JoinRequests.approve_join_request approve_ok now db event)
  | FindPayment query => fst (Admin.send_payment_info db query)
  | Rebind payment_key telegram_id =>
      fst (Admin.rebind_payment_to_user db payment_key telegram_id)
  | RemoveUser ban_ok now message =>
      fst (Admin.admin_remove_user ADMIN_IDS ban_ok now db message)
  | UnbanUser unban_ok now message =>
      fst (Admin.admin_unban_user ADMIN_IDS unban_ok now db message)
  end.

(** The database after a sequence of events, starting from empty tables. *)
Definition run (events : list Event) : DB := fold_left step events empty_db.
End System.

(** The identity record of a chat identity. *)
Definition user_by_telegram_id (db : DB) (tg : string) : option User.t :=
  Query.first_where (fun u => String.eqb (User.telegram_id u) tg) (users db).

Definition bound_to (pid : Z) (u : User.t) : bool :=
  match User.payment_id u with
  | Some k => k =? pid
  | None => false
  end.

(** The identity records whose [payment_id] is the given payment. *)
Definition holders (db : DB) (pid : Z) : list User.t :=
  List.filter (bound_to pid) (users db).

Definition at_most_one_binding (db : DB) : Prop :=
  forall pid, (length (holders db pid) <= 1)%nat.

(** Consistency of the user table: primary keys and telegram ids are unique
    (the table's constraints) and no payment is held twice. *)
Definition unique_binding (us : list User.t) : Prop :=
  forall u1 u2 pid,
    In u1 us -> In u2 us ->
    User.payment_id u1 = Some pid -> User.payment_id u2 = Some pid ->
    User.id u1 = User.id u2.

Record users_ok (us : list User.t) : Prop := mk_users_ok {
  ok_ids : List.NoDup (map User.id us);
  ok_tgs : List.NoDup (map User.telegram_id us);
  ok_bind : unique_binding us
}.

(** Uniqueness of [order_id] over the ledger. *)
Definition order_ids_unique (db : DB) : Prop :=
  List.NoDup (map Payment.order_id (payments db)).

Definition payment_by_order_id (db : DB) (order_id : string) : option Payment.t :=
  Query.first_where (fun p => String.eqb (Payment.order_id p) order_id)
    (payments db).

(** Consistency of the ledger: primary keys and order ids are unique. *)
Record ledger_ok (db : DB) : Prop := mk_ledger_ok {
  ok_payment_ids : List.NoDup (map Payment.id (payments db));
  ok_order_ids : order_ids_unique db
}.

Section Criteria.
Context {pystr : PyStr.Methods}.

(** A webhook request that passes the guards of [handle_prodamus] and
    carries the given order id. *)
Definition ingested (WEBHOOK_TOKEN : string) (request : Webhooks.Request)
    (order_id : string) : Prop :=
  Webhooks._is_authorized WEBHOOK_TOKEN request = true
  /\ Webhooks._get_first (Webhooks.payload request) Webhooks.ORDER_ID_KEYS
     = Some order_id
  /\ (PyStr.otruthy
        (Webhooks._get_first (Webhooks.payload request) Webhooks.EMAIL_KEYS)
      || PyStr.otruthy
           (Webhooks._normalize_phone
              (Webhooks._get_first (Webhooks.payload request)
                 Webhooks.PHONE_KEYS))) = true.

(** The keys of the status vocabulary. *)
Definition status_keys : list string := map fst Webhooks.status_mapping.

(** The fields of a payment that ingestion must leave alone. *)
Definition consumption_key (p : Payment.t) : Z * string * bool :=
  (Payment.id p, Payment.order_id p, Payment.used p).

(** The phone alternatives of the administrative lookup: the stored phone
    equals the is-digit characters of the query, or there are at least ten
    of them and the stored phone ends with the last ten. *)
Definition phone_criteria (query : string) (p : Payment.t) : Prop :=
  let digits := Admin.normalize_phone query in
  digits <> ""
  /\ (Payment.phone p = Some digits
      \/ exists stored,
           Payment.phone p = Some stored
           /\ (10 <= PyStr.len (Admin.last10_of digits))%nat
           /\ PyStr.endswith stored (Admin.last10_of digits) = true).
End Criteria.

(** The audit row a join confirmation writes. *)
Definition granted_row (db : DB) (now : Z)
    (event : JoinRequests.ChatJoinRequest) (payment : Payment.t) : AccessLog.t :=
  AccessLog.mk (next_id (map AccessLog.id (access_logs db)))
    (py_str (JoinRequests.ev_from_user_id event)) (Payment.email payment)
    (Payment.order_id payment) (JoinRequests.ev_chat_title event)
    (py_str (JoinRequests.ev_chat_id event)) "granted" now
    "Auto-approved join request".

(* ------------------------------------------------------------------ *)
(** ** Log export ([export_logs_report] in [app/handlers/admin.py]) *)
(* ------------------------------------------------------------------ *)

Module LogExport.

Inductive Result :=
| NoRecords                             (* "Записей за этот период нет." *)
| Document (rows : list AccessLog.t).   (* the CSV file, one line per row *)

(** [AccessLog.timestamp >= start_dt, AccessLog.timestamp < end_dt] and,
    when a group name is given, [AccessLog.group_name == group_name]. *)
Definition selected (start_dt end_dt : Z) (group_name : option string)
    (l : AccessLog.t) : bool :=
  (start_dt <=? AccessLog.timestamp l) && (AccessLog.timestamp l <? end_dt)
  && (if PyStr.otruthy group_name
      then String.eqb (AccessLog.group_name l) (default "" group_name)
      else true).

(** [AccessLog.timestamp.asc()] *)
Definition timestamp_asc (a b : AccessLog.t) : bool :=
  AccessLog.timestamp a <=? AccessLog.timestamp b.

Definition export_logs_report (db : DB) (start_dt end_dt : Z)
    (group_name : option string) : Result :=
  let logs :=
    Query.order_by timestamp_asc
      (List.filter (selected start_dt end_dt group_name) (access_logs db)) in
  match logs with
  | [] => NoRecords
  | _ => Document logs
  end.

End LogExport.

(* ------------------------------------------------------------------ *)
(** ** Slash commands ([set_group] in [app/main.py], [rebind_payment] and
    [find_payment] in [app/handlers/admin.py]) *)
(* ------------------------------------------------------------------ *)

Module Commands.

(** What a command handler does with a message. *)
Inductive Outcome :=
| Ignored                               (* return without an answer *)
| UsageShown                            (* the "Формат: ..." answer *)
| Ran (result : DB * list Effect).      (* the delegated call *)

(** The database the handler leaves. *)
Definition outcome_db (db : DB) (o : Outcome) : DB :=
  match o with
  | Ran result => fst result
  | _ => db
  end.

Section Handlers.
Context {pystr : PyStr.Methods}.
Variable ADMIN_IDS : list Z.


(** [/rebind_payment <email|phone|order_id> <telegram_id>] *)
Definition rebind_payment (db : DB) (message : Message) : Outcome :=
  if negb (Admin.is_admin ADMIN_IDS message) then Ignored
  else
    match text message with
    | None => Ignored
    | Some raw =>
        if negb (PyStr.truthy raw) then Ignored
        else
          match PyStr.split_max 2 raw with
          | _ :: p1 :: p2 :: _ =>
              let payment_key := PyStr.strip p1 in
              let telegram_id := PyStr.strip p2 in
              if negb (PyStr.truthy payment_key)
                 || negb (PyStr.str_isdigit telegram_id)
              then UsageShown
              else Ran (Admin.rebind_payment_to_user db payment_key telegram_id)
          | _ => UsageShown   (* len(parts) < 3 *)
          end
    end.

(** [/find_payment <email, phone or order_id>] *)
Definition find_payment (db : DB) (message : Message) : Outcome :=
  if negb (Admin.is_admin ADMIN_IDS message) then Ignored
  else
    match text message with
    | None => Ignored
    | Some raw =>
        if negb (PyStr.truthy raw) then Ignored
        else
          match PyStr.split_max 1 raw with
          | _ :: p1 :: _ =>
              let query := PyStr.strip p1 in
              if negb (PyStr.truthy query) then UsageShown
              else Ran (Admin.send_payment_info db query)
          | _ => UsageShown   (* len(parts) < 2 *)
          end
    end.
End Handlers.

End Commands.

(* ------------------------------------------------------------------ *)
(** ** Further invariants of the database *)
(* ------------------------------------------------------------------ *)

Section Phones.
Context {pystr : PyStr.Methods}.

(** [s] consists only of characters for which [ch.isdigit()] holds (the
    empty string included): filtering it by [isdigit] returns it whole. *)
Definition all_digits (s : string) : Prop := PyStr.digits s = s.

(** Every stored phone number consists of such characters. *)
Definition phones_normalized (db : DB) : Prop :=
  forall p ph,
    In p (payments db) -> Payment.phone p = Some ph -> all_digits ph.

Definition phones_ok (rows : list Payment.t) : Prop :=
  forall p ph, In p rows -> Payment.phone p = Some ph -> all_digits ph.
End Phones.

(** Every binding points at a stored payment, and every stored payment some
    identity is bound to has been consumed. *)
Record bindings_consumed (db : DB) : Prop := mk_bindings_consumed {
  bound_exists :
    forall u pid,
      In u (users db) -> User.payment_id u = Some pid ->
      In pid (map Payment.id (payments db));
  bound_used :
    forall u p,
      In u (users db) -> In p (payments db) ->
      User.payment_id u = Some (Payment.id p) -> Payment.used p = true
}.

Definition group_ids_unique (db : DB) : Prop :=
  List.NoDup (map CurrentGroup.id (current_group db)).

(** The actions the audit log can hold. *)
Definition audit_actions : list string := ["granted"; "revoked"; "unbanned"].

(** [p'] is the later state of the stored payment [p]: same key, same order
    id, and still consumed if [p] was. *)
Definition kept (p p' : Payment.t) : Prop :=
  Payment.id p' = Payment.id p
  /\ Payment.order_id p' = Payment.order_id p
  /\ (Payment.used p = true -> Payment.used p' = true).

Definition payments_kept (rows rows' : list Payment.t) : Prop :=
  forall p, In p rows -> exists p', In p' rows' /\ kept p p'.

(** The rows of an export result; none when there is no file. *)
Definition exported_rows (r : LogExport.Result) : list AccessLog.t :=
  match r with
  | LogExport.NoRecords => []
  | LogExport.Document rows => rows
  end.

(* ------------------------------------------------------------------ *)
(** ** The string methods on ASCII text *)
(* ------------------------------------------------------------------ *)

(** The methods of [PyStr.Methods] computed byte by byte with the ASCII
    character classes.  On a text of ASCII characters this is what CPython
    returns, and the concrete runs of this development, whose texts are
    ASCII wherever one of these methods reads them, are evaluated with it.
    On other text it satisfies the laws and nothing more: it knows no white
    space, digit or cased letter outside ASCII.  No general statement
    depends on it. *)
Module AsciiText.

(** [ch.isdigit()] for an ASCII character *)
Definition isdigit (c : ascii) : bool :=
  let n := nat_of_ascii c in (48 <=? n)%nat && (n <=? 57)%nat.

Fixpoint lstrip_chars (l : list ascii) : list ascii :=
  match l with
  | c :: l' => if PyStr.isspace c then lstrip_chars l' else l
  | [] => []
  end.

Definition strip (s : string) : string :=
  PyStr.of_chars (rev (lstrip_chars (rev (lstrip_chars (PyStr.chars s))))).

Definition lower_char (c : ascii) : ascii :=
  let n := nat_of_ascii c in
  if (65 <=? n)%nat && (n <=? 90)%nat then ascii_of_nat (n + 32) else c.

Definition lower (s : string) : string :=
  PyStr.of_chars (map lower_char (PyStr.chars s)).

Definition digits (s : string) : string :=
  PyStr.of_chars (List.filter isdigit (PyStr.chars s)).

(** non-empty and every character a digit *)
Definition str_isdigit (s : string) : bool :=
  match PyStr.chars s with
  | [] => false
  | l => forallb isdigit l
  end.

Fixpoint split_go (cur : option (list ascii)) (l : list ascii) : list string :=
  match l with
  | [] => match cur with Some w => [PyStr.of_chars (rev w)] | None => [] end
  | c :: l' =>
      if PyStr.isspace c
      then match cur with
           | Some w => PyStr.of_chars (rev w) :: split_go None l'
           | None => split_go None l'
           end
      else split_go (Some (c :: default [] cur)) l'
  end.

(** the maximal runs of non-space characters *)
Definition split (s : string) : list string := split_go None (PyStr.chars s).

(** The maximal prefix without a space, and what follows it. *)
Fixpoint take_word (l : list ascii) : list ascii * list ascii :=
  match l with
  | [] => ([], [])
  | c :: l' =>
      if PyStr.isspace c then ([], l)
      else let '(w, rest) := take_word l' in (c :: w, rest)
  end.

Fixpoint split_max_go (maxsplit : nat) (l : list ascii) : list (list ascii) :=
  match lstrip_chars l with
  | [] => []
  | r =>
      match maxsplit with
      | O => [r]
      | S n => let '(w, rest) := take_word r in w :: split_max_go n rest
      end
  end.

(** at most [n] splits at runs of spaces; what is left after the last split
    is kept whole, leading spaces removed *)
Definition split_max (maxsplit : nat) (s : string) : list string :=
  map PyStr.of_chars (split_max_go maxsplit (PyStr.chars s)).

Definition len (s : string) : nat := length (PyStr.chars s).

Definition last (n : nat) (s : string) : string :=
  PyStr.of_chars (skipn (length (PyStr.chars s) - n) (PyStr.chars s)).

Lemma chars_of_chars l : PyStr.chars (PyStr.of_chars l) = l.
Proof. apply String.list_ascii_of_string_of_list_ascii. Qed.

Lemma of_chars_nonempty w : w <> [] -> PyStr.of_chars w <> "".
Proof. destruct w; [tauto|]. intros _. discriminate. Qed.

Lemma lstrip_chars_suffix l : exists pre, l = pre ++ lstrip_chars l.
Proof.
  induction l as [|c l [pre IH]]; simpl; [now exists []|].
  destruct (PyStr.isspace c).
  - exists (c :: pre). simpl. now f_equal.
  - now exists [].
Qed.

Lemma lstrip_chars_head l c t :
  lstrip_chars l = c :: t -> PyStr.isspace c = false.
Proof.
  induction l as [|d l IH]; simpl; [discriminate|].
  destruct (PyStr.isspace d) eqn:E; [assumption|]. now intros [= <- _].
Qed.

Lemma lstrip_chars_fixed c t :
  PyStr.isspace c = false -> lstrip_chars (c :: t) = c :: t.
Proof. intros E. simpl. now rewrite E. Qed.

(** What [strip] leaves has no space at either end. *)
Lemma strip_chars_trimmed l :
  let r := rev (lstrip_chars (rev (lstrip_chars l))) in
  lstrip_chars r = r /\ lstrip_chars (rev r) = rev r.
Proof.
  cbv zeta. rewrite rev_involutive.
  set (a := lstrip_chars l).
  destruct (lstrip_chars (rev a)) as [|c b] eqn:Eb; [now split|].
  pose proof (lstrip_chars_head _ _ _ Eb) as Hc.
  split; [|now apply lstrip_chars_fixed].
  destruct (lstrip_chars_suffix (rev a)) as [pre Hpre]. rewrite Eb in Hpre.
  assert (Ha : a = rev (c :: b) ++ rev pre).
  { rewrite <- rev_app_distr, <- Hpre. now rewrite rev_involutive. }
  destruct (rev (c :: b)) as [|d r] eqn:Er.
  { apply (f_equal (@length _)) in Er. rewrite length_rev in Er.
    discriminate. }
  apply lstrip_chars_fixed. unfold a in Ha.
  eapply lstrip_chars_head. rewrite Ha. reflexivity.
Qed.

Lemma ascii_strip_strip s : strip (strip s) = strip s.
Proof.
  unfold strip at 2 3.
  destruct (strip_chars_trimmed (PyStr.chars s)) as [H1 H2].
  unfold strip. now rewrite chars_of_chars, H1, H2, rev_involutive.
Qed.

Lemma filter_filter_isdigit l :
  List.filter isdigit (List.filter isdigit l) = List.filter isdigit l.
Proof.
  induction l as [|c l IH]; simpl; [reflexivity|].
  destruct (isdigit c) eqn:E; simpl; [rewrite E; now f_equal|assumption].
Qed.

Lemma ascii_digits_digits s : digits (digits s) = digits s.
Proof.
  unfold digits. now rewrite chars_of_chars, filter_filter_isdigit.
Qed.

Lemma take_word_no_space l :
  forallb (fun c => negb (PyStr.isspace c)) (fst (take_word l)) = true.
Proof.
  induction l as [|c l IH]; simpl; [reflexivity|].
  destruct (PyStr.isspace c) eqn:E; [reflexivity|].
  destruct (take_word l) as [w rest]. simpl in *. now rewrite E.
Qed.

Lemma take_word_nonempty c t :
  PyStr.isspace c = false -> fst (take_word (c :: t)) <> [].
Proof.
  intros E. simpl. rewrite E. destruct (take_word t). discriminate.
Qed.

Lemma split_max_go_unfold n l :
  split_max_go n l
  = match lstrip_chars l with
    | [] => []
    | c :: t =>
        match n with
        | O => [c :: t]
        | S n' =>
            let '(w, rest) := take_word (c :: t) in
            w :: split_max_go n' rest
        end
    end.
Proof. destruct n; reflexivity. Qed.

Lemma split_max_go_nonempty n l :
  List.Forall (fun w => w <> []) (split_max_go n l).
Proof.
  revert l. induction n as [|n IH]; intros l; rewrite split_max_go_unfold.
  - destruct (lstrip_chars l); repeat constructor. discriminate.
  - destruct (lstrip_chars l) as [|c t] eqn:El; [constructor|].
    pose proof (take_word_nonempty c t (lstrip_chars_head _ _ _ El)) as Hne.
    destruct (take_word (c :: t)) as [w rest]. constructor; [exact Hne|apply IH].
Qed.

Lemma split_max_go_words n l :
  List.Forall (fun w => forallb (fun c => negb (PyStr.isspace c)) w = true)
    (firstn n (split_max_go n l)).
Proof.
  revert l. induction n as [|n IH]; intros l; [constructor|].
  rewrite split_max_go_unfold.
  destruct (lstrip_chars l) as [|c t]; [constructor|].
  pose proof (take_word_no_space (c :: t)) as Hns.
  destruct (take_word (c :: t)) as [w rest]. cbn [firstn].
  constructor; [exact Hns|apply IH].
Qed.

Lemma ascii_split_max_nonempty n s :
  List.Forall (fun w => w <> "") (split_max n s).
Proof.
  unfold split_max. apply List.Forall_map.
  eapply List.Forall_impl; [|apply split_max_go_nonempty].
  intros w. apply of_chars_nonempty.
Qed.

Lemma ascii_split_max_words n s :
  List.Forall
    (fun w => forallb (fun c => negb (PyStr.isspace c)) (PyStr.chars w) = true)
    (firstn n (split_max n s)).
Proof.
  unfold split_max. rewrite firstn_map. apply List.Forall_map.
  eapply List.Forall_impl; [|apply split_max_go_words].
  intros w Hw. now rewrite chars_of_chars.
Qed.

Definition ascii_text : PyStr.Methods :=
  {| PyStr.strip := strip;
     PyStr.lower := lower;
     PyStr.digits := digits;
     PyStr.str_isdigit := str_isdigit;
     PyStr.split := split;
     PyStr.split_max := split_max;
     PyStr.len := len;
     PyStr.last := last;
     PyStr.strip_strip := ascii_strip_strip;
     PyStr.strip_empty := eq_refl;
     PyStr.digits_digits := ascii_digits_digits;
     PyStr.len_empty := eq_refl;
     PyStr.split_max_nonempty := ascii_split_max_nonempty;
     PyStr.split_max_words := ascii_split_max_words |}.

End AsciiText.

(* ------------------------------------------------------------------ *)
(** ** Concrete runs used as test inputs *)
(* ------------------------------------------------------------------ *)

Module Scenario.

(** No timestamp in these payloads parses: [created_at] falls back to the
    ingestion time. *)
Definition strptime : string -> string -> option Z := fun _ _ => None.
Definition WEBHOOK_TOKEN : string := "".
Definition ADMIN_IDS : list Z := [900].

Definition run : list Event -> DB :=
  run (pystr := AsciiText.ascii_text) strptime WEBHOOK_TOKEN ADMIN_IDS.

Definition webhook (fields : Webhooks.Payload) : Webhooks.Request :=
  Webhooks.mkRequest "" "" "" fields.

Definition webhook_A1 : Webhooks.Request :=
  webhook {[ "order_id" := "A1"; "email" := "a@b.com";
             "status" := "success" ]}.

Definition webhook_A2 : Webhooks.Request :=
  webhook {[ "order_id" := "A2"; "email" := "a@b.com";
             "status" := "success" ]}.

Definition alice : FromUser := mkFromUser 111 (Some "alice") "Alice".
Definition admin : FromUser := mkFromUser 900 None "Admin".

Definition alice_sends (t : string) : Message := mkMessage (Some alice) (Some t).
Definition admin_sends (t : string) : Message := mkMessage (Some admin) (Some t).

Definition invite : string := "https://t.me/+marathon".

(** Payment A1 ingested, the group configured. *)
Definition paid : list Event :=
  [Webhook 100 webhook_A1; SetGroup invite "Marathon"].

(** ... then claimed by Alice. *)
Definition claimed : list Event :=
  paid ++ [TextMessage true (alice_sends "a@b.com")].

Definition alice_joins : JoinRequests.ChatJoinRequest :=
  JoinRequests.mkEvent 111 (-1001) "Marathon".

(** ... then Alice is let into the group, which reveals its chat id. *)
Definition joined : list Event :=
  claimed ++ [JoinRequest true 150 alice_joins].

End Scenario.

(* ================================================================== *)
(** * Properties *)
(* ================================================================== *)

Section Properties.
Context {pystr : PyStr.Methods}.

(** ** Primary keys *)

Lemma next_id_above (ids : list Z) (x : Z) : In x ids -> x < next_id ids.
Proof.
  unfold next_id. induction ids as [|y ids IH]; simpl; [tauto|].
  intros [->|Hin]; [lia|]. specialize (IH Hin). lia.
Qed.

Lemma next_id_fresh (ids : list Z) : ~ In (next_id ids) ids.
Proof. intros H. apply next_id_above in H. lia. Qed.

Lemma NoDup_map_inj {A B} (f : A -> B) (l : list A) (a b : A) :
  List.NoDup (map f l) -> In a l -> In b l -> f a = f b -> a = b.
Proof.
  induction l as [|x l IH]; simpl; [tauto|].
  intros Hnd Ha Hb Hf. inversion Hnd as [|? ? Hx Hnd']; subst.
  destruct Ha as [->|Ha], Hb as [->|Hb]; auto.
  - exfalso. apply Hx. rewrite Hf. now apply in_map.
  - exfalso. apply Hx. rewrite <- Hf. now apply in_map.
Qed.

(** ** Row updates on the user table *)

Lemma update_user_ids i v us :
  map User.id (update_user i (set_payment_id v) us) = map User.id us.
Proof.
  unfold update_user. rewrite map_map. apply map_ext.
  intros u. now destruct (User.id u =? i).
Qed.

Lemma update_user_tgs i v us :
  map User.telegram_id (update_user i (set_payment_id v) us)
  = map User.telegram_id us.
Proof.
  unfold update_user. rewrite map_map. apply map_ext.
  intros u. now destruct (User.id u =? i).
Qed.

Lemma in_update_user i v us u' :
  In u' (update_user i (set_payment_id v) us) ->
  exists u, In u us /\ User.id u' = User.id u
            /\ User.telegram_id u' = User.telegram_id u
            /\ ((User.id u = i /\ User.payment_id u' = v)
                \/ (User.id u <> i /\ u' = u)).
Proof.
  unfold update_user. rewrite in_map_iff. intros [u [Hu Hin]].
  exists u. destruct (Z.eqb_spec (User.id u) i); subst u'; simpl; auto 10.
Qed.

Lemma find_update_user_tg i v tg us :
  List.find (fun u => String.eqb (User.telegram_id u) tg)
    (update_user i (set_payment_id v) us)
  = option_map (fun u => if User.id u =? i then set_payment_id v u else u)
      (List.find (fun u => String.eqb (User.telegram_id u) tg) us).
Proof.
  unfold update_user.
  induction us as [|u us IH]; simpl; [reflexivity|].
  destruct (User.id u =? i) eqn:Ei; simpl;
    destruct (String.eqb (User.telegram_id u) tg); simpl;
    rewrite ?Ei; auto.
Qed.

Lemma find_bound_some pid us u :
  In u us -> User.payment_id u = Some pid ->
  exists o, List.find (bound_to pid) us = Some o.
Proof.
  intros Hin Hp.
  destruct (List.find (bound_to pid) us) as [o|] eqn:E; [eauto|].
  exfalso. apply (find_none _ _ E) in Hin.
  unfold bound_to in Hin. rewrite Hp, Z.eqb_refl in Hin. discriminate.
Qed.

Lemma find_bound_spec pid us o :
  List.find (bound_to pid) us = Some o ->
  In o us /\ User.payment_id o = Some pid.
Proof.
  intros E. apply find_some in E as [Hin Hb]. split; [assumption|].
  unfold bound_to in Hb. destruct (User.payment_id o) as [k|]; [|discriminate].
  apply Z.eqb_eq in Hb. now subst.
Qed.

Lemma find_tg_spec tg us u :
  List.find (fun u => String.eqb (User.telegram_id u) tg) us = Some u ->
  In u us /\ User.telegram_id u = tg.
Proof.
  intros E. apply find_some in E as [Hin Hb]. split; [assumption|].
  now apply String.eqb_eq in Hb.
Qed.

Lemma find_tg_none tg us :
  List.find (fun u => String.eqb (User.telegram_id u) tg) us = None ->
  ~ In tg (map User.telegram_id us).
Proof.
  intros E Hin. apply in_map_iff in Hin as [u [Htg Hin]].
  apply (find_none _ _ E) in Hin. simpl in Hin.
  rewrite Htg, String.eqb_refl in Hin. discriminate.
Qed.

(** Clearing a binding keeps the table consistent. *)
Lemma users_ok_clear i us :
  users_ok us -> users_ok (update_user i (set_payment_id None) us).
Proof.
  intros [Hid Htg Hb]. split.
  - now rewrite update_user_ids.
  - now rewrite update_user_tgs.
  - intros u1 u2 pid H1 H2 P1 P2.
    apply in_update_user in H1 as (a & Ha & Ia & _ & [[_ Pa]|[_ ->]]);
      [congruence|].
    apply in_update_user in H2 as (b & Hb' & Ib & _ & [[_ Pb]|[_ ->]]);
      [congruence|].
    eauto.
Qed.

(** Appending a fresh identity that takes a payment nobody holds. *)
Lemma users_ok_append us tg un fn pid :
  users_ok us ->
  ~ In tg (map User.telegram_id us) ->
  List.find (bound_to pid) us = None ->
  users_ok (us ++ [User.mk (next_id (map User.id us)) tg un fn (Some pid)]).
Proof.
  intros [Hid Htg Hb] Hfresh Hnone. split.
  - rewrite map_app. simpl. apply List.NoDup_app; [assumption|repeat constructor; simpl; tauto|].
    intros x Hx [<-|[]]. now apply next_id_fresh in Hx.
  - rewrite map_app. simpl. apply List.NoDup_app; [assumption|repeat constructor; simpl; tauto|].
    intros x Hx [<-|[]]. tauto.
  - intros u1 u2 q H1 H2 P1 P2.
    apply in_app_iff in H1, H2. simpl in H1, H2.
    destruct H1 as [H1|[<-|[]]], H2 as [H2|[<-|[]]]; simpl in *; eauto.
    + injection P2 as <-. destruct (find_bound_some _ _ _ H1 P1). congruence.
    + injection P1 as <-. destruct (find_bound_some _ _ _ H2 P2). congruence.
Qed.

(** Pointing one stored identity at a payment that no other identity holds. *)
Lemma users_ok_set i pid us :
  users_ok us ->
  (forall u, In u us -> User.payment_id u = Some pid -> User.id u = i) ->
  users_ok (update_user i (set_payment_id (Some pid)) us).
Proof.
  intros [Hid Htg Hb] Honly. split.
  - now rewrite update_user_ids.
  - now rewrite update_user_tgs.
  - intros u1 u2 q H1 H2 P1 P2.
    apply in_update_user in H1 as (a & Ha & Ia & _ & Ca).
    apply in_update_user in H2 as (b & Hb' & Ib & _ & Cb).
    rewrite Ia, Ib.
    destruct Ca as [[Ea Pa]|[Na ->]], Cb as [[Eb Pb]|[Nb ->]].
    + congruence.
    + assert (q = pid) by congruence. subst q.
      rewrite (Honly b Hb' P2). assumption.
    + assert (q = pid) by congruence. subst q.
      rewrite (Honly a Ha P1). congruence.
    + eauto.
Qed.

Lemma no_holder_after_clear pid us o :
  users_ok us ->
  List.find (bound_to pid) us = Some o ->
  List.find (bound_to pid) (update_user (User.id o) (set_payment_id None) us)
  = None.
Proof.
  intros [Hid Htg Hb] Ho.
  destruct (find_bound_spec _ _ _ Ho) as [Hino Hpo].
  destruct (List.find _ (update_user _ _ _)) as [x|] eqn:E; [|reflexivity].
  exfalso. apply find_bound_spec in E as [Hx Px].
  apply in_update_user in Hx as (a & Ha & _ & _ & [[_ Pa]|[Na ->]]).
  - congruence.
  - apply Na. eapply Hb; eauto.
Qed.

(** *** The self-service claim keeps the user table consistent *)

Lemma handle_email_or_order_users_ok answer_ok db message :
  users_ok (users db) ->
  users_ok (users (fst (Main.handle_email_or_order answer_ok db message))).
Proof.
  intros Hok. unfold Main.handle_email_or_order. cbv zeta.
  destruct (from_user message) as [sender|]; [|assumption].
  destruct (text message) as [raw|]; [|assumption].
  destruct (negb (PyStr.truthy raw)); [assumption|].
  destruct (_ || _); [assumption|].
  destruct (negb (PyStr.truthy _)); [assumption|].
  destruct (Main.claim_query db _) as [payment|];
    [|destruct (Main.used_probe db _); assumption].
  set (tg := py_str (fu_id sender)).
  unfold Query.first_where.
  change (fun u : User.t =>
            match User.payment_id u with
            | Some k => k =? Payment.id payment
            | None => false
            end) with (bound_to (Payment.id payment)).
  destruct (List.find (bound_to _) (users db)) as [eu|] eqn:Eeu.
  - destruct (negb (String.eqb (User.telegram_id eu) tg)) eqn:Etaken;
      [assumption|].
    apply negb_false_iff, String.eqb_eq in Etaken.
    destruct (find_bound_spec _ _ _ Eeu) as [Hineu Hpeu].
    destruct (List.find (fun u => String.eqb (User.telegram_id u) tg) (users db))
      as [user|] eqn:Eu.
    + destruct (find_tg_spec _ _ _ Eu) as [Hinu Htgu].
      assert (eu = user) as ->.
      { apply (NoDup_map_inj User.telegram_id (users db));
          [apply Hok|assumption..|congruence]. }
      assert (Hgoal : users_ok
                (update_user (User.id user)
                   (set_payment_id (Some (Payment.id payment))) (users db))).
      { apply users_ok_set; [assumption|].
        intros u Hu Pu. eapply (ok_bind _ Hok); eauto. }
      destruct (Query.latest_group db); [|destruct answer_ok];
        first [exact Hgoal|exact Hok].
    + exfalso. apply find_tg_none in Eu. apply Eu.
      rewrite <- Etaken. now apply in_map.
  - destruct (List.find (fun u => String.eqb (User.telegram_id u) tg) (users db))
      as [user|] eqn:Eu.
    + assert (Hgoal : users_ok
                (update_user (User.id user)
                   (set_payment_id (Some (Payment.id payment))) (users db))).
      { apply users_ok_set; [assumption|].
        intros u Hu Pu. destruct (find_bound_some _ _ _ Hu Pu). congruence. }
      destruct (Query.latest_group db); [|destruct answer_ok];
        first [exact Hgoal|exact Hok].
    + assert (Hgoal : users_ok
                (users db ++
                   [User.mk (next_id (map User.id (users db))) tg
                      (fu_username sender) (Some (fu_full_name sender))
                      (Some (Payment.id payment))])).
      { apply users_ok_append; [assumption| |assumption].
        now apply find_tg_none. }
      destruct (Query.latest_group db); [|destruct answer_ok];
        first [exact Hgoal|exact Hok].
Qed.

Lemma dispatch_email_or_order_users_ok answer_ok db message :
  users_ok (users db) ->
  users_ok (users (fst (Main.dispatch_email_or_order answer_ok db message))).
Proof.
  intros Hok. unfold Main.dispatch_email_or_order.
  destruct (Main.handle_email_or_order_filter message);
    [now apply handle_email_or_order_users_ok|assumption].
Qed.

(** *** The administrative rebind keeps the user table consistent *)

Lemma rebind_payment_to_user_users_ok db payment_key telegram_id :
  users_ok (users db) ->
  users_ok (users (fst (Admin.rebind_payment_to_user db payment_key telegram_id))).
Proof.
  intros Hok. unfold Admin.rebind_payment_to_user.
  destruct (Admin.find_payment db payment_key) as [payment|]; [|assumption].
  unfold Query.first_where.
  change (fun u : User.t =>
            match User.payment_id u with
            | Some k => k =? Payment.id payment
            | None => false
            end) with (bound_to (Payment.id payment)).
  simpl.
  destruct (List.find (fun u => String.eqb _ telegram_id) (users db))
    as [nu|] eqn:Enu;
    destruct (List.find (bound_to _) (users db)) as [old|] eqn:Eold.
  - destruct (find_bound_spec _ _ _ Eold) as [Hino Hpo].
    destruct (negb (User.id old =? User.id nu)) eqn:Ed.
    + apply users_ok_set; [now apply users_ok_clear|].
      intros u Hu Pu. exfalso.
      pose proof (no_holder_after_clear _ _ _ Hok Eold) as Hnone.
      destruct (find_bound_some _ _ _ Hu Pu). congruence.
    + apply negb_false_iff, Z.eqb_eq in Ed.
      apply users_ok_set; [assumption|].
      intros u Hu Pu. rewrite <- Ed. eapply (ok_bind _ Hok); eauto.
  - apply users_ok_set; [assumption|].
    intros u Hu Pu. destruct (find_bound_some _ _ _ Hu Pu). congruence.
  - rewrite <- (update_user_ids (User.id old) None (users db)).
    apply users_ok_append.
    + now apply users_ok_clear.
    + rewrite update_user_tgs. now apply find_tg_none.
    + now apply no_holder_after_clear.
  - apply users_ok_append; [assumption| |assumption].
    now apply find_tg_none.
Qed.

(** *** The other handlers do not write the user table *)

Ltac split_cases :=
  repeat match goal with
         | |- context [match ?x with _ => _ end] => destruct x
         | |- context [if ?b then _ else _] => destruct b
         end.

(** [H] says that an effect is in a trace that does not have it. *)
Ltac not_in_trace H :=
  simpl in H; repeat (destruct H as [H|H]; [discriminate H|]); contradiction.

Lemma handle_prodamus_users strptime tok now db request :
  users (fst (Webhooks.handle_prodamus strptime tok now db request)) = users db.
Proof. unfold Webhooks.handle_prodamus. cbv zeta. split_cases; reflexivity. Qed.

Lemma add_test_payment_users admins now db message :
  users (fst (Main.add_test_payment admins now db message)) = users db.
Proof. unfold Main.add_test_payment. cbv zeta. split_cases; reflexivity. Qed.

Lemma approve_join_request_users ok now db event :
  users (fst (JoinRequests.approve_join_request ok now db event)) = users db.
Proof.
  unfold JoinRequests.approve_join_request. cbv zeta.
  split_cases; reflexivity.
Qed.

Lemma send_payment_info_db db query :
  fst (Admin.send_payment_info db query) = db.
Proof. unfold Admin.send_payment_info. split_cases; reflexivity. Qed.

Lemma admin_remove_user_users admins ok now db message :
  users (fst (Admin.admin_remove_user admins ok now db message)) = users db.
Proof.
  unfold Admin.admin_remove_user. cbv zeta. split_cases; reflexivity.
Qed.

Lemma admin_unban_user_users admins ok now db message :
  users (fst (Admin.admin_unban_user admins ok now db message)) = users db.
Proof.
  unfold Admin.admin_unban_user. cbv zeta. split_cases; reflexivity.
Qed.

Section Reachable.
Variable strptime : string -> string -> option Z.
Variable WEBHOOK_TOKEN : string.
Variable ADMIN_IDS : list Z.

Let step := step strptime WEBHOOK_TOKEN ADMIN_IDS.
Let run := run strptime WEBHOOK_TOKEN ADMIN_IDS.

Lemma step_users_ok db e : users_ok (users db) -> users_ok (users (step db e)).
Proof.
  intros Hok. destruct e; simpl.
  - now rewrite handle_prodamus_users.
  - now apply dispatch_email_or_order_users_ok.
  - now rewrite add_test_payment_users.
  - assumption.
  - now rewrite approve_join_request_users.
  - now rewrite send_payment_info_db.
  - now apply rebind_payment_to_user_users_ok.
  - now rewrite admin_remove_user_users.
  - now rewrite admin_unban_user_users.
Qed.

Lemma fold_step_users_ok events db :
  users_ok (users db) -> users_ok (users (fold_left step events db)).
Proof.
  revert db. induction events as [|e events IH]; intros db Hok; simpl;
    [assumption|].
  apply IH. now apply step_users_ok.
Qed.

Lemma run_users_ok events : users_ok (users (run events)).
Proof.
  apply fold_step_users_ok. simpl.
  split; simpl; try constructor. intros ? ? ? [].
Qed.
End Reachable.

Lemma users_ok_at_most_one db :
  users_ok (users db) -> at_most_one_binding db.
Proof.
  intros [Hid Htg Hb] pid. unfold holders.
  assert (Hnd : List.NoDup (List.filter (bound_to pid) (users db))).
  { apply List.NoDup_filter. eapply NoDup_map_inv; eassumption. }
  destruct (List.filter (bound_to pid) (users db)) as [|a [|b l]] eqn:E;
    simpl; try lia.
  exfalso.
  assert (Ha : In a (List.filter (bound_to pid) (users db)))
    by (rewrite E; simpl; auto).
  assert (Hb' : In b (List.filter (bound_to pid) (users db)))
    by (rewrite E; simpl; auto).
  apply filter_In in Ha as [Ha Pa], Hb' as [Hb' Pb].
  assert (Qa : User.payment_id a = Some pid).
  { unfold bound_to in Pa. destruct (User.payment_id a); [|discriminate].
    apply Z.eqb_eq in Pa. now subst. }
  assert (Qb : User.payment_id b = Some pid).
  { unfold bound_to in Pb. destruct (User.payment_id b); [|discriminate].
    apply Z.eqb_eq in Pb. now subst. }
  assert (a = b).
  { apply (NoDup_map_inj User.id (users db)); eauto. }
  subst b. inversion Hnd as [|? ? Hn _]. apply Hn. simpl. auto.
Qed.

(** *** Rebinding evicts the previous owner *)

Lemma find_app_some {A} (f : A -> bool) l1 l2 x :
  List.find f l1 = Some x -> List.find f (l1 ++ l2) = Some x.
Proof.
  induction l1 as [|y l1 IH]; simpl; [discriminate|].
  destruct (f y); auto.
Qed.

Lemma find_app_none {A} (f : A -> bool) l1 l2 :
  List.find f l1 = None -> List.find f (l1 ++ l2) = List.find f l2.
Proof.
  induction l1 as [|y l1 IH]; simpl; [reflexivity|].
  destruct (f y); [discriminate|auto].
Qed.

Lemma rebind_evicts db key tgA tgB payment a :
  users_ok (users db) ->
  Admin.find_payment db key = Some payment ->
  user_by_telegram_id db tgA = Some a ->
  User.payment_id a = Some (Payment.id payment) ->
  tgA <> tgB ->
  let db' := fst (Admin.rebind_payment_to_user db key tgB) in
  (exists a', user_by_telegram_id db' tgA = Some a'
              /\ User.payment_id a' = None)
  /\ (exists b', user_by_telegram_id db' tgB = Some b'
                 /\ User.payment_id b' = Some (Payment.id payment)).
Proof.
  intros Hok Hfind Ha Pa Hne. cbv zeta.
  unfold Admin.rebind_payment_to_user. rewrite Hfind.
  unfold user_by_telegram_id, Query.first_where in *.
  change (fun u : User.t =>
            match User.payment_id u with
            | Some k => k =? Payment.id payment
            | None => false
            end) with (bound_to (Payment.id payment)).
  destruct (find_tg_spec _ _ _ Ha) as [Hina Htga].
  destruct (find_bound_some _ _ _ Hina Pa) as [old Eold]. rewrite Eold.
  destruct (find_bound_spec _ _ _ Eold) as [Hino Hpo].
  assert (old = a) as ->.
  { apply (NoDup_map_inj User.id (users db)); [apply Hok|assumption..|].
    eapply (ok_bind _ Hok); eauto. }
  destruct (List.find (fun u => String.eqb (User.telegram_id u) tgB) (users db))
    as [nu|] eqn:Enu; simpl.
  - destruct (find_tg_spec _ _ _ Enu) as [Hinn Htgn].
    assert (Hid : User.id a <> User.id nu).
    { intros E. apply Hne. rewrite <- Htga, <- Htgn. f_equal.
      apply (NoDup_map_inj User.id (users db)); [apply Hok|assumption..]. }
    assert (Ed : (User.id a =? User.id nu) = false) by now apply Z.eqb_neq.
    assert (Ed' : (User.id nu =? User.id a) = false)
      by (apply Z.eqb_neq; congruence).
    rewrite Ed. simpl. rewrite !find_update_user_tg, Ha, Enu. simpl.
    rewrite Z.eqb_refl, Ed'. simpl. rewrite Ed, Z.eqb_refl. split; eexists; split; reflexivity.
  - rewrite (find_app_some _ _ _ (set_payment_id None a)).
    2:{ rewrite find_update_user_tg, Ha. simpl. now rewrite Z.eqb_refl. }
    rewrite find_app_none.
    2:{ now rewrite find_update_user_tg, Enu. }
    simpl. rewrite String.eqb_refl. split; eexists; split; reflexivity.
Qed.

(** C1.  In every state the bot can reach, each payment is held by at most
    one identity record, whatever sequence of webhooks, claims, rebinds,
    join confirmations, removals and unbans led there; and rebinding a
    payment held by identity A to another identity B leaves A without a
    payment and B holding it. *)
Theorem at_most_one_binding_invariant
    (strptime : string -> string -> option Z) (WEBHOOK_TOKEN : string)
    (ADMIN_IDS : list Z) (events : list Event) :
  let db := run strptime WEBHOOK_TOKEN ADMIN_IDS events in
  at_most_one_binding db
  /\ (forall e, at_most_one_binding (step strptime WEBHOOK_TOKEN ADMIN_IDS db e))
  /\ (forall key tgA tgB payment a,
        Admin.find_payment db key = Some payment ->
        user_by_telegram_id db tgA = Some a ->
        User.payment_id a = Some (Payment.id payment) ->
        tgA <> tgB ->
        let db' := fst (Admin.rebind_payment_to_user db key tgB) in
        (exists a', user_by_telegram_id db' tgA = Some a'
                    /\ User.payment_id a' = None)
        /\ (exists b', user_by_telegram_id db' tgB = Some b'
                       /\ User.payment_id b' = Some (Payment.id payment))).
Proof.
  cbv zeta. pose proof (run_users_ok strptime WEBHOOK_TOKEN ADMIN_IDS events) as Hok.
  split; [|split].
  - now apply users_ok_at_most_one.
  - intros e. apply users_ok_at_most_one. now apply step_users_ok.
  - intros key tgA tgB payment a Hf Ha Pa Hne.
    now apply (rebind_evicts _ key tgA tgB payment a).
Qed.

(** ** Ordered queries *)

Section OrderBy.
Context {A : Type}.
Variable before : A -> A -> bool.
Hypothesis before_total : forall a b, before a b = true \/ before b a = true.
Hypothesis before_trans :
  forall a b c, before a b = true -> before b c = true -> before a c = true.

Lemma first_insert_by x l :
  Query.first (Query.insert_by before x l)
  = match Query.first l with
    | None => Some x
    | Some h => if before x h then Some x else Some h
    end.
Proof. destruct l as [|h l]; simpl; [reflexivity|]. now destruct (before x h). Qed.

Lemma first_order_by_in l x :
  Query.first (Query.order_by before l) = Some x -> In x l.
Proof.
  revert x. induction l as [|y l IH]; simpl; intros x; [discriminate|].
  rewrite first_insert_by.
  destruct (Query.first (Query.order_by before l)) as [h|].
  - destruct (before y h); intros [= <-]; auto.
  - intros [= <-]. auto.
Qed.

Lemma first_order_by_nonempty l y :
  In y l -> exists x, Query.first (Query.order_by before l) = Some x.
Proof.
  destruct l as [|z l]; simpl; [tauto|]. intros _.
  rewrite first_insert_by.
  destruct (Query.first (Query.order_by before l)) as [h|]; [|eauto].
  destruct (before z h); eauto.
Qed.

(** The row returned by [.order_by(..).first()] is ahead of every row. *)
Lemma first_order_by_ahead l x :
  Query.first (Query.order_by before l) = Some x ->
  forall y, In y l -> before x y = true.
Proof.
  revert x. induction l as [|z l IH]; simpl; intros x; [discriminate|].
  rewrite first_insert_by.
  destruct (Query.first (Query.order_by before l)) as [h|] eqn:E.
  - specialize (IH h eq_refl).
    destruct (before z h) eqn:Ezh; intros [= <-] y [<-|Hy]; auto.
    + destruct (before_total z z); assumption.
    + eauto.
    + destruct (before_total z h); congruence.
  - intros [= <-] y [<-|Hy].
    + destruct (before_total z z); assumption.
    + destruct l as [|w l]; [destruct Hy|].
      destruct (first_order_by_nonempty (w :: l) w) as [? ?];
        [simpl; auto|congruence].
Qed.
End OrderBy.

Lemma created_desc_id_desc_total a b :
  Query.created_desc_id_desc a b = true \/ Query.created_desc_id_desc b a = true.
Proof.
  unfold Query.created_desc_id_desc.
  destruct (Z.ltb_spec (Payment.created_at b) (Payment.created_at a));
    [auto|].
  destruct (Z.ltb_spec (Payment.created_at a) (Payment.created_at b));
    [auto|].
  assert (E : Payment.created_at a = Payment.created_at b) by lia.
  rewrite E, Z.eqb_refl. simpl.
  destruct (Z.leb_spec (Payment.id b) (Payment.id a)); [auto|].
  right. apply Z.leb_le. lia.
Qed.

Lemma created_desc_id_desc_spec a b :
  Query.created_desc_id_desc a b = true <->
  Payment.created_at b < Payment.created_at a
  \/ (Payment.created_at b = Payment.created_at a
      /\ Payment.id b <= Payment.id a).
Proof.
  unfold Query.created_desc_id_desc.
  rewrite orb_true_iff, andb_true_iff, Z.ltb_lt, Z.eqb_eq, Z.leb_le.
  intuition lia.
Qed.

Lemma created_desc_id_desc_trans a b c :
  Query.created_desc_id_desc a b = true ->
  Query.created_desc_id_desc b c = true ->
  Query.created_desc_id_desc a c = true.
Proof. rewrite !created_desc_id_desc_spec. lia. Qed.

Lemma id_desc_total a b :
  Query.id_desc a b = true \/ Query.id_desc b a = true.
Proof. unfold Query.id_desc. rewrite !Z.leb_le. lia. Qed.

Lemma id_desc_trans a b c :
  Query.id_desc a b = true -> Query.id_desc b c = true ->
  Query.id_desc a c = true.
Proof. unfold Query.id_desc. rewrite !Z.leb_le. lia. Qed.

(** ** The matching resolver *)

Lemma col_eqb_eq col v : PyStr.col_eqb col v = true <-> col = Some v.
Proof.
  unfold PyStr.col_eqb. destruct col as [c|]; [|split; discriminate].
  rewrite String.eqb_eq. split; congruence.
Qed.

Lemma truthy_true s : PyStr.truthy s = true <-> s <> "".
Proof. destruct s; simpl; split; congruence. Qed.

Lemma truthy_false s : PyStr.truthy s = false <-> s = "".
Proof. destruct s; simpl; split; congruence. Qed.

(** The administrative criterion, read off [filters]: it holds exactly when
    the email or the order id equals the query or one of the phone
    alternatives applies.  No at-sign is looked for. *)
Lemma payment_filters_iff query p :
  Admin.payment_filters query p = true <->
  Payment.email p = Some query \/ Payment.order_id p = query
  \/ phone_criteria query p.
Proof.
  unfold Admin.payment_filters, Admin.phone_variants, phone_criteria.
  destruct (PyStr.truthy (Admin.normalize_phone query)) eqn:Et; simpl.
  - pose proof (proj1 (truthy_true _) Et) as Hne.
    rewrite !orb_true_iff, !andb_true_iff, col_eqb_eq, String.eqb_eq.
    split.
    + intros [[[He|Ho]|[_ Hp]]|[[_ Hl] Hs]]; auto.
      * right; right. split; [assumption|]. left. now apply col_eqb_eq.
      * right; right. split; [assumption|]. right.
        destruct (Payment.phone p) as [stored|]; [|discriminate].
        exists stored. repeat split; [|assumption].
        now apply Nat.leb_le.
    + intros [He|[Ho|[_ [Hp|(stored & Hp & Hl & Hs)]]]]; auto.
      * left; right. split; [exact Et|]. now apply col_eqb_eq.
      * right. rewrite Hp. split; [|assumption].
        split; [|exact (proj2 (Nat.leb_le 10 _) Hl)].
        apply truthy_true. intros E. rewrite E, PyStr.len_empty in Hl. lia.
  - rewrite !orb_false_r, orb_true_iff, col_eqb_eq, String.eqb_eq.
    apply truthy_false in Et. split; [tauto|].
    intros [He|[Ho|[Hne _]]]; tauto.
Qed.

Lemma payment_filters_spec query p :
  Admin.payment_filters query p = true ->
  Payment.email p = Some query \/ Payment.order_id p = query
  \/ phone_criteria query p.
Proof. apply payment_filters_iff. Qed.

Lemma claim_query_spec db text p :
  Main.claim_query db text = Some p ->
  In p (payments db) /\ Main.identifier_matches text p = true
  /\ Payment.status p = "paid" /\ Payment.used p = false.
Proof.
  unfold Main.claim_query. intros H. apply first_order_by_in in H.
  apply filter_In in H as [Hin Hc].
  rewrite !andb_true_iff, String.eqb_eq, negb_true_iff in Hc. tauto.
Qed.

Lemma used_probe_spec db text p :
  Main.used_probe db text = Some p ->
  In p (payments db) /\ Main.identifier_matches text p = true
  /\ Payment.status p = "paid".
Proof.
  unfold Main.used_probe. intros H. apply first_order_by_in in H.
  apply filter_In in H as [Hin Hc].
  rewrite !andb_true_iff, String.eqb_eq in Hc. tauto.
Qed.

Lemma find_payment_spec db query p :
  Admin.find_payment db query = Some p ->
  In p (payments db) /\ Admin.payment_filters query p = true.
Proof.
  unfold Admin.find_payment. intros H. apply first_order_by_in in H.
  now apply filter_In in H.
Qed.

Lemma find_payment_highest db text q :
  In q (payments db) -> Admin.payment_filters text q = true ->
  exists p, Admin.find_payment db text = Some p
            /\ In p (payments db)
            /\ Admin.payment_filters text p = true
            /\ Payment.id q <= Payment.id p.
Proof.
  intros Hin Hq. unfold Admin.find_payment.
  set (rows := List.filter _ (payments db)).
  assert (Hq' : In q rows) by (apply filter_In; split; assumption).
  destruct (first_order_by_nonempty Query.id_desc rows q Hq') as [p Hp].
  exists p. split; [exact Hp|].
  pose proof (first_order_by_in _ _ _ Hp) as Hp'.
  apply filter_In in Hp' as [Hp1 Hp2]. repeat split; try assumption.
  apply Z.leb_le.
  exact (first_order_by_ahead _ id_desc_total id_desc_trans _ _ Hp q Hq').
Qed.

(** C5, amended.  For a lookup string containing an at-sign, the
    self-service resolver (the claim query and the already-used probe)
    selects by exact email equality only.  The administrative resolver has
    no at-sign gate: its criterion is, for every string, email equality or
    order-id equality or one of the phone alternatives; what it returns is a
    stored record meeting that criterion, and it returns one whenever some
    stored record meets it, by any of the three alternatives. *)
Theorem at_sign_lookup_by_mode (db : DB) (text : string) :
  PyStr.contains_at text = true ->
  (forall q, Main.identifier_matches text q = true
             <-> Payment.email q = Some text)
  /\ (forall p, Main.claim_query db text = Some p ->
                Payment.email p = Some text)
  /\ (forall p, Main.used_probe db text = Some p ->
                Payment.email p = Some text)
  /\ (forall q, Admin.payment_filters text q = true
                <-> Payment.email q = Some text \/ Payment.order_id q = text
                    \/ phone_criteria text q)
  /\ (forall p, Admin.find_payment db text = Some p ->
                In p (payments db)
                /\ (Payment.email p = Some text \/ Payment.order_id p = text
                    \/ phone_criteria text p))
  /\ (forall q, In q (payments db) ->
                Payment.email q = Some text \/ Payment.order_id q = text
                \/ phone_criteria text q ->
                exists p, Admin.find_payment db text = Some p
                          /\ Payment.id q <= Payment.id p).
Proof.
  intros Hat.
  assert (Hm : forall q, Main.identifier_matches text q = true
                         <-> Payment.email q = Some text).
  { intros q. unfold Main.identifier_matches. rewrite Hat. apply col_eqb_eq. }
  split; [exact Hm|]. split; [|split; [|split; [|split]]].
  - intros p Hp. apply claim_query_spec in Hp. now apply Hm.
  - intros p Hp. apply used_probe_spec in Hp. now apply Hm.
  - intros q. apply payment_filters_iff.
  - intros p Hp. apply find_payment_spec in Hp as [Hin Hf].
    split; [assumption|]. now apply payment_filters_iff.
  - intros q Hin Hq. apply payment_filters_iff in Hq.
    destruct (find_payment_highest db text q Hin Hq)
      as (p & Hp & _ & _ & Hle). eauto.
Qed.

(** C6, amended.  When some record matches, each resolver returns a
    matching record: the self-service resolver (claim query and already-used
    probe) the one with the latest [created_at], the highest id among
    equals; the administrative resolver the one with the highest id,
    whatever its [created_at]. *)
Theorem resolver_tie_break (db : DB) (text : string) :
  let claimable p :=
    Main.identifier_matches text p && String.eqb (Payment.status p) "paid"
    && negb (Payment.used p) in
  let paid p :=
    Main.identifier_matches text p && String.eqb (Payment.status p) "paid" in
  let newest_first (p q : Payment.t) :=
    Payment.created_at q < Payment.created_at p
    \/ (Payment.created_at q = Payment.created_at p
        /\ Payment.id q <= Payment.id p) in
  (forall q, In q (payments db) -> claimable q = true ->
     exists p, Main.claim_query db text = Some p
               /\ In p (payments db) /\ claimable p = true
               /\ newest_first p q)
  /\ (forall q, In q (payments db) -> paid q = true ->
        exists p, Main.used_probe db text = Some p
                  /\ In p (payments db) /\ paid p = true
                  /\ newest_first p q)
  /\ (forall q, In q (payments db) -> Admin.payment_filters text q = true ->
        exists p, Admin.find_payment db text = Some p
                  /\ In p (payments db)
                  /\ Admin.payment_filters text p = true
                  /\ Payment.id q <= Payment.id p).
Proof.
  cbv zeta. split; [|split]; intros q Hin Hq.
  - unfold Main.claim_query.
    set (rows := List.filter _ (payments db)).
    assert (Hq' : In q rows) by (apply filter_In; split; assumption).
    destruct (first_order_by_nonempty Query.created_desc_id_desc rows q Hq')
      as [p Hp].
    exists p. split; [exact Hp|].
    pose proof (first_order_by_in _ _ _ Hp) as Hp'.
    apply filter_In in Hp' as [Hp1 Hp2]. split; [assumption|].
    split; [assumption|].
    apply created_desc_id_desc_spec.
    exact (first_order_by_ahead _ created_desc_id_desc_total
             created_desc_id_desc_trans _ _ Hp q Hq').
  - unfold Main.used_probe.
    set (rows := List.filter _ (payments db)).
    assert (Hq' : In q rows) by (apply filter_In; split; assumption).
    destruct (first_order_by_nonempty Query.created_desc_id_desc rows q Hq')
      as [p Hp].
    exists p. split; [exact Hp|].
    pose proof (first_order_by_in _ _ _ Hp) as Hp'.
    apply filter_In in Hp' as [Hp1 Hp2]. split; [assumption|].
    split; [assumption|].
    apply created_desc_id_desc_spec.
    exact (first_order_by_ahead _ created_desc_id_desc_total
             created_desc_id_desc_trans _ _ Hp q Hq').
  - unfold Admin.find_payment.
    set (rows := List.filter _ (payments db)).
    assert (Hq' : In q rows) by (apply filter_In; split; assumption).
    destruct (first_order_by_nonempty Query.id_desc rows q Hq') as [p Hp].
    exists p. split; [exact Hp|].
    pose proof (first_order_by_in _ _ _ Hp) as Hp'.
    apply filter_In in Hp' as [Hp1 Hp2]. split; [assumption|].
    split; [assumption|].
    apply Z.leb_le.
    exact (first_order_by_ahead _ id_desc_total id_desc_trans _ _ Hp q Hq').
Qed.

(** ** Resubmitting an identifier after a successful claim *)

Lemma identifier_matches_set_used text p :
  Main.identifier_matches text (set_used p) = Main.identifier_matches text p.
Proof. now destruct p. Qed.

Lemma in_update_payment_set_used p rows :
  In p rows ->
  In (set_used p) (update_payment (Payment.id p) set_used rows).
Proof.
  intros Hin. unfold update_payment. apply in_map_iff.
  exists p. now rewrite Z.eqb_refl.
Qed.

(** What a successful self-service claim leaves behind. *)
Lemma claim_success answer_ok db sender raw db' effects :
  Main.handle_email_or_order answer_ok db (mkMessage (Some sender) (Some raw))
  = (db', effects) ->
  In Commit effects ->
  PyStr.truthy raw = true
  /\ (String.eqb (PyStr.strip raw) Main.BUTTON_CHECK_PAYMENT
      || String.eqb (PyStr.strip raw) Main.BUTTON_SUPPORT) = false
  /\ PyStr.truthy (PyStr.strip raw) = true
  /\ exists payment u,
       Main.claim_query db (PyStr.strip raw) = Some payment
       /\ payments db'
          = update_payment (Payment.id payment) set_used (payments db)
       /\ user_by_telegram_id db' (py_str (fu_id sender)) = Some u
       /\ User.payment_id u = Some (Payment.id payment).
Proof.
  unfold Main.handle_email_or_order. cbn [from_user text]. cbv zeta.
  destruct (PyStr.truthy raw) eqn:Eraw; cbn [negb];
    [|intros [= <- <-] []].
  destruct (_ || _) eqn:Ebtn; [intros [= <- <-] []|].
  destruct (PyStr.truthy (PyStr.strip raw)) eqn:Etext; cbn [negb];
    [|intros [= <- <-] Hc; destruct answer_ok; not_in_trace Hc].
  destruct (Main.claim_query db (PyStr.strip raw)) as [payment|] eqn:Eq.
  2:{ destruct (Main.used_probe db _); intros [= <- <-] Hc;
        destruct answer_ok; not_in_trace Hc. }
  destruct (match Query.first_where _ (users db) with
            | Some eu => _
            | None => false
            end);
    [intros [= <- <-] Hc; destruct answer_ok; not_in_trace Hc|].
  intros H Hc. repeat split; try reflexivity.
  exists payment.
  set (tg := py_str (fu_id sender)) in *.
  unfold user_by_telegram_id, Query.first_where in *.
  destruct (List.find (fun u => String.eqb (User.telegram_id u) tg) (users db))
    as [user|] eqn:Eu.
  - exists (set_payment_id (Some (Payment.id payment)) user).
    split; [reflexivity|].
    destruct (Query.latest_group db); [|destruct answer_ok];
      injection H as <- <-; try (not_in_trace Hc); simpl;
      rewrite find_update_user_tg, Eu; simpl; rewrite Z.eqb_refl; auto.
  - exists (User.mk (next_id (map User.id (users db))) tg (fu_username sender)
              (Some (fu_full_name sender)) (Some (Payment.id payment))).
    split; [reflexivity|].
    destruct (Query.latest_group db); [|destruct answer_ok];
      injection H as <- <-; try (not_in_trace Hc); simpl;
      rewrite (find_app_none _ _ _ Eu); simpl; rewrite String.eqb_refl; auto.
Qed.

(** What the handler does on a resubmission in general: after a successful
    claim the payment is used and bound to the sender; when the same
    identifier is submitted again and no other unused paid payment matches
    it, the state is left unchanged and the only answer is the "already
    used" notice. *)
Lemma resend_after_claim (ok ok' : bool) (db : DB) (sender : FromUser)
    (raw : string) (db' : DB) (effects : list Effect) :
  let message := mkMessage (Some sender) (Some raw) in
  Main.handle_email_or_order ok db message = (db', effects) ->
  In Commit effects ->
  Main.claim_query db' (PyStr.strip raw) = None ->
  (exists payment u,
     Main.claim_query db (PyStr.strip raw) = Some payment
     /\ In (set_used payment) (payments db')
     /\ user_by_telegram_id db' (py_str (fu_id sender)) = Some u
     /\ User.payment_id u = Some (Payment.id payment))
  /\ fst (Main.handle_email_or_order ok' db' message) = db'
  /\ Main.handle_email_or_order true db' message
     = (db', [Answer PaymentAlreadyUsed]).
Proof.
  cbv zeta. intros Hrun Hcommit Hnone.
  destruct (claim_success _ _ _ _ _ _ Hrun Hcommit)
    as (Eraw & Ebtn & Etext & payment & u & Eq & Epay & Eu & Pu).
  destruct (claim_query_spec _ _ _ Eq) as (Hin & Hm & Hs & _).
  assert (Hused : In (set_used payment) (payments db')).
  { rewrite Epay. now apply in_update_payment_set_used. }
  split; [exists payment, u; auto|].
  unfold Main.handle_email_or_order. cbn [from_user text]. cbv zeta.
  rewrite Eraw, Ebtn, Etext, Hnone. cbn [negb].
  destruct (Main.used_probe db' (PyStr.strip raw)) eqn:Ep;
    [split; reflexivity|].
  exfalso. unfold Main.used_probe in Ep.
  set (rows := List.filter _ (payments db')) in Ep.
  assert (Hrow : In (set_used payment) rows).
  { apply filter_In. split; [assumption|].
    rewrite identifier_matches_set_used, Hm. simpl.
    rewrite Hs. reflexivity. }
  destruct (first_order_by_nonempty Query.created_desc_id_desc rows _ Hrow).
  congruence.
Qed.

(** ** Transport calls and the audit log *)

(** C4.  When the membership-transport call of a removal or of an unban
    fails, the handler commits nothing: the database it leaves is the one it
    found (same audit rows, same bindings, same ledger) and its trace has no
    commit.  A commit appears in either handler's trace only behind a
    transport call that succeeded. *)
Theorem revoke_restore_all_or_nothing (ADMIN_IDS : list Z) (now : Z) (db : DB)
    (message : Message) :
  (fst (Admin.admin_remove_user ADMIN_IDS false now db message) = db
   /\ ~ In Commit (snd (Admin.admin_remove_user ADMIN_IDS false now db message)))
  /\ (fst (Admin.admin_unban_user ADMIN_IDS false now db message) = db
      /\ ~ In Commit
             (snd (Admin.admin_unban_user ADMIN_IDS false now db message)))
  /\ (forall ok,
        In Commit (snd (Admin.admin_remove_user ADMIN_IDS ok now db message)) ->
        ok = true
        /\ exists chat user,
             snd (Admin.admin_remove_user ADMIN_IDS ok now db message)
             = [BanChatMember chat user; Commit; Answer UserRemoved])
  /\ (forall ok,
        In Commit (snd (Admin.admin_unban_user ADMIN_IDS ok now db message)) ->
        ok = true
        /\ exists chat user,
             snd (Admin.admin_unban_user ADMIN_IDS ok now db message)
             = [UnbanChatMember chat user; Commit; Answer UserUnbanned]).
Proof.
  repeat split.
  - unfold Admin.admin_remove_user. cbv zeta; cbn [negb]. split_cases; reflexivity.
  - unfold Admin.admin_remove_user. cbv zeta; cbn [negb].
    split_cases; simpl; intuition discriminate.
  - unfold Admin.admin_unban_user. cbv zeta; cbn [negb]. split_cases; reflexivity.
  - unfold Admin.admin_unban_user. cbv zeta; cbn [negb].
    split_cases; simpl; intuition discriminate.
  - revert H. unfold Admin.admin_remove_user. cbv zeta.
    destruct ok; [reflexivity|]. cbn [negb].
    split_cases; simpl; intuition discriminate.
  - revert H. unfold Admin.admin_remove_user. cbv zeta; cbn [negb].
    split_cases; simpl; try (intuition discriminate); eauto.
  - revert H. unfold Admin.admin_unban_user. cbv zeta.
    destruct ok; [reflexivity|]. cbn [negb].
    split_cases; simpl; intuition discriminate.
  - revert H. unfold Admin.admin_unban_user. cbv zeta; cbn [negb].
    split_cases; simpl; try (intuition discriminate); eauto.
Qed.

(** The database a join confirmation commits does not depend on whether the
    approval call succeeds: the commit comes first. *)
Lemma approve_join_request_commits_first ok now db event :
  fst (JoinRequests.approve_join_request ok now db event)
  = fst (JoinRequests.approve_join_request true now db event)
  /\ (In Commit (snd (JoinRequests.approve_join_request ok now db event)) ->
      exists rest,
        snd (JoinRequests.approve_join_request ok now db event)
        = Commit :: ApproveJoinRequest :: rest).
Proof.
  unfold JoinRequests.approve_join_request. cbv zeta.
  split_cases; simpl; split; try reflexivity; try tauto; eauto.
Qed.

(** ** Join confirmation and the group record *)

Lemma latest_group_none db :
  current_group db = [] -> Query.latest_group db = None.
Proof. unfold Query.latest_group. now intros ->. Qed.

(** C9.  A join request from an identity bound to a paid payment: when the
    group table is empty the request is approved for whatever chat the event
    names, one ["granted"] row is appended and the payment is marked used.
    Only when a group record exists is the event checked against it: a
    record with another chat id makes the handler ignore the event, a record
    without a chat id adopts the event's. *)
Theorem join_confirmation_by_group_record (ok : bool) (now : Z) (db : DB)
    (event : JoinRequests.ChatJoinRequest) (user : User.t) (payment : Payment.t) :
  let chat := py_str (JoinRequests.ev_chat_id event) in
  let result := JoinRequests.approve_join_request ok now db event in
  let granted groups :=
    mkDB (update_payment (Payment.id payment) set_used (payments db))
      (users db) (access_logs db ++ [granted_row db now event payment])
      groups in
  user_by_telegram_id db (py_str (JoinRequests.ev_from_user_id event))
  = Some user ->
  User.payment_id user = Some (Payment.id payment) ->
  Payment.id payment <> 0 ->
  payment_by_id db (Payment.id payment) = Some payment ->
  Payment.status payment = "paid" ->
  (current_group db = [] ->
   fst result = granted []
   /\ In (set_used payment) (payments (fst result))
   /\ exists rest, snd result = Commit :: ApproveJoinRequest :: rest)
  /\ (forall cg other,
        Query.latest_group db = Some cg ->
        CurrentGroup.chat_id cg = Some other ->
        other <> "" -> other <> chat ->
        result = (db, []))
  /\ (forall cg,
        Query.latest_group db = Some cg ->
        PyStr.otruthy (CurrentGroup.chat_id cg) = false ->
        fst result
        = granted (update_group (CurrentGroup.id cg) (set_chat_id chat)
                     (current_group db))).
Proof.
  cbv zeta. intros Hu Hp Hz Hpay Hs.
  unfold JoinRequests.approve_join_request.
  unfold user_by_telegram_id in Hu. rewrite Hu, Hp.
  apply Z.eqb_neq in Hz. rewrite Hz, Hpay, Hs. simpl.
  split; [|split].
  - intros Hg. rewrite (latest_group_none _ Hg), Hg.
    split; [reflexivity|]. split; [|eauto].
    simpl. apply in_update_payment_set_used.
    unfold payment_by_id, Query.first_where in Hpay.
    now apply find_some in Hpay.
  - intros cg other Hcg Hc Hne1 Hne2. rewrite Hcg, Hc. simpl.
    apply truthy_true in Hne1. rewrite Hne1.
    apply String.eqb_neq in Hne2. rewrite Hne2. reflexivity.
  - intros cg Hcg Hc. rewrite Hcg, Hc. reflexivity.
Qed.

(** ** Webhook ingestion *)

Lemma _get_first_truthy payload keys t :
  Webhooks._get_first payload keys = Some t -> PyStr.truthy t = true.
Proof.
  induction keys as [|k keys IH]; simpl; [discriminate|].
  destruct (payload !! k) as [v|]; [|assumption].
  destruct (PyStr.truthy (PyStr.strip v)) eqn:E; [|assumption].
  now intros [= <-].
Qed.

Lemma _get_first_otruthy payload keys :
  PyStr.otruthy (Webhooks._get_first payload keys)
  = match Webhooks._get_first payload keys with
    | Some _ => true
    | None => false
    end.
Proof.
  destruct (Webhooks._get_first payload keys) as [t|] eqn:E; [|reflexivity].
  simpl. now apply _get_first_truthy in E.
Qed.

Lemma _normalize_phone_otruthy value :
  PyStr.otruthy (Webhooks._normalize_phone value)
  = match Webhooks._normalize_phone value with
    | Some _ => true
    | None => false
    end.
Proof.
  unfold Webhooks._normalize_phone. destruct value as [v|]; [|reflexivity].
  destruct (negb (PyStr.truthy v)); [reflexivity|].
  destruct (PyStr.truthy (PyStr.digits v)) eqn:E; simpl; auto.
Qed.

Section Upsert.
Variable strptime : string -> string -> option Z.
Variable WEBHOOK_TOKEN : string.
Variables (email phone : option string) (status : string)
  (product_name : option string) (created_at : Z).

Let overlay := Webhooks.overlay email phone status product_name created_at.

Lemma update_overlay_ids i rows :
  map Payment.id (update_payment i overlay rows) = map Payment.id rows.
Proof.
  unfold update_payment. rewrite map_map. apply map_ext.
  intros p. now destruct (Payment.id p =? i).
Qed.

Lemma update_overlay_order_ids i rows :
  map Payment.order_id (update_payment i overlay rows)
  = map Payment.order_id rows.
Proof.
  unfold update_payment. rewrite map_map. apply map_ext.
  intros p. now destruct (Payment.id p =? i).
Qed.

Lemma update_overlay_keys i rows :
  map consumption_key (update_payment i overlay rows)
  = map consumption_key rows.
Proof.
  unfold update_payment. rewrite map_map. apply map_ext.
  intros p. now destruct (Payment.id p =? i).
Qed.

Lemma find_update_overlay i oid rows :
  List.find (fun p => String.eqb (Payment.order_id p) oid)
    (update_payment i overlay rows)
  = option_map (fun p => if Payment.id p =? i then overlay p else p)
      (List.find (fun p => String.eqb (Payment.order_id p) oid) rows).
Proof.
  unfold update_payment.
  induction rows as [|p rows IH]; simpl; [reflexivity|].
  destruct (Payment.id p =? i) eqn:Ei; simpl;
    destruct (String.eqb (Payment.order_id p) oid); simpl;
    rewrite ?Ei; auto.
Qed.
End Upsert.

Lemma find_order_id_none oid rows :
  List.find (fun p => String.eqb (Payment.order_id p) oid) rows = None ->
  ~ In oid (map Payment.order_id rows).
Proof.
  intros E Hin. apply in_map_iff in Hin as [p [Ho Hin]].
  apply (find_none _ _ E) in Hin. simpl in Hin.
  rewrite Ho, String.eqb_refl in Hin. discriminate.
Qed.

Lemma ledger_ok_append db p :
  ledger_ok db ->
  Payment.id p = next_id (map Payment.id (payments db)) ->
  ~ In (Payment.order_id p) (map Payment.order_id (payments db)) ->
  ledger_ok (mkDB (payments db ++ [p]) (users db) (access_logs db)
               (current_group db)).
Proof.
  intros [Hid Ho] Ep Hfresh. split; unfold order_ids_unique; simpl;
    rewrite map_app; simpl;
    (apply List.NoDup_app; [assumption|repeat constructor; simpl; tauto|]).
  - intros x Hx [<-|[]]. rewrite Ep in Hx. now apply next_id_fresh in Hx.
  - intros x Hx [<-|[]]. tauto.
Qed.

(** The upsert, with the guards discharged. *)
Lemma handle_prodamus_ingested strptime tok now db request oid :
  ingested tok request oid ->
  let payload := Webhooks.payload request in
  let email := Webhooks._get_first payload Webhooks.EMAIL_KEYS in
  let phone :=
    Webhooks._normalize_phone
      (Webhooks._get_first payload Webhooks.PHONE_KEYS) in
  let status :=
    Webhooks._normalize_status
      (Webhooks._get_first payload Webhooks.STATUS_KEYS) in
  let product_name := Webhooks._get_first payload Webhooks.PRODUCT_KEYS in
  let created_at :=
    Webhooks._parse_timestamp strptime now
      (Webhooks._get_first payload Webhooks.CREATED_KEYS) in
  Webhooks.handle_prodamus strptime tok now db request
  = (match payment_by_order_id db oid with
     | None =>
         mkDB (payments db ++
                 [Payment.mk (next_id (map Payment.id (payments db))) oid
                    email phone status product_name created_at false])
           (users db) (access_logs db) (current_group db)
     | Some payment =>
         mkDB (update_payment (Payment.id payment)
                 (Webhooks.overlay email phone status product_name created_at)
                 (payments db))
           (users db) (access_logs db) (current_group db)
     end, Webhooks.Ok200).
Proof.
  intros (Hauth & Hoid & Hcontact). cbv zeta.
  unfold Webhooks.handle_prodamus. cbv zeta. rewrite Hauth, Hoid.
  cbn [negb]. cbv beta iota.
  apply orb_true_iff in Hcontact.
  assert (Hguard : negb (PyStr.otruthy
                           (Webhooks._get_first (Webhooks.payload request)
                              Webhooks.EMAIL_KEYS))
                   && negb (PyStr.otruthy
                              (Webhooks._normalize_phone
                                 (Webhooks._get_first (Webhooks.payload request)
                                    Webhooks.PHONE_KEYS))) = false).
  { destruct Hcontact as [-> | ->]; simpl; [reflexivity|apply andb_false_r]. }
  rewrite Hguard. unfold payment_by_order_id.
  destruct (Query.first_where _ (payments db)); reflexivity.
Qed.

Lemma handle_prodamus_ledger_ok strptime tok now db request :
  ledger_ok db ->
  ledger_ok (fst (Webhooks.handle_prodamus strptime tok now db request)).
Proof.
  intros Hok. unfold Webhooks.handle_prodamus. cbv zeta.
  destruct (negb (Webhooks._is_authorized tok request)); [assumption|].
  destruct (Webhooks._get_first _ Webhooks.ORDER_ID_KEYS) as [oid|];
    [|assumption].
  destruct (_ && _); [assumption|].
  destruct (Query.first_where _ (payments db)) as [old|] eqn:E; simpl.
  - destruct Hok as [Hid Ho]. split; unfold order_ids_unique; simpl.
    + now rewrite update_overlay_ids.
    + now rewrite update_overlay_order_ids.
  - apply ledger_ok_append; [assumption|reflexivity|].
    simpl. now apply find_order_id_none.
Qed.

(** C7.  An accepted webhook with order id [oid] either creates the record
    (no record had this order id) or updates the one record that has it, in
    place: email, phone and product name are replaced only by non-empty
    incoming values, status and [created_at] always, and every other record
    is left as it is.  Order ids and primary keys stay unique. *)
Theorem webhook_upsert (strptime : string -> string -> option Z)
    (WEBHOOK_TOKEN : string) (now : Z) (db : DB) (request : Webhooks.Request)
    (oid : string) :
  let payload := Webhooks.payload request in
  let email := Webhooks._get_first payload Webhooks.EMAIL_KEYS in
  let phone :=
    Webhooks._normalize_phone
      (Webhooks._get_first payload Webhooks.PHONE_KEYS) in
  let status :=
    Webhooks._normalize_status
      (Webhooks._get_first payload Webhooks.STATUS_KEYS) in
  let product_name := Webhooks._get_first payload Webhooks.PRODUCT_KEYS in
  let created_at :=
    Webhooks._parse_timestamp strptime now
      (Webhooks._get_first payload Webhooks.CREATED_KEYS) in
  let db' :=
    fst (Webhooks.handle_prodamus strptime WEBHOOK_TOKEN now db request) in
  ledger_ok db ->
  ingested WEBHOOK_TOKEN request oid ->
  ledger_ok db'
  /\ (payment_by_order_id db oid = None ->
      payments db'
      = payments db ++
          [Payment.mk (next_id (map Payment.id (payments db))) oid email phone
             status product_name created_at false])
  /\ (forall old,
        payment_by_order_id db oid = Some old ->
        map Payment.id (payments db') = map Payment.id (payments db)
        /\ payment_by_order_id db' oid
           = Some (Payment.mk (Payment.id old) oid
                     (match email with
                      | Some e => Some e
                      | None => Payment.email old
                      end)
                     (match phone with
                      | Some ph => Some ph
                      | None => Payment.phone old
                      end)
                     status
                     (match product_name with
                      | Some n => Some n
                      | None => Payment.product_name old
                      end)
                     created_at (Payment.used old))
        /\ (forall p, In p (payments db) -> p <> old -> In p (payments db'))).
Proof.
  cbv zeta. intros Hok Hin. split; [now apply handle_prodamus_ledger_ok|].
  rewrite (handle_prodamus_ingested strptime _ now db _ _ Hin).
  split.
  - intros ->. reflexivity.
  - intros old Hold. rewrite Hold. cbn [fst payments].
    unfold payment_by_order_id, Query.first_where in *. cbn [payments].
    destruct (find_some _ _ Hold) as [Hino Heq]. apply String.eqb_eq in Heq.
    split; [apply update_overlay_ids|]. split.
    + rewrite find_update_overlay, Hold. cbn [option_map].
      rewrite Z.eqb_refl. unfold Webhooks.overlay.
      rewrite !_get_first_otruthy, _normalize_phone_otruthy, Heq.
      destruct (Webhooks._get_first _ Webhooks.EMAIL_KEYS),
        (Webhooks._normalize_phone _),
        (Webhooks._get_first _ Webhooks.PRODUCT_KEYS); reflexivity.
    + intros p Hp Hne. unfold update_payment. apply in_map_iff.
      exists p. split; [|assumption].
      destruct (Z.eqb_spec (Payment.id p) (Payment.id old)) as [E|]; auto.
      exfalso. apply Hne.
      apply (NoDup_map_inj Payment.id (payments db)); auto. apply Hok.
Qed.

(** C10.  Ingestion never writes [used], [id] or [order_id] of a stored
    record: whatever the request, the stored records keep these three fields
    position by position (a create only appends); and for a webhook whose
    order id is already stored, no record is added and the record found
    under that order id afterwards has the same id and the same [used]
    flag as before. *)
Theorem webhook_keeps_consumption_flag
    (strptime : string -> string -> option Z) (WEBHOOK_TOKEN : string)
    (now : Z) (db : DB) (request : Webhooks.Request) :
  let db' :=
    fst (Webhooks.handle_prodamus strptime WEBHOOK_TOKEN now db request) in
  (exists created,
     map consumption_key (payments db')
     = map consumption_key (payments db) ++ created)
  /\ (forall oid old,
        ingested WEBHOOK_TOKEN request oid ->
        payment_by_order_id db oid = Some old ->
        map consumption_key (payments db') = map consumption_key (payments db)
        /\ exists p',
             payment_by_order_id db' oid = Some p'
             /\ Payment.used p' = Payment.used old
             /\ Payment.id p' = Payment.id old
             /\ Payment.order_id p' = Payment.order_id old).
Proof.
  cbv zeta. split.
  - unfold Webhooks.handle_prodamus. cbv zeta.
    destruct (negb (Webhooks._is_authorized WEBHOOK_TOKEN request));
      [exists []; now rewrite app_nil_r|].
    destruct (Webhooks._get_first _ Webhooks.ORDER_ID_KEYS) as [oid|];
      [|exists []; now rewrite app_nil_r].
    destruct (_ && _); [exists []; now rewrite app_nil_r|].
    destruct (Query.first_where _ (payments db)) as [old|]; cbn [fst payments].
    + exists []. rewrite app_nil_r. apply update_overlay_keys.
    + eexists. rewrite map_app. reflexivity.
  - intros oid old Hin Hold.
    rewrite (handle_prodamus_ingested strptime _ now db _ _ Hin), Hold.
    cbn [fst payments]. split; [apply update_overlay_keys|].
    unfold payment_by_order_id, Query.first_where in *. cbn [payments].
    rewrite find_update_overlay, Hold. cbn [option_map].
    rewrite Z.eqb_refl. eexists. split; [reflexivity|]. auto.
Qed.

(** ** Status normalisation *)

Lemma mapping_get_default m key d :
  ~ In key (map fst m) -> Webhooks.mapping_get m key d = d.
Proof.
  induction m as [|[k v] m IH]; simpl; [reflexivity|].
  intros Hn. destruct (String.eqb_spec k key); [tauto|]. apply IH. tauto.
Qed.

Lemma handle_prodamus_stored_status strptime tok now db request oid :
  ingested tok request oid ->
  exists p',
    payment_by_order_id
      (fst (Webhooks.handle_prodamus strptime tok now db request)) oid
    = Some p'
    /\ Payment.status p'
       = Webhooks._normalize_status
           (Webhooks._get_first (Webhooks.payload request)
              Webhooks.STATUS_KEYS).
Proof.
  intros Hin.
  rewrite (handle_prodamus_ingested strptime _ now db _ _ Hin).
  unfold payment_by_order_id, Query.first_where.
  destruct (List.find _ (payments db)) as [old|] eqn:E; cbn [fst payments].
  - rewrite find_update_overlay, E. cbn [option_map]. rewrite Z.eqb_refl.
    eexists. split; reflexivity.
  - rewrite (find_app_none _ _ _ E). simpl. rewrite String.eqb_refl.
    eexists. split; reflexivity.
Qed.

(** C8, amended.  Ingestion strips and lower-cases the incoming status and
    maps the result through the vocabulary; a result outside the vocabulary
    is stored as it is, that is, the incoming value stripped and
    lower-cased (verbatim only when it already was); a missing status is
    stored as ["paid"]. *)
Theorem status_normalization (strptime : string -> string -> option Z)
    (WEBHOOK_TOKEN : string) (now : Z) (db : DB) (request : Webhooks.Request)
    (oid : string) :
  (forall v,
     PyStr.truthy v = true ->
     let n := PyStr.lower (PyStr.strip v) in
     (In n ["success"; "succeeded"; "paid"; "completed"] ->
      Webhooks._normalize_status (Some v) = "paid")
     /\ (In n ["cancelled"; "canceled"] ->
         Webhooks._normalize_status (Some v) = "cancelled")
     /\ (n = "failed" -> Webhooks._normalize_status (Some v) = "failed")
     /\ (n = "pending" -> Webhooks._normalize_status (Some v) = "pending")
     /\ (~ In n status_keys -> Webhooks._normalize_status (Some v) = n)
     /\ (~ In n status_keys -> n = v ->
         Webhooks._normalize_status (Some v) = v))
  /\ Webhooks._normalize_status None = "paid"
  /\ (ingested WEBHOOK_TOKEN request oid ->
      exists p',
        payment_by_order_id
          (fst (Webhooks.handle_prodamus strptime WEBHOOK_TOKEN now db request))
          oid = Some p'
        /\ Payment.status p'
           = Webhooks._normalize_status
               (Webhooks._get_first (Webhooks.payload request)
                  Webhooks.STATUS_KEYS)).
Proof.
  split; [|split; [reflexivity|apply handle_prodamus_stored_status]].
  intros v Hv. cbv zeta. unfold Webhooks._normalize_status. rewrite Hv.
  cbn [negb].
  repeat split.
  - simpl. intros [<-|[<-|[<-|[<-|[]]]]]; reflexivity.
  - simpl. intros [<-|[<-|[]]]; reflexivity.
  - intros ->. reflexivity.
  - intros ->. reflexivity.
  - intros Hn. now apply mapping_get_default.
  - intros Hn Hv'. rewrite mapping_get_default by assumption. exact Hv'.
Qed.

(** ** The ledger stays consistent in every reachable state *)

Lemma ledger_ok_set_used db i us logs groups :
  ledger_ok db ->
  ledger_ok (mkDB (update_payment i set_used (payments db)) us logs groups).
Proof.
  intros [Hid Ho]. unfold update_payment.
  split; unfold order_ids_unique; simpl; rewrite map_map.
  - erewrite map_ext; [exact Hid|].
    intros p. now destruct (Payment.id p =? i).
  - erewrite map_ext; [exact Ho|].
    intros p. now destruct (Payment.id p =? i).
Qed.

Lemma ledger_ok_frame db us logs groups :
  ledger_ok db -> ledger_ok (mkDB (payments db) us logs groups).
Proof. intros [Hid Ho]. now split. Qed.

Ltac ledger_cases :=
  cbv zeta; split_cases; simpl;
  first [ assumption
        | apply ledger_ok_set_used; assumption
        | apply ledger_ok_frame; assumption ].

Lemma add_test_payment_ledger_ok admins now db message :
  ledger_ok db -> ledger_ok (fst (Main.add_test_payment admins now db message)).
Proof.
  intros Hok. unfold Main.add_test_payment. cbv zeta.
  destruct (negb (Main.sender_is_admin admins message)); [assumption|].
  destruct (text message) as [raw|]; [|assumption].
  destruct (negb (PyStr.truthy raw)); [assumption|].
  assert (Hins : forall order_id email phone,
            ledger_ok
              (fst (if existsb
                         (fun p => String.eqb (Payment.order_id p) order_id)
                         (payments db)
                    then (db, [Raised])
                    else
                      (mkDB (payments db ++
                               [Payment.mk
                                  (next_id (map Payment.id (payments db)))
                                  order_id (Some email) phone "paid" None now
                                  false])
                         (users db) (access_logs db) (current_group db),
                       [Commit; Answer (TestPaymentAdded order_id email)])))).
  { intros order_id email phone.
    destruct (existsb _ (payments db)) eqn:E; [assumption|].
    apply ledger_ok_append; [assumption|reflexivity|]. simpl.
    intros Hin. apply in_map_iff in Hin as [p [Ho Hin]].
    assert (Ht : existsb (fun p => String.eqb (Payment.order_id p) order_id)
                   (payments db) = true).
    { apply existsb_exists. exists p. split; [assumption|].
      rewrite Ho. apply String.eqb_refl. }
    congruence. }
  destruct (PyStr.split raw) as [|a [|b [|c [|d [|e l]]]]];
    try assumption; apply Hins.
Qed.

Section ReachableLedger.
Variable strptime : string -> string -> option Z.
Variable WEBHOOK_TOKEN : string.
Variable ADMIN_IDS : list Z.

Lemma step_ledger_ok db e :
  ledger_ok db -> ledger_ok (step strptime WEBHOOK_TOKEN ADMIN_IDS db e).
Proof.
  intros Hok. destruct e; simpl.
  - now apply handle_prodamus_ledger_ok.
  - unfold Main.dispatch_email_or_order, Main.handle_email_or_order.
    ledger_cases.
  - now apply add_test_payment_ledger_ok.
  - now apply ledger_ok_frame.
  - unfold JoinRequests.approve_join_request. ledger_cases.
  - now rewrite send_payment_info_db.
  - unfold Admin.rebind_payment_to_user. ledger_cases.
  - unfold Admin.admin_remove_user. ledger_cases.
  - unfold Admin.admin_unban_user. ledger_cases.
Qed.

Lemma fold_step_ledger_ok events db :
  ledger_ok db ->
  ledger_ok (fold_left (step strptime WEBHOOK_TOKEN ADMIN_IDS) events db).
Proof.
  revert db. induction events as [|e events IH]; intros db Hok; simpl;
    [assumption|].
  apply IH. now apply step_ledger_ok.
Qed.

(** Order ids are unique in every state the bot can reach. *)
Lemma run_ledger_ok events :
  ledger_ok (run strptime WEBHOOK_TOKEN ADMIN_IDS events).
Proof.
  apply fold_step_ledger_ok. split; unfold order_ids_unique; simpl; constructor.
Qed.
End ReachableLedger.

(** ** Further properties of the handlers *)

(** ** Webhook guards *)


(** ** Field extraction *)

(** X2.  Field extraction.  [_get_first] returns the stripped value of the
    first listed key whose value is not blank, blank meaning empty once
    [str.strip] has been applied: the result is never empty, stripping it
    again changes nothing, and every key listed before the one it was read
    from is absent or blank.  It returns [None] exactly when every listed
    key is absent or blank. *)
Theorem get_first_is_first_non_blank (payload : Webhooks.Payload)
    (keys : list string) :
  (forall t,
     Webhooks._get_first payload keys = Some t ->
     t <> "" /\ PyStr.strip t = t
     /\ exists before key after value,
          keys = before ++ key :: after
          /\ payload !! key = Some value /\ t = PyStr.strip value
          /\ forall k v, In k before -> payload !! k = Some v ->
                         PyStr.strip v = "")
  /\ (Webhooks._get_first payload keys = None
      <-> forall k v, In k keys -> payload !! k = Some v ->
                      PyStr.strip v = "").
Proof.
  induction keys as [|key keys [IHs IHn]]; simpl.
  - split; [discriminate|]. split; [intros _ k v []|reflexivity].
  - destruct (payload !! key) as [value|] eqn:Ek.
    + destruct (PyStr.truthy (PyStr.strip value)) eqn:Et.
      * split.
        -- intros t [= <-]. split; [now apply truthy_true|].
           split; [apply PyStr.strip_strip|].
           exists [], key, keys, value. repeat split; auto.
           intros k v [].
        -- split; [discriminate|]. intros H. exfalso.
           specialize (H key value (or_introl eq_refl) Ek).
           rewrite H in Et. discriminate.
      * assert (Hblank : PyStr.strip value = "").
        { destruct (PyStr.strip value); [reflexivity|discriminate]. }
        split.
        -- intros t Ht.
           destruct (IHs t Ht) as (H1 & H2 & before & k & after & v & -> & H3 & H4 & H5).
           split; [assumption|]. split; [assumption|].
           exists (key :: before), k, after, v. repeat split; auto.
           intros k' v' [<-|Hin] Hv; [congruence|eauto].
        -- rewrite IHn. split.
           ++ intros H k v [<-|Hin] Hv; [congruence|eauto].
           ++ intros H k v Hin. apply H. now right.
    + split.
      * intros t Ht.
        destruct (IHs t Ht) as (H1 & H2 & before & k & after & v & -> & H3 & H4 & H5).
        split; [assumption|]. split; [assumption|].
        exists (key :: before), k, after, v. repeat split; auto.
        intros k' v' [<-|Hin] Hv; [congruence|eauto].
      * rewrite IHn. split.
        -- intros H k v [<-|Hin] Hv; [congruence|eauto].
        -- intros H k v Hin. apply H. now right.
Qed.

(** ** Stored phone numbers are filtered by [str.isdigit] *)

Lemma normalize_phone_all_digits v : all_digits (Main.normalize_phone v).
Proof. apply PyStr.digits_digits. Qed.

Lemma _normalize_phone_digits value ph :
  Webhooks._normalize_phone value = Some ph ->
  ph <> "" /\ all_digits ph.
Proof.
  unfold Webhooks._normalize_phone. destruct value as [v|]; [|discriminate].
  destruct (negb (PyStr.truthy v)); [discriminate|].
  destruct (PyStr.truthy (PyStr.digits v)) eqn:E; [|discriminate].
  intros [= <-]. split; [now apply truthy_true|apply PyStr.digits_digits].
Qed.

Lemma phones_ok_set_used i rows :
  phones_ok rows -> phones_ok (update_payment i set_used rows).
Proof.
  intros H p ph Hin Hp. unfold update_payment in Hin.
  apply in_map_iff in Hin as [q [<- Hq]].
  destruct (Payment.id q =? i); eauto.
Qed.

Lemma phones_ok_overlay i email phone status product created rows :
  (forall ph, phone = Some ph -> all_digits ph) ->
  phones_ok rows ->
  phones_ok
    (update_payment i (Webhooks.overlay email phone status product created)
       rows).
Proof.
  intros Hnew H p ph Hin Hp. unfold update_payment in Hin.
  apply in_map_iff in Hin as [q [<- Hq]].
  destruct (Payment.id q =? i); [|eauto].
  simpl in Hp. destruct (PyStr.otruthy phone); eauto.
Qed.

Lemma phones_ok_append rows p :
  phones_ok rows ->
  (forall ph, Payment.phone p = Some ph -> all_digits ph) ->
  phones_ok (rows ++ [p]).
Proof.
  intros H Hp q ph Hin Hq. apply in_app_iff in Hin as [Hin|[<-|[]]]; eauto.
Qed.

Ltac phones_cases :=
  cbv zeta; split_cases; simpl;
  first [ assumption | apply phones_ok_set_used; assumption ].

Lemma step_phones_normalized strptime tok admins db e :
  phones_normalized db -> phones_normalized (step strptime tok admins db e).
Proof.
  unfold phones_normalized. fold (phones_ok (payments db)).
  intros Hok.
  change (phones_ok (payments (step strptime tok admins db e))).
  destruct e; simpl.
  - unfold Webhooks.handle_prodamus. cbv zeta.
    destruct (negb (Webhooks._is_authorized tok request)); [assumption|].
    destruct (Webhooks._get_first _ Webhooks.ORDER_ID_KEYS); [|assumption].
    destruct (_ && _); [assumption|].
    destruct (Query.first_where _ (payments db)); simpl.
    + apply phones_ok_overlay; [|assumption].
      intros ph Hph. now apply _normalize_phone_digits in Hph.
    + apply phones_ok_append; [assumption|]. simpl.
      intros ph Hph. now apply _normalize_phone_digits in Hph.
  - unfold Main.dispatch_email_or_order, Main.handle_email_or_order.
    phones_cases.
  - unfold Main.add_test_payment. cbv zeta.
    destruct (negb (Main.sender_is_admin admins message)); [assumption|].
    destruct (text message) as [raw|]; [|assumption].
    destruct (negb (PyStr.truthy raw)); [assumption|].
    destruct (PyStr.split raw) as [|a [|b [|c [|d [|x l]]]]]; try assumption;
      destruct (existsb _ (payments db)); try assumption; simpl;
      (apply phones_ok_append; [assumption|]); simpl; intros ph; [discriminate|].
    intros [= <-]. apply normalize_phone_all_digits.
  - assumption.
  - unfold JoinRequests.approve_join_request. phones_cases.
  - now rewrite send_payment_info_db.
  - unfold Admin.rebind_payment_to_user. phones_cases.
  - unfold Admin.admin_remove_user. phones_cases.
  - unfold Admin.admin_unban_user. phones_cases.
Qed.

(** X3.  Phones are stored filtered: in every state the bot can reach,
    each stored phone number consists only of characters of which
    [str.isdigit] holds (filtering it again returns it whole), and the next
    event, whatever it is, keeps it so.  A phone written by a webhook is
    moreover never empty.  (These characters are not only the ten ASCII
    digits: [str.isdigit] also holds of digits of other scripts and of
    superscript digits.) *)
Theorem stored_phones_are_digits (strptime : string -> string -> option Z)
    (WEBHOOK_TOKEN : string) (ADMIN_IDS : list Z) (events : list Event) :
  phones_normalized (run strptime WEBHOOK_TOKEN ADMIN_IDS events)
  /\ (forall e,
        phones_normalized
          (step strptime WEBHOOK_TOKEN ADMIN_IDS
             (run strptime WEBHOOK_TOKEN ADMIN_IDS events) e))
  /\ (forall value ph,
        Webhooks._normalize_phone value = Some ph ->
        ph <> "" /\ all_digits ph).
Proof.
  assert (Hrun : forall evs db,
            phones_normalized db ->
            phones_normalized
              (fold_left (step strptime WEBHOOK_TOKEN ADMIN_IDS) evs db)).
  { induction evs as [|e evs IH]; intros db Hdb; simpl; [assumption|].
    apply IH. now apply step_phones_normalized. }
  assert (H0 : phones_normalized (run strptime WEBHOOK_TOKEN ADMIN_IDS events)).
  { apply Hrun. intros p ph []. }
  split; [exact H0|]. split.
  - intros e. now apply step_phones_normalized.
  - apply _normalize_phone_digits.
Qed.

(** ** The two resolvers compared *)

Lemma identifier_matches_admin text p :
  Main.identifier_matches text p = true ->
  Admin.payment_filters text p = true.
Proof.
  unfold Main.identifier_matches, Main.phone_filters, Main.phone_variants,
    Admin.payment_filters, Admin.phone_variants, Main.last10_of,
    Admin.last10_of, Main.normalize_phone, Admin.normalize_phone.
  destruct (PyStr.contains_at text);
    destruct (negb (PyStr.truthy _)); cbv beta iota zeta;
    intros H; rewrite ?orb_true_iff in *; tauto.
Qed.

(** X4.  Whatever the self-service resolver accepts, the administrative
    resolver accepts: a record matched by the buyer's identifier is matched
    by the same string in the administrative lookup, so when the claim query
    or the already-used probe returns a record, the administrative lookup
    returns one too, with an id at least as high. *)
Theorem self_service_match_is_admin_match (db : DB) (text : string) :
  (forall p, Main.identifier_matches text p = true ->
             Admin.payment_filters text p = true)
  /\ (forall p, Main.claim_query db text = Some p ->
                exists p', Admin.find_payment db text = Some p'
                           /\ Payment.id p <= Payment.id p')
  /\ (forall p, Main.used_probe db text = Some p ->
                exists p', Admin.find_payment db text = Some p'
                           /\ Payment.id p <= Payment.id p').
Proof.
  split; [apply identifier_matches_admin|].
  split; intros p Hp.
  - apply claim_query_spec in Hp as (Hin & Hm & _).
    destruct (find_payment_highest db text p Hin
                (identifier_matches_admin _ _ Hm))
      as (p' & Hp' & _ & _ & Hle). eauto.
  - apply used_probe_spec in Hp as (Hin & Hm & _).
    destruct (find_payment_highest db text p Hin
                (identifier_matches_admin _ _ Hm))
      as (p' & Hp' & _ & _ & Hle). eauto.
Qed.

(** ** Every bound payment is stored and consumed *)

Lemma update_set_used_ids i rows :
  map Payment.id (update_payment i set_used rows) = map Payment.id rows.
Proof.
  unfold update_payment. rewrite map_map. apply map_ext.
  intros p. now destruct (Payment.id p =? i).
Qed.

Lemma in_update_set_used i rows p' :
  In p' (update_payment i set_used rows) ->
  exists q, In q rows /\ Payment.id p' = Payment.id q
            /\ ((Payment.id q = i /\ Payment.used p' = true)
                \/ (Payment.id q <> i /\ p' = q)).
Proof.
  unfold update_payment. rewrite in_map_iff. intros [q [<- Hq]].
  exists q. destruct (Z.eqb_spec (Payment.id q) i); simpl; auto.
Qed.

Lemma bindings_consumed_frame db logs groups :
  bindings_consumed db ->
  bindings_consumed (mkDB (payments db) (users db) logs groups).
Proof. intros [He Hu]. now split. Qed.

Lemma bindings_consumed_set_used db i logs groups :
  bindings_consumed db ->
  bindings_consumed
    (mkDB (update_payment i set_used (payments db)) (users db) logs groups).
Proof.
  intros [He Hu]. split; simpl.
  - intros u pid Hin Hp. rewrite update_set_used_ids. eauto.
  - intros u p' Hin Hp' Hb.
    apply in_update_set_used in Hp' as (q & Hq & Eid & [[_ Hused]|[_ ->]]);
      [assumption|eauto].
Qed.

(** Binding identities to a stored payment while marking it used. *)
Lemma bindings_consumed_bind db pid users' logs groups :
  bindings_consumed db ->
  In pid (map Payment.id (payments db)) ->
  (forall u', In u' users' ->
     In u' (users db) \/ User.payment_id u' = Some pid
     \/ User.payment_id u' = None) ->
  bindings_consumed
    (mkDB (update_payment pid set_used (payments db)) users' logs groups).
Proof.
  intros [He Hu] Hpid Hus. split; simpl.
  - intros u' k Hin Hp. rewrite update_set_used_ids.
    destruct (Hus u' Hin) as [Hold|[Hb|Hn]]; [eauto|congruence|congruence].
  - intros u' p' Hin Hp' Hb.
    apply in_update_set_used in Hp' as (q & Hq & Eid & [[_ Hused]|[Hne ->]]);
      [assumption|].
    destruct (Hus u' Hin) as [Hold|[Hb'|Hn]]; [eauto|congruence|congruence].
Qed.

Lemma bindings_consumed_new_payment db p logs groups :
  bindings_consumed db ->
  Payment.id p = next_id (map Payment.id (payments db)) ->
  bindings_consumed (mkDB (payments db ++ [p]) (users db) logs groups).
Proof.
  intros [He Hu] Ep. split; simpl.
  - intros u pid Hin Hp. rewrite map_app. apply in_app_iff. eauto.
  - intros u q Hin Hq Hb. apply in_app_iff in Hq as [Hq|[<-|[]]]; [eauto|].
    exfalso. apply He in Hb; [|assumption]. rewrite Ep in Hb.
    now apply next_id_fresh in Hb.
Qed.

Lemma handle_prodamus_bindings_consumed strptime tok now db request :
  bindings_consumed db ->
  bindings_consumed
    (fst (Webhooks.handle_prodamus strptime tok now db request)).
Proof.
  intros Hok. unfold Webhooks.handle_prodamus. cbv zeta.
  destruct (negb (Webhooks._is_authorized tok request)); [assumption|].
  destruct (Webhooks._get_first _ Webhooks.ORDER_ID_KEYS); [|assumption].
  destruct (_ && _); [assumption|].
  destruct (Query.first_where _ (payments db)); simpl.
  - destruct Hok as [He Hu]. split; simpl.
    + intros u pid Hin Hp. rewrite update_overlay_ids. eauto.
    + intros u p' Hin Hp' Hb. unfold update_payment in Hp'.
      apply in_map_iff in Hp' as [q [<- Hq]].
      destruct (Payment.id q =? Payment.id t); simpl in *; eauto.
  - now apply bindings_consumed_new_payment.
Qed.

Lemma handle_email_or_order_bindings_consumed answer_ok db message :
  bindings_consumed db ->
  bindings_consumed (fst (Main.dispatch_email_or_order answer_ok db message)).
Proof.
  intros Hok. unfold Main.dispatch_email_or_order.
  destruct (Main.handle_email_or_order_filter message); [|assumption].
  unfold Main.handle_email_or_order. cbv zeta.
  destruct (from_user message) as [sender|]; [|assumption].
  destruct (text message) as [raw|]; [|assumption].
  destruct (negb (PyStr.truthy raw)); [assumption|].
  destruct (_ || _); [assumption|].
  destruct (negb (PyStr.truthy _)); [assumption|].
  destruct (Main.claim_query db _) as [payment|] eqn:Eq;
    [|destruct (Main.used_probe db _); assumption].
  apply claim_query_spec in Eq as (Hin & _).
  cbv zeta.
  destruct (match Query.first_where _ (users db) with
            | Some eu => _
            | None => false
            end); [assumption|].
  assert (Hgoal : forall logs groups,
            bindings_consumed
              (mkDB (update_payment (Payment.id payment) set_used (payments db))
                 (match Query.first_where
                          (fun u => String.eqb (User.telegram_id u)
                                      (py_str (fu_id sender))) (users db) with
                  | None =>
                      users db ++
                        [User.mk (next_id (map User.id (users db)))
                           (py_str (fu_id sender)) (fu_username sender)
                           (Some (fu_full_name sender))
                           (Some (Payment.id payment))]
                  | Some user =>
                      update_user (User.id user)
                        (set_payment_id (Some (Payment.id payment))) (users db)
                  end) logs groups)).
  { intros logs groups. apply bindings_consumed_bind;
      [assumption|now apply in_map|].
    intros u' Hu'. destruct (Query.first_where _ (users db)).
    - apply in_update_user in Hu' as (a & Ha & _ & _ & [[_ Pa]|[_ ->]]); auto.
    - apply in_app_iff in Hu' as [Hu'|[<-|[]]]; auto. }
  destruct (Query.latest_group db); [|destruct answer_ok];
    first [apply Hgoal|exact Hok].
Qed.

Lemma rebind_bindings_consumed db payment_key telegram_id :
  bindings_consumed db ->
  bindings_consumed
    (fst (Admin.rebind_payment_to_user db payment_key telegram_id)).
Proof.
  intros Hok. unfold Admin.rebind_payment_to_user.
  destruct (Admin.find_payment db payment_key) as [payment|] eqn:Ef;
    [|assumption].
  apply find_payment_spec in Ef as [Hin _]. cbv zeta. cbn [fst].
  apply bindings_consumed_bind; [assumption|now apply in_map|].
  assert (Hclear : forall u',
            In u' (match Query.first_where
                           (fun u => match User.payment_id u with
                                     | Some k => k =? Payment.id payment
                                     | None => false
                                     end) (users db) with
                   | Some old =>
                       if match Query.first_where
                                  (fun u => String.eqb (User.telegram_id u)
                                              telegram_id) (users db) with
                          | Some nu => negb (User.id old =? User.id nu)
                          | None => true
                          end
                       then update_user (User.id old) (set_payment_id None)
                              (users db)
                       else users db
                   | None => users db
                   end) ->
            In u' (users db) \/ User.payment_id u' = None).
  { intros u' Hu'. destruct (Query.first_where _ (users db)) as [old|]; auto.
    destruct (match Query.first_where _ (users db) with
              | Some nu => _
              | None => true
              end); auto.
    apply in_update_user in Hu' as (a & Ha & _ & _ & [[_ Pa]|[_ ->]]); auto. }
  intros u' Hu'.
  destruct (Query.first_where
              (fun u => String.eqb (User.telegram_id u) telegram_id) (users db))
    as [nu|] eqn:Enu.
  - apply in_update_user in Hu' as (a & Ha & _ & _ & [[_ Pa]|[_ ->]]); auto.
    destruct (Hclear a Ha); auto.
  - apply in_app_iff in Hu' as [Hu'|[<-|[]]]; auto.
    destruct (Hclear u' Hu'); auto.
Qed.

Ltac consumed_cases :=
  cbv zeta; split_cases; simpl;
  first [ assumption
        | apply bindings_consumed_set_used; assumption
        | apply bindings_consumed_frame; assumption ].

Lemma add_test_payment_bindings_consumed admins now db message :
  bindings_consumed db ->
  bindings_consumed (fst (Main.add_test_payment admins now db message)).
Proof.
  intros Hok. unfold Main.add_test_payment. cbv zeta.
  destruct (negb (Main.sender_is_admin admins message)); [assumption|].
  destruct (text message) as [raw|]; [|assumption].
  destruct (negb (PyStr.truthy raw)); [assumption|].
  destruct (PyStr.split raw) as [|a [|b [|c [|d [|x l]]]]]; try assumption;
    destruct (existsb _ (payments db)); try assumption; simpl;
    now apply bindings_consumed_new_payment.
Qed.

Lemma step_bindings_consumed strptime tok admins db e :
  bindings_consumed db -> bindings_consumed (step strptime tok admins db e).
Proof.
  intros Hok. destruct e; simpl.
  - now apply handle_prodamus_bindings_consumed.
  - now apply handle_email_or_order_bindings_consumed.
  - now apply add_test_payment_bindings_consumed.
  - now apply bindings_consumed_frame.
  - unfold JoinRequests.approve_join_request. consumed_cases.
  - now rewrite send_payment_info_db.
  - now apply rebind_bindings_consumed.
  - unfold Admin.admin_remove_user. consumed_cases.
  - unfold Admin.admin_unban_user. consumed_cases.
Qed.

Lemma run_bindings_consumed strptime tok admins events :
  bindings_consumed (run strptime tok admins events).
Proof.
  unfold run.
  assert (H : forall evs db,
            bindings_consumed db ->
            bindings_consumed (fold_left (step strptime tok admins) evs db)).
  { induction evs as [|e evs IH]; intros db Hdb; simpl; [assumption|].
    apply IH. now apply step_bindings_consumed. }
  apply H. split; simpl; intros ? ? [].
Qed.

(** X5.  In every state the bot can reach, and after any further event,
    an identity's [payment_id] is the key of a stored payment and that
    payment has [used = True]: the bot never leaves a binding to a missing
    payment or to one still open for claiming. *)
Theorem bound_payments_are_consumed (strptime : string -> string -> option Z)
    (WEBHOOK_TOKEN : string) (ADMIN_IDS : list Z) (events : list Event) :
  let db := run strptime WEBHOOK_TOKEN ADMIN_IDS events in
  (forall u pid,
     In u (users db) -> User.payment_id u = Some pid ->
     exists p, In p (payments db) /\ Payment.id p = pid
               /\ Payment.used p = true)
  /\ (forall e, bindings_consumed (step strptime WEBHOOK_TOKEN ADMIN_IDS db e)).
Proof.
  cbv zeta.
  pose proof (run_bindings_consumed strptime WEBHOOK_TOKEN ADMIN_IDS events)
    as Hok.
  split; [|intros e; now apply step_bindings_consumed].
  intros u pid Hin Hp.
  pose proof (bound_exists _ Hok u pid Hin Hp) as Hex.
  apply in_map_iff in Hex as [p [Eid Hp']].
  exists p. repeat split; [assumption..|].
  apply (bound_used _ Hok u p); congruence.
Qed.

Lemma claimable_has_no_owner db text payment :
  bindings_consumed db ->
  Main.claim_query db text = Some payment ->
  Query.first_where
    (fun u => match User.payment_id u with
              | Some k => k =? Payment.id payment
              | None => false
              end) (users db) = None.
Proof.
  intros Hok Hq.
  destruct (claim_query_spec _ _ _ Hq) as (Hin & _ & _ & Hunused).
  destruct (Query.first_where _ (users db)) as [eu|] eqn:E; [|reflexivity].
  exfalso. apply find_bound_spec in E as [Heu Hpeu].
  pose proof (bound_used _ Hok eu payment Heu Hin Hpeu). congruence.
Qed.

Lemma claim_of_found_payment_commits answer_ok db sender raw payment :
  bindings_consumed db ->
  PyStr.truthy raw = true ->
  PyStr.truthy (PyStr.strip raw) = true ->
  (String.eqb (PyStr.strip raw) Main.BUTTON_CHECK_PAYMENT
   || String.eqb (PyStr.strip raw) Main.BUTTON_SUPPORT) = false ->
  Main.claim_query db (PyStr.strip raw) = Some payment ->
  answer_ok = true \/ Query.latest_group db <> None ->
  let result :=
    Main.handle_email_or_order answer_ok db
      (mkMessage (Some sender) (Some raw)) in
  In Commit (snd result)
  /\ In (set_used payment) (payments (fst result))
  /\ exists u,
       user_by_telegram_id (fst result) (py_str (fu_id sender)) = Some u
       /\ User.payment_id u = Some (Payment.id payment).
Proof.
  intros Hok Hraw Htext Hbtn Hq Hsent. cbv zeta.
  destruct (claim_query_spec _ _ _ Hq) as (Hin & Hm & _ & Hunused).
  unfold Main.handle_email_or_order. cbn [from_user text]. cbv zeta.
  rewrite Hraw, Hbtn, Htext, Hq. cbn [negb].
  pose proof (claimable_has_no_owner _ _ _ Hok Hq) as Hfree.
  rewrite Hfree.
  unfold user_by_telegram_id, Query.first_where.
  destruct (List.find (fun u => String.eqb (User.telegram_id u)
                                  (py_str (fu_id sender))) (users db))
    as [user|] eqn:Eu;
    (destruct (Query.latest_group db);
     [|destruct answer_ok; [|exfalso; destruct Hsent; congruence]]);
    cbn [fst snd payments users];
    (split; [simpl; tauto|]);
    (split; [now apply in_update_payment_set_used|]).
  1,2: rewrite find_update_user_tg, Eu; simpl; rewrite Z.eqb_refl; eauto.
  1,2: rewrite (find_app_none _ _ _ Eu); simpl; rewrite String.eqb_refl; eauto.
Qed.

(** X6.  In a state the bot can reach, a payment the claim query returns has
    no owner, so the self-service handler never answers "already used with
    another Telegram account".  And whenever the claim query finds a payment
    for the stripped text of a message the handler is dispatched for, the
    claim goes through, provided a group is configured or the answer that
    precedes the commit is delivered: the handler commits, the payment is
    marked used and the sender is bound to it.  With no group configured
    and that answer failing, nothing is committed. *)
Theorem claim_never_meets_other_owner
    (strptime : string -> string -> option Z) (WEBHOOK_TOKEN : string)
    (ADMIN_IDS : list Z) (events : list Event) (answer_ok : bool)
    (message : Message) :
  let db := run strptime WEBHOOK_TOKEN ADMIN_IDS events in
  let result := Main.dispatch_email_or_order answer_ok db message in
  ~ In (Answer UsedByOtherAccount) (snd result)
  /\ (forall sender raw payment,
        message = mkMessage (Some sender) (Some raw) ->
        Main.handle_email_or_order_filter message = true ->
        PyStr.strip raw <> "" ->
        PyStr.strip raw <> Main.BUTTON_CHECK_PAYMENT ->
        PyStr.strip raw <> Main.BUTTON_SUPPORT ->
        Main.claim_query db (PyStr.strip raw) = Some payment ->
        (answer_ok = true \/ Query.latest_group db <> None ->
         In Commit (snd result)
         /\ In (set_used payment) (payments (fst result))
         /\ exists u,
              user_by_telegram_id (fst result) (py_str (fu_id sender)) = Some u
              /\ User.payment_id u = Some (Payment.id payment))
        /\ (answer_ok = false -> Query.latest_group db = None ->
            result = (db, [Answer GroupNotConfigured; Raised]))).
Proof.
  cbv zeta.
  pose proof (run_bindings_consumed strptime WEBHOOK_TOKEN ADMIN_IDS events)
    as Hok.
  set (db := run strptime WEBHOOK_TOKEN ADMIN_IDS events) in *.
  split.
  - unfold Main.dispatch_email_or_order.
    destruct (Main.handle_email_or_order_filter message); [|simpl; tauto].
    unfold Main.handle_email_or_order. cbv zeta.
    destruct (from_user message) as [sender|]; [|simpl; tauto].
    destruct (text message) as [raw|]; [|simpl; tauto].
    destruct (negb (PyStr.truthy raw)); [simpl; tauto|].
    destruct (_ || _); [simpl; tauto|].
    destruct (negb (PyStr.truthy _));
      [intros Hc; destruct answer_ok; not_in_trace Hc|].
    destruct (Main.claim_query db _) as [payment|] eqn:Eq.
    + rewrite (claimable_has_no_owner _ _ _ Hok Eq).
      destruct (Query.latest_group db); destruct answer_ok;
        intros Hc; not_in_trace Hc.
    + destruct (Main.used_probe db _); intros Hc;
        destruct answer_ok; not_in_trace Hc.
  - intros sender raw payment -> Hfilter Hne Hb1 Hb2 Hq.
    unfold Main.dispatch_email_or_order. rewrite Hfilter.
    assert (Hraw : PyStr.truthy raw = true).
    { destruct raw; [|reflexivity]. exfalso. apply Hne, PyStr.strip_empty. }
    assert (Htext : PyStr.truthy (PyStr.strip raw) = true)
      by now apply truthy_true.
    assert (Hbtn : (String.eqb (PyStr.strip raw) Main.BUTTON_CHECK_PAYMENT
                    || String.eqb (PyStr.strip raw) Main.BUTTON_SUPPORT)
                   = false).
    { apply orb_false_iff. split; now apply String.eqb_neq. }
    split.
    + intros Hsent. now apply claim_of_found_payment_commits.
    + intros -> Hg.
      unfold Main.handle_email_or_order. cbn [from_user text]. cbv zeta.
      rewrite Hraw, Hbtn, Htext, Hq. cbn [negb].
      rewrite (claimable_has_no_owner _ _ _ Hok Hq), Hg. reflexivity.
Qed.

(** ** The audit log only grows *)

Ltac appended_rows :=
  first
    [ exists []; rewrite app_nil_r; simpl;
      repeat split; solve [ lia | tauto | reflexivity | intros ? [] ]
    | eexists [_]; split; [reflexivity|]; simpl;
      split; [lia|]; split; [|exact I];
      intros ? [<-|[]]; simpl; split; [tauto|reflexivity] ].

Lemma step_appends_audit_rows strptime tok admins db e :
  exists added,
    access_logs (step strptime tok admins db e) = access_logs db ++ added
    /\ (length added <= 1)%nat
    /\ (forall l, In l added ->
          In (AccessLog.action l) audit_actions
          /\ AccessLog.id l = next_id (map AccessLog.id (access_logs db)))
    /\ match e with
       | JoinRequest _ _ _ | RemoveUser _ _ _ | UnbanUser _ _ _ => True
       | _ => added = []
       end.
Proof.
  destruct e; simpl.
  - unfold Webhooks.handle_prodamus. cbv zeta. split_cases; appended_rows.
  - unfold Main.dispatch_email_or_order, Main.handle_email_or_order.
    cbv zeta. split_cases; appended_rows.
  - unfold Main.add_test_payment. cbv zeta. split_cases; appended_rows.
  - appended_rows.
  - unfold JoinRequests.approve_join_request. cbv zeta.
    split_cases; appended_rows.
  - rewrite send_payment_info_db. appended_rows.
  - unfold Admin.rebind_payment_to_user. cbv zeta. split_cases; appended_rows.
  - unfold Admin.admin_remove_user. cbv zeta. split_cases; appended_rows.
  - unfold Admin.admin_unban_user. cbv zeta. split_cases; appended_rows.
Qed.

(** X7.  The audit log is append-only.  An event appends at most one row
    and changes no row already written; a new row carries a fresh key and
    one of the actions granted, revoked or unbanned; only join requests,
    removals and unbans append.  Hence the log after a run is a prefix of
    the log after any longer run. *)
Theorem audit_log_is_append_only (strptime : string -> string -> option Z)
    (WEBHOOK_TOKEN : string) (ADMIN_IDS : list Z) :
  (forall db e,
     exists added,
       access_logs (step strptime WEBHOOK_TOKEN ADMIN_IDS db e)
       = access_logs db ++ added
       /\ (length added <= 1)%nat
       /\ (forall l, In l added ->
             In (AccessLog.action l) audit_actions
             /\ AccessLog.id l = next_id (map AccessLog.id (access_logs db)))
       /\ match e with
          | JoinRequest _ _ _ | RemoveUser _ _ _ | UnbanUser _ _ _ => True
          | _ => added = []
          end)
  /\ (forall events more,
        exists added,
          access_logs (run strptime WEBHOOK_TOKEN ADMIN_IDS (events ++ more))
          = access_logs (run strptime WEBHOOK_TOKEN ADMIN_IDS events) ++ added).
Proof.
  split; [intros db e; apply step_appends_audit_rows|].
  intros events more. unfold run. rewrite fold_left_app.
  generalize (fold_left (step strptime WEBHOOK_TOKEN ADMIN_IDS) events empty_db).
  induction more as [|e more IH]; intros db; simpl.
  - exists []. now rewrite app_nil_r.
  - destruct (step_appends_audit_rows strptime WEBHOOK_TOKEN ADMIN_IDS db e)
      as (a1 & E1 & _).
    destruct (IH (step strptime WEBHOOK_TOKEN ADMIN_IDS db e)) as (a2 & E2).
    exists (a1 ++ a2). rewrite E2, E1. now rewrite app_assoc.
Qed.

(** ** Payments are never deleted and consumption is never undone *)

Lemma payments_kept_refl rows : payments_kept rows rows.
Proof. intros p Hp. exists p. unfold kept. auto. Qed.

Lemma payments_kept_trans a b c :
  payments_kept a b -> payments_kept b c -> payments_kept a c.
Proof.
  intros Hab Hbc p Hp.
  destruct (Hab p Hp) as (q & Hq & K1 & K2 & K3).
  destruct (Hbc q Hq) as (r & Hr & L1 & L2 & L3).
  exists r. unfold kept. repeat split; [congruence..|auto].
Qed.

Lemma payments_kept_update i f rows :
  (forall p, kept p (f p)) -> payments_kept rows (update_payment i f rows).
Proof.
  intros Hf p Hp.
  exists (if Payment.id p =? i then f p else p). split.
  - unfold update_payment. apply in_map_iff. eauto.
  - destruct (Payment.id p =? i); [apply Hf|unfold kept; auto].
Qed.

Lemma payments_kept_app rows extra : payments_kept rows (rows ++ extra).
Proof.
  intros p Hp. exists p. split; [apply in_app_iff; auto|unfold kept; auto].
Qed.

Lemma kept_set_used p : kept p (set_used p).
Proof. unfold kept. simpl. auto. Qed.

Lemma kept_overlay email phone status product created p :
  kept p (Webhooks.overlay email phone status product created p).
Proof. unfold kept. simpl. auto. Qed.

Ltac kept_cases :=
  cbv zeta; split_cases; simpl;
  first [ apply payments_kept_refl
        | apply payments_kept_update; exact kept_set_used
        | apply payments_kept_app ].

Lemma step_payments_kept strptime tok admins db e :
  payments_kept (payments db) (payments (step strptime tok admins db e)).
Proof.
  destruct e; simpl.
  - unfold Webhooks.handle_prodamus. cbv zeta. split_cases; simpl;
      first [ apply payments_kept_refl
            | apply payments_kept_update; intros p; apply kept_overlay
            | apply payments_kept_app ].
  - unfold Main.dispatch_email_or_order, Main.handle_email_or_order.
    kept_cases.
  - unfold Main.add_test_payment. kept_cases.
  - apply payments_kept_refl.
  - unfold JoinRequests.approve_join_request. kept_cases.
  - rewrite send_payment_info_db. apply payments_kept_refl.
  - unfold Admin.rebind_payment_to_user. kept_cases.
  - unfold Admin.admin_remove_user. kept_cases.
  - unfold Admin.admin_unban_user. kept_cases.
Qed.

(** X8.  No handler deletes a payment, changes its key or order id, or
    resets its [used] flag: every payment stored after a run is still
    stored, under the same key and order id, after any longer run, and if it
    was consumed it still is. *)
Theorem consumption_is_never_undone (strptime : string -> string -> option Z)
    (WEBHOOK_TOKEN : string) (ADMIN_IDS : list Z)
    (events more : list Event) (p : Payment.t) :
  In p (payments (run strptime WEBHOOK_TOKEN ADMIN_IDS events)) ->
  exists p',
    In p' (payments (run strptime WEBHOOK_TOKEN ADMIN_IDS (events ++ more)))
    /\ Payment.id p' = Payment.id p
    /\ Payment.order_id p' = Payment.order_id p
    /\ (Payment.used p = true -> Payment.used p' = true).
Proof.
  unfold run. rewrite fold_left_app.
  generalize (fold_left (step strptime WEBHOOK_TOKEN ADMIN_IDS) events empty_db).
  intros db.
  assert (H : payments_kept (payments db)
                (payments
                   (fold_left (step strptime WEBHOOK_TOKEN ADMIN_IDS) more db))).
  { revert db. induction more as [|e more IH]; intros db; simpl.
    - apply payments_kept_refl.
    - eapply payments_kept_trans; [apply step_payments_kept|apply IH]. }
  intros Hp. destruct (H p Hp) as (p' & Hp' & K). exists p'. now split.
Qed.

(** ** Removal keeps the binding and can be reverted *)

Lemma admin_lookups_ignore_logs db logs query p :
  Admin.find_payment
    (mkDB (payments db) (users db) logs (current_group db)) query
  = Admin.find_payment db query
  /\ Admin.bound_numeric_user
       (mkDB (payments db) (users db) logs (current_group db)) p
     = Admin.bound_numeric_user db p
  /\ Query.latest_group
       (mkDB (payments db) (users db) logs (current_group db))
     = Query.latest_group db.
Proof. repeat split. Qed.

(** X9.  A removal that went through changes nothing but the audit log: the
    identity stays bound to its payment, the payment stays used.  An unban
    requested next with the same identifier therefore finds the same payment
    and the same identity, calls the transport for the same chat and user,
    and on success leaves the log with a revoked row followed by an unbanned
    row. *)
Theorem removal_can_be_reverted (ADMIN_IDS : list Z) (ban_ok : bool)
    (now later : Z) (db : DB) (message : Message) :
  let removal := Admin.admin_remove_user ADMIN_IDS ban_ok now db message in
  let unban := Admin.admin_unban_user ADMIN_IDS true later (fst removal) message in
  In Commit (snd removal) ->
  users (fst removal) = users db
  /\ payments (fst removal) = payments db
  /\ current_group (fst removal) = current_group db
  /\ (exists chat user,
        snd removal = [BanChatMember chat user; Commit; Answer UserRemoved]
        /\ snd unban = [UnbanChatMember chat user; Commit; Answer UserUnbanned])
  /\ map AccessLog.action (access_logs (fst unban))
     = map AccessLog.action (access_logs db) ++ ["revoked"; "unbanned"].
Proof.
  cbv zeta. unfold Admin.admin_remove_user, Admin.admin_unban_user.
  destruct (negb (Admin.is_admin ADMIN_IDS message)) eqn:Eadm;
    [intros []|].
  destruct (text message) as [raw|]; [|intros []].
  destruct (negb (PyStr.truthy raw)) eqn:Eraw; [intros []|].
  cbv zeta.
  destruct (String.eqb (PyStr.strip raw) Admin.ADMIN_CANCEL) eqn:Ecancel;
    [intros [H|[]]; discriminate|].
  destruct (Admin.find_payment db (PyStr.strip raw)) as [payment|] eqn:Ef;
    [|intros [H|[]]; discriminate].
  destruct (Admin.bound_numeric_user db payment) as [user|] eqn:Eu;
    [|intros [H|[]]; discriminate].
  destruct (match from_user message with
            | Some sender => _
            | None => false
            end); [intros [H|[]]; discriminate|].
  destruct (Query.latest_group db) as [cg|] eqn:Eg;
    [|intros [H|[]]; discriminate].
  destruct (CurrentGroup.chat_id cg) as [chat|] eqn:Ec;
    [|intros [H|[]]; discriminate].
  destruct (negb (PyStr.truthy chat)) eqn:Et;
    [intros [H|[]]; discriminate|].
  destruct ban_ok; cbn [negb];
    [|intros [H|[H|[]]]; discriminate].
  intros _. cbn [fst snd users payments current_group access_logs].
  destruct (admin_lookups_ignore_logs db
              (access_logs db ++
                 [AccessLog.mk (next_id (map AccessLog.id (access_logs db)))
                    (User.telegram_id user)
                    (Some (if PyStr.otruthy (Payment.email payment)
                           then default "" (Payment.email payment)
                           else "unknown"))
                    (PyStr.str_or (Payment.order_id payment) "unknown")
                    (CurrentGroup.group_name cg) chat "revoked" now
                    "Removed by admin"])
              (PyStr.strip raw) payment) as (Hf & Hu & Hg).
  rewrite Hf, Ef, Hu, Eu, Hg, Eg, Ec, Et.
  cbn [fst snd access_logs negb].
  repeat split; [eauto|].
  rewrite !map_app. simpl. now rewrite <- app_assoc.
Qed.

(** ** Who can be banned, and whose join request is approved *)

(** X10.  The removal handler calls the ban transport only for an
    administrator's message, only with the telegram id of the identity bound
    to the payment the lookup returned, only if [str.isdigit] holds of that
    telegram id, and only with the non-empty chat id recorded for the latest
    group. *)
Theorem ban_targets_bound_identity (ADMIN_IDS : list Z) (ban_ok : bool)
    (now : Z) (db : DB) (message : Message) (chat uid : string) :
  In (BanChatMember chat uid)
    (snd (Admin.admin_remove_user ADMIN_IDS ban_ok now db message)) ->
  Admin.is_admin ADMIN_IDS message = true
  /\ PyStr.str_isdigit uid = true
  /\ (exists raw payment user,
        text message = Some raw
        /\ Admin.find_payment db (PyStr.strip raw) = Some payment
        /\ payment_user db payment = Some user
        /\ User.telegram_id user = uid)
  /\ (exists cg, Query.latest_group db = Some cg
                 /\ CurrentGroup.chat_id cg = Some chat /\ chat <> "").
Proof.
  unfold Admin.admin_remove_user.
  destruct (Admin.is_admin ADMIN_IDS message) eqn:Eadm; cbn [negb];
    [|intros []].
  destruct (text message) as [raw|]; [|intros []].
  destruct (negb (PyStr.truthy raw)); [intros []|].
  cbv zeta.
  destruct (String.eqb (PyStr.strip raw) Admin.ADMIN_CANCEL);
    [intros [H|[]]; discriminate|].
  destruct (Admin.find_payment db (PyStr.strip raw)) as [payment|] eqn:Ef;
    [|intros [H|[]]; discriminate].
  unfold Admin.bound_numeric_user.
  destruct (payment_user db payment) as [user|] eqn:Eu;
    [|intros [H|[]]; discriminate].
  destruct (PyStr.str_isdigit (User.telegram_id user)) eqn:Ed;
    [|intros [H|[]]; discriminate].
  destruct (match from_user message with
            | Some sender => _
            | None => false
            end); [intros [H|[]]; discriminate|].
  destruct (Query.latest_group db) as [cg|] eqn:Eg;
    [|intros [H|[]]; discriminate].
  destruct (CurrentGroup.chat_id cg) as [c|] eqn:Ec;
    [|intros [H|[]]; discriminate].
  destruct (PyStr.truthy c) eqn:Et; cbn [negb];
    [|intros [H|[]]; discriminate].
  apply truthy_true in Et.
  assert (Hgoal : BanChatMember c (User.telegram_id user)
                  = BanChatMember chat uid ->
                  true = true /\ PyStr.str_isdigit uid = true
                  /\ (exists raw0 payment0 user0,
                        Some raw = Some raw0
                        /\ Admin.find_payment db (PyStr.strip raw0) = Some payment0
                        /\ payment_user db payment0 = Some user0
                        /\ User.telegram_id user0 = uid)
                  /\ (exists cg0, Some cg = Some cg0
                                  /\ CurrentGroup.chat_id cg0 = Some chat
                                  /\ chat <> "")).
  { intros [= <- <-]. repeat split; try assumption.
    - exists raw, payment, user. auto.
    - exists cg. auto. }
  destruct ban_ok; cbn [negb snd].
  - intros [H|[H|[H|[]]]]; try discriminate. now apply Hgoal.
  - intros [H|[H|[]]]; try discriminate. now apply Hgoal.
Qed.

(** The guards of the approval, and what the handler does without it. *)
Lemma approve_join_request_guards (approve_ok : bool) (now : Z) (db : DB)
    (event : JoinRequests.ChatJoinRequest) :
  let result := JoinRequests.approve_join_request approve_ok now db event in
  (In ApproveJoinRequest (snd result) ->
   exists user payment,
     user_by_telegram_id db (py_str (JoinRequests.ev_from_user_id event))
     = Some user
     /\ User.payment_id user = Some (Payment.id payment)
     /\ In payment (payments db)
     /\ Payment.status payment = "paid"
     /\ forall cg c,
          Query.latest_group db = Some cg ->
          CurrentGroup.chat_id cg = Some c -> c <> "" ->
          c = py_str (JoinRequests.ev_chat_id event))
  /\ (In ApproveJoinRequest (snd result) <-> In Commit (snd result))
  /\ (~ In ApproveJoinRequest (snd result) -> result = (db, [])).
Proof.
  cbv zeta. unfold JoinRequests.approve_join_request, user_by_telegram_id.
  cbv zeta.
  destruct (Query.first_where _ (users db)) as [user|];
    [|simpl; intuition].
  destruct (User.payment_id user) as [pid|] eqn:Ep; [|simpl; intuition].
  destruct (pid =? 0); [simpl; intuition|].
  destruct (payment_by_id db pid) as [payment|] eqn:Epay;
    [|simpl; intuition].
  unfold payment_by_id, Query.first_where in Epay.
  apply find_some in Epay as [Hin Hid]. apply Z.eqb_eq in Hid. subst pid.
  destruct (String.eqb (Payment.status payment) "paid") eqn:Es; cbn [negb];
    [|simpl; intuition].
  apply String.eqb_eq in Es.
  destruct (Query.latest_group db) as [cg|].
  - destruct (CurrentGroup.chat_id cg) as [c|] eqn:Ec; simpl.
    + destruct (PyStr.truthy c) eqn:Et; simpl.
      * destruct (String.eqb c (py_str (JoinRequests.ev_chat_id event)))
          eqn:Eq; simpl; [|intuition].
        apply String.eqb_eq in Eq.
        repeat split; try tauto; auto.
        intros _. exists user, payment. repeat split; auto.
        intros cg' c' [= <-] Hc' _. congruence.
      * repeat split; try tauto; auto.
        intros _. exists user, payment. repeat split; auto.
        intros cg' c' [= <-] Hc' Hne. exfalso.
        assert (c' = c) by congruence. subst c'.
        apply truthy_true in Hne. congruence.
    + repeat split; try tauto; auto.
      intros _. exists user, payment. repeat split; auto.
      intros cg' c' [= <-] Hc' _. congruence.
  - simpl. repeat split; try tauto; auto.
    intros _. exists user, payment. repeat split; auto. discriminate.
Qed.

Lemma approve_join_request_raises now db event :
  let result := JoinRequests.approve_join_request false now db event in
  In ApproveJoinRequest (snd result) -> In Raised (snd result).
Proof.
  cbv zeta. unfold JoinRequests.approve_join_request. cbv zeta.
  split_cases; simpl; intuition (auto; discriminate).
Qed.

(** X11.  The handler calls [event.approve()] only for an identity bound to
    a stored payment whose status is paid, and, once the latest group has a
    chat id, only for a request to that chat.  It makes the call exactly
    when it commits.  When it does not make the call it has no effect at all
    and leaves the database as it was.  When it makes the call, the commit
    has been made by then: the database left is the one a successful
    approval leaves, also when the call raises. *)
Theorem approval_requires_paid_binding (approve_ok : bool) (now : Z) (db : DB)
    (event : JoinRequests.ChatJoinRequest) :
  let result := JoinRequests.approve_join_request approve_ok now db event in
  (In ApproveJoinRequest (snd result) ->
   exists user payment,
     user_by_telegram_id db (py_str (JoinRequests.ev_from_user_id event))
     = Some user
     /\ User.payment_id user = Some (Payment.id payment)
     /\ In payment (payments db)
     /\ Payment.status payment = "paid"
     /\ forall cg c,
          Query.latest_group db = Some cg ->
          CurrentGroup.chat_id cg = Some c -> c <> "" ->
          c = py_str (JoinRequests.ev_chat_id event))
  /\ (In ApproveJoinRequest (snd result) <-> In Commit (snd result))
  /\ (~ In ApproveJoinRequest (snd result) -> result = (db, []))
  /\ (In ApproveJoinRequest (snd result) ->
      fst result = fst (JoinRequests.approve_join_request true now db event)
      /\ (approve_ok = false -> In Raised (snd result))).
Proof.
  cbv zeta.
  destruct (approve_join_request_guards approve_ok now db event)
    as (Hguard & Hcommit & Hnone).
  split; [exact Hguard|]. split; [exact Hcommit|]. split; [exact Hnone|].
  intros Hcall.
  split; [apply approve_join_request_commits_first|].
  intros ->. now apply approve_join_request_raises.
Qed.

(** ** The group record *)

Lemma update_group_ids i v rows :
  map CurrentGroup.id (update_group i (set_chat_id v) rows)
  = map CurrentGroup.id rows.
Proof.
  unfold update_group. rewrite map_map. apply map_ext.
  intros g. now destruct (CurrentGroup.id g =? i).
Qed.

Lemma latest_group_in db cg :
  Query.latest_group db = Some cg -> In cg (current_group db).
Proof. unfold Query.latest_group. apply first_order_by_in. Qed.

(** What a join confirmation does to the group table: nothing, or it fills
    in the chat id the latest group lacks. *)
Lemma approve_join_request_groups ok now db event :
  current_group (fst (JoinRequests.approve_join_request ok now db event))
  = current_group db
  \/ exists cg,
       Query.latest_group db = Some cg
       /\ PyStr.otruthy (CurrentGroup.chat_id cg) = false
       /\ current_group (fst (JoinRequests.approve_join_request ok now db event))
          = update_group (CurrentGroup.id cg)
              (set_chat_id (py_str (JoinRequests.ev_chat_id event)))
              (current_group db).
Proof.
  unfold JoinRequests.approve_join_request. cbv zeta.
  destruct (Query.first_where _ (users db)); [|now left].
  destruct (User.payment_id _); [|now left].
  destruct (_ =? 0); [now left|].
  destruct (payment_by_id db _); [|now left].
  destruct (negb (String.eqb _ "paid")); [now left|].
  destruct (Query.latest_group db) as [cg|] eqn:Eg; [|now left].
  destruct (PyStr.otruthy (CurrentGroup.chat_id cg)) eqn:Et; cbn [negb andb].
  - destruct (negb (PyStr.col_eqb _ _)); now left.
  - right. exists cg. auto.
Qed.

Lemma step_groups strptime tok admins db e :
  current_group (step strptime tok admins db e) = current_group db
  \/ (exists link name,
        current_group (step strptime tok admins db e)
        = current_group db ++
            [CurrentGroup.mk (next_id (map CurrentGroup.id (current_group db)))
               None name link])
  \/ exists cg chat,
       Query.latest_group db = Some cg
       /\ PyStr.otruthy (CurrentGroup.chat_id cg) = false
       /\ current_group (step strptime tok admins db e)
          = update_group (CurrentGroup.id cg) (set_chat_id chat)
              (current_group db).
Proof.
  destruct e; simpl.
  - left. unfold Webhooks.handle_prodamus. cbv zeta. split_cases; reflexivity.
  - left. unfold Main.dispatch_email_or_order, Main.handle_email_or_order.
    cbv zeta. split_cases; reflexivity.
  - left. unfold Main.add_test_payment. cbv zeta. split_cases; reflexivity.
  - right; left. eauto.
  - destruct (approve_join_request_groups approve_ok now db event)
      as [H|(cg & H1 & H2 & H3)]; [now left|].
    right; right. eauto.
  - left. now rewrite send_payment_info_db.
  - left. unfold Admin.rebind_payment_to_user. cbv zeta.
    split_cases; reflexivity.
  - left. unfold Admin.admin_remove_user. cbv zeta. split_cases; reflexivity.
  - left. unfold Admin.admin_unban_user. cbv zeta. split_cases; reflexivity.
Qed.

Lemma step_group_ids_unique strptime tok admins db e :
  group_ids_unique db -> group_ids_unique (step strptime tok admins db e).
Proof.
  unfold group_ids_unique. intros Hok.
  destruct (step_groups strptime tok admins db e)
    as [-> | [(link & name & ->) | (cg & chat & _ & _ & ->)]].
  - assumption.
  - rewrite map_app. simpl.
    apply List.NoDup_app; [assumption|repeat constructor; simpl; tauto|].
    intros x Hx [<-|[]]. now apply next_id_fresh in Hx.
  - now rewrite update_group_ids.
Qed.

Lemma step_keeps_known_chat strptime tok admins db e g :
  group_ids_unique db ->
  In g (current_group db) ->
  PyStr.otruthy (CurrentGroup.chat_id g) = true ->
  In g (current_group (step strptime tok admins db e)).
Proof.
  intros Hok Hin Hg.
  destruct (step_groups strptime tok admins db e)
    as [-> | [(link & name & ->) | (cg & chat & Hcg & Hnone & ->)]].
  - assumption.
  - apply in_app_iff. now left.
  - unfold update_group. apply in_map_iff. exists g. split; [|assumption].
    destruct (Z.eqb_spec (CurrentGroup.id g) (CurrentGroup.id cg)) as [E|];
      [|reflexivity].
    exfalso. apply latest_group_in in Hcg.
    assert (g = cg)
      by (apply (NoDup_map_inj CurrentGroup.id (current_group db)); auto).
    subst g. congruence.
Qed.

(** X12.  The chat id of a group is written once.  In the states the bot
    can reach, group keys are unique, and a group row whose chat id is known
    is still in the table, unchanged, after any further events: a later join
    request for another chat, or a new group, does not overwrite it. *)
Theorem chat_id_is_written_once (strptime : string -> string -> option Z)
    (WEBHOOK_TOKEN : string) (ADMIN_IDS : list Z)
    (events more : list Event) (g : CurrentGroup.t) :
  In g (current_group (run strptime WEBHOOK_TOKEN ADMIN_IDS events)) ->
  PyStr.otruthy (CurrentGroup.chat_id g) = true ->
  group_ids_unique (run strptime WEBHOOK_TOKEN ADMIN_IDS (events ++ more))
  /\ In g (current_group (run strptime WEBHOOK_TOKEN ADMIN_IDS (events ++ more))).
Proof.
  assert (Huniq : forall evs db,
            group_ids_unique db ->
            group_ids_unique
              (fold_left (step strptime WEBHOOK_TOKEN ADMIN_IDS) evs db)).
  { induction evs as [|e evs IH]; intros db Hdb; simpl; [assumption|].
    apply IH. now apply step_group_ids_unique. }
  assert (H0 : group_ids_unique empty_db) by constructor.
  unfold run. rewrite fold_left_app.
  pose proof (Huniq events empty_db H0) as Hdb.
  revert Hdb.
  generalize (fold_left (step strptime WEBHOOK_TOKEN ADMIN_IDS) events empty_db).
  induction more as [|e more IH]; intros db Hdb Hin Hg; simpl.
  - now split.
  - apply IH; [now apply step_group_ids_unique| |assumption].
    now apply step_keeps_known_chat.
Qed.

Lemma group_id_desc_total a b :
  Query.group_id_desc a b = true \/ Query.group_id_desc b a = true.
Proof. unfold Query.group_id_desc. rewrite !Z.leb_le. lia. Qed.

Lemma group_id_desc_trans a b c :
  Query.group_id_desc a b = true -> Query.group_id_desc b c = true ->
  Query.group_id_desc a c = true.
Proof. unfold Query.group_id_desc. rewrite !Z.leb_le. lia. Qed.

Lemma latest_group_after_create db invite_link group_name :
  Query.latest_group (fst (Admin.create_current_group db invite_link group_name))
  = Some (CurrentGroup.mk (next_id (map CurrentGroup.id (current_group db)))
            None group_name invite_link).
Proof.
  unfold Query.latest_group, Admin.create_current_group. cbn [fst current_group].
  set (new := CurrentGroup.mk _ None group_name invite_link).
  set (rows := current_group db ++ [new]).
  assert (Hnew : In new rows) by (apply in_app_iff; simpl; auto).
  destruct (first_order_by_nonempty Query.group_id_desc rows new Hnew)
    as [x Hx].
  rewrite Hx. f_equal.
  pose proof (first_order_by_in _ _ _ Hx) as Hin.
  pose proof (first_order_by_ahead _ group_id_desc_total group_id_desc_trans
                _ _ Hx new Hnew) as Hahead.
  apply in_app_iff in Hin as [Hin|[<-|[]]]; [|reflexivity].
  exfalso. unfold Query.group_id_desc in Hahead. apply Z.leb_le in Hahead.
  assert (CurrentGroup.id x < next_id (map CurrentGroup.id (current_group db)))
    by (apply next_id_above; now apply in_map).
  simpl in Hahead. lia.
Qed.

(** X13.  The group set last is the authoritative one.  Right after a group
    is created it is the latest group and its chat id is unknown, so a claim
    delivers its invite link and no other, and removals and unbans stop
    before the transport call: they issue no ban or unban and write nothing
    until a join request has revealed the chat id. *)
Theorem new_group_is_authoritative (ADMIN_IDS : list Z) (ok : bool) (now : Z)
    (db : DB) (invite_link group_name : string) (message : Message) :
  let db' := fst (Admin.create_current_group db invite_link group_name) in
  Query.latest_group db'
  = Some (CurrentGroup.mk (next_id (map CurrentGroup.id (current_group db)))
            None group_name invite_link)
  /\ (forall answer_ok g l,
        In (Answer (InviteLink g l))
          (snd (Main.handle_email_or_order answer_ok db' message)) ->
        g = group_name /\ l = invite_link)
  /\ (fst (Admin.admin_remove_user ADMIN_IDS ok now db' message) = db'
      /\ forall chat uid,
           ~ In (BanChatMember chat uid)
               (snd (Admin.admin_remove_user ADMIN_IDS ok now db' message)))
  /\ (fst (Admin.admin_unban_user ADMIN_IDS ok now db' message) = db'
      /\ forall chat uid,
           ~ In (UnbanChatMember chat uid)
               (snd (Admin.admin_unban_user ADMIN_IDS ok now db' message))).
Proof.
  cbv zeta.
  pose proof (latest_group_after_create db invite_link group_name) as Hl.
  set (db' := fst (Admin.create_current_group db invite_link group_name)) in *.
  split; [exact Hl|]. split; [|split].
  - intros answer_ok g l. unfold Main.handle_email_or_order. cbv zeta.
    rewrite Hl.
    split_cases; simpl; intros H;
      repeat match type of H with
             | _ \/ _ => destruct H as [H|H]
             | False => destruct H
             | _ = _ => solve [discriminate H | injection H as <- <-; auto]
             end.
  - unfold Admin.admin_remove_user. cbv zeta. rewrite Hl. simpl.
    split; [split_cases; reflexivity|].
    intros chat uid. split_cases; simpl; intuition discriminate.
  - unfold Admin.admin_unban_user. cbv zeta. rewrite Hl. simpl.
    split; [split_cases; reflexivity|].
    intros chat uid. split_cases; simpl; intuition discriminate.
Qed.

(** ** Log export *)

Section OrderBySorted.
Context {A : Type}.
Variable before : A -> A -> bool.
Hypothesis before_total : forall a b, before a b = true \/ before b a = true.
Hypothesis before_trans :
  forall a b c, before a b = true -> before b c = true -> before a c = true.

Let ahead (a b : A) : Prop := before a b = true.

Lemma insert_by_permutation x l :
  Permutation (Query.insert_by before x l) (x :: l).
Proof.
  induction l as [|y l IH]; simpl; [reflexivity|].
  destruct (before x y); [reflexivity|].
  rewrite IH. apply perm_swap.
Qed.

Lemma order_by_permutation l : Permutation (Query.order_by before l) l.
Proof.
  induction l as [|x l IH]; simpl; [reflexivity|].
  rewrite insert_by_permutation. now constructor.
Qed.

Lemma insert_by_sorted x l :
  StronglySorted ahead l -> StronglySorted ahead (Query.insert_by before x l).
Proof.
  induction 1 as [|y l Hs IH Hy]; simpl.
  - repeat constructor.
  - destruct (before x y) eqn:E.
    + constructor; [now constructor|].
      constructor; [exact E|].
      eapply List.Forall_impl; [|exact Hy]. intros z Hz. unfold ahead in *. eauto.
    + constructor; [assumption|].
      assert (Hyx : ahead y x)
        by (destruct (before_total x y); [congruence|assumption]).
      eapply Permutation_Forall;
        [symmetry; apply insert_by_permutation|].
      now constructor.
Qed.

Lemma order_by_sorted l : StronglySorted ahead (Query.order_by before l).
Proof.
  induction l as [|x l IH]; simpl; [constructor|]. now apply insert_by_sorted.
Qed.
End OrderBySorted.

Lemma strongly_sorted_impl {A} (R S : A -> A -> Prop) l :
  (forall a b, R a b -> S a b) -> StronglySorted R l -> StronglySorted S l.
Proof.
  intros H. induction 1 as [|a l Hs IH Ha]; constructor; [assumption|].
  eapply List.Forall_impl; [|exact Ha]. intros b. apply H.
Qed.

Lemma selected_spec start_dt end_dt group_name l :
  LogExport.selected start_dt end_dt group_name l = true <->
  start_dt <= AccessLog.timestamp l < end_dt
  /\ match group_name with
     | Some g => g = "" \/ AccessLog.group_name l = g
     | None => True
     end.
Proof.
  unfold LogExport.selected.
  rewrite !andb_true_iff, Z.leb_le, Z.ltb_lt.
  destruct group_name as [g|]; simpl; [|tauto].
  destruct g as [|c g]; simpl; [tauto|].
  rewrite String.eqb_eq. intuition discriminate.
Qed.

(** X14.  The log export returns exactly the audit rows whose timestamp
    lies in the window (start included, end excluded) and, when a non-empty
    group name is given, whose group name equals it: none is dropped, none
    is duplicated, and they come in ascending order of timestamp.  It
    reports "no records" exactly when no row qualifies. *)
Theorem export_is_the_sorted_window (db : DB) (start_dt end_dt : Z)
    (group_name : option string) :
  let result := LogExport.export_logs_report db start_dt end_dt group_name in
  let rows := exported_rows result in
  Permutation rows
    (List.filter (LogExport.selected start_dt end_dt group_name)
       (access_logs db))
  /\ StronglySorted
       (fun a b => AccessLog.timestamp a <= AccessLog.timestamp b) rows
  /\ (forall l,
        In l rows <->
        In l (access_logs db)
        /\ start_dt <= AccessLog.timestamp l < end_dt
        /\ match group_name with
           | Some g => g = "" \/ AccessLog.group_name l = g
           | None => True
           end)
  /\ (result = LogExport.NoRecords <->
      forall l, In l (access_logs db) ->
                LogExport.selected start_dt end_dt group_name l = false).
Proof.
  cbv zeta. unfold LogExport.export_logs_report. cbv zeta.
  set (sel := List.filter _ (access_logs db)).
  set (logs := Query.order_by LogExport.timestamp_asc sel).
  assert (Hperm : Permutation logs sel) by apply order_by_permutation.
  assert (Hsort : StronglySorted
                    (fun a b => AccessLog.timestamp a <= AccessLog.timestamp b)
                    logs).
  { apply (strongly_sorted_impl
             (fun a b => LogExport.timestamp_asc a b = true)).
    - intros a b H. unfold LogExport.timestamp_asc in H. now apply Z.leb_le.
    - apply (order_by_sorted LogExport.timestamp_asc).
      + intros a b. unfold LogExport.timestamp_asc. rewrite !Z.leb_le. lia.
      + intros a b c. unfold LogExport.timestamp_asc. rewrite !Z.leb_le. lia. }
  assert (Hrows : exported_rows
                    match logs with
                    | [] => LogExport.NoRecords
                    | _ :: _ => LogExport.Document logs
                    end = logs) by (destruct logs; reflexivity).
  rewrite Hrows. split; [exact Hperm|]. split; [exact Hsort|]. split.
  - intros l. rewrite <- selected_spec. split.
    + intros Hl. apply (Permutation_in _ Hperm) in Hl.
      now apply filter_In in Hl.
    + intros Hl. apply (Permutation_in _ (Permutation_sym Hperm)).
      now apply filter_In.
  - split.
    + intros Hnone l Hl.
      destruct (LogExport.selected start_dt end_dt group_name l) eqn:E;
        [|reflexivity].
      exfalso. destruct logs as [|x logs'] eqn:El; [|discriminate].
      assert (Hin : In l sel) by (apply filter_In; auto).
      apply (Permutation_in _ (Permutation_sym Hperm)) in Hin. destruct Hin.
    + intros Hnone. destruct logs as [|x logs'] eqn:El; [reflexivity|].
      exfalso.
      assert (Hx : In x sel)
        by (apply (Permutation_in _ Hperm); simpl; auto).
      apply filter_In in Hx as [Hx Hs]. rewrite (Hnone x Hx) in Hs.
      discriminate.
Qed.

(** ** From a paid webhook to a claim *)

Lemma contains_at_not_button e :
  PyStr.contains_at e = true ->
  (String.eqb e Main.BUTTON_CHECK_PAYMENT || String.eqb e Main.BUTTON_SUPPORT)
  = false.
Proof.
  intros Hat. apply orb_false_iff. split; apply String.eqb_neq; intros ->;
    vm_compute in Hat; discriminate.
Qed.

Lemma handle_prodamus_latest_group strptime tok now db request :
  Query.latest_group (fst (Webhooks.handle_prodamus strptime tok now db request))
  = Query.latest_group db.
Proof.
  unfold Query.latest_group, Webhooks.handle_prodamus. cbv zeta.
  split_cases; reflexivity.
Qed.

(** X15.  End to end.  In a state the bot can reach, a webhook for a new
    order that carries an email address and a status normalised to paid is
    followed by a message the claim handler is dispatched for, whose
    stripped text is that address.  Provided a group is configured or the
    answer that precedes the commit is delivered, the claim goes through
    whoever the sender is: the handler commits, the sender's identity is
    bound to a payment stored with that email, and that payment is marked
    used. *)
Theorem paid_webhook_makes_email_claimable
    (strptime : string -> string -> option Z) (WEBHOOK_TOKEN : string)
    (ADMIN_IDS : list Z) (events : list Event) (now : Z)
    (request : Webhooks.Request) (oid e : string) (answer_ok : bool)
    (sender : FromUser) (raw : string) :
  let db := run strptime WEBHOOK_TOKEN ADMIN_IDS events in
  let db1 :=
    fst (Webhooks.handle_prodamus strptime WEBHOOK_TOKEN now db request) in
  let message := mkMessage (Some sender) (Some raw) in
  let result := Main.dispatch_email_or_order answer_ok db1 message in
  ingested WEBHOOK_TOKEN request oid ->
  payment_by_order_id db oid = None ->
  Webhooks._get_first (Webhooks.payload request) Webhooks.EMAIL_KEYS = Some e ->
  PyStr.contains_at e = true ->
  Webhooks._normalize_status
    (Webhooks._get_first (Webhooks.payload request) Webhooks.STATUS_KEYS)
  = "paid" ->
  Main.handle_email_or_order_filter message = true ->
  PyStr.strip raw = e ->
  answer_ok = true \/ Query.latest_group db <> None ->
  In Commit (snd result)
  /\ exists u p,
       user_by_telegram_id (fst result) (py_str (fu_id sender)) = Some u
       /\ User.payment_id u = Some (Payment.id p)
       /\ In p (payments (fst result))
       /\ Payment.email p = Some e
       /\ Payment.used p = true.
Proof.
  cbv zeta. intros Hin Hnew He Hat Hs Hfilter Hraw Hsent.
  unfold Main.dispatch_email_or_order. rewrite Hfilter.
  assert (Hok : bindings_consumed
                  (fst (Webhooks.handle_prodamus strptime WEBHOOK_TOKEN now
                          (run strptime WEBHOOK_TOKEN ADMIN_IDS events)
                          request))).
  { apply handle_prodamus_bindings_consumed, run_bindings_consumed. }
  rewrite <- (handle_prodamus_latest_group strptime WEBHOOK_TOKEN now _ request)
    in Hsent.
  set (db := run strptime WEBHOOK_TOKEN ADMIN_IDS events) in *.
  set (db1 := fst (Webhooks.handle_prodamus strptime WEBHOOK_TOKEN now db
                     request)) in *.
  assert (Hpay : exists new,
             In new (payments db1) /\ Payment.email new = Some e
             /\ Payment.status new = "paid" /\ Payment.used new = false).
  { unfold db1.
    rewrite (handle_prodamus_ingested strptime _ now db _ _ Hin), Hnew.
    cbn [fst payments]. eexists. split; [apply in_app_iff; right; left;
                                          reflexivity|].
    cbn [Payment.email Payment.status Payment.used]. rewrite He, Hs. auto. }
  destruct Hpay as (new & Hnew_in & Hnew_e & Hnew_s & Hnew_u).
  assert (Hmatch : forall q, Main.identifier_matches e q = true
                             <-> Payment.email q = Some e).
  { intros q. unfold Main.identifier_matches. rewrite Hat. apply col_eqb_eq. }
  assert (Hq : exists p, Main.claim_query db1 e = Some p).
  { unfold Main.claim_query.
    apply (first_order_by_nonempty Query.created_desc_id_desc _ new).
    apply filter_In. split; [assumption|].
    rewrite (proj2 (Hmatch new) Hnew_e), Hnew_s, Hnew_u. reflexivity. }
  destruct Hq as (p & Hq).
  destruct (claim_query_spec _ _ _ Hq) as (_ & Hm & _).
  apply Hmatch in Hm.
  assert (Hnonempty : PyStr.truthy e = true).
  { destruct e; [vm_compute in Hat; discriminate|reflexivity]. }
  assert (Hrawne : PyStr.truthy raw = true).
  { destruct raw; [|reflexivity]. rewrite PyStr.strip_empty in Hraw.
    subst e. discriminate Hat. }
  subst e.
  destruct (claim_of_found_payment_commits answer_ok db1 sender raw p Hok
              Hrawne Hnonempty (contains_at_not_button _ Hat) Hq Hsent)
    as (Hc & Hp & u & Hu & Hpu).
  split; [exact Hc|].
  exists u, (set_used p). repeat split; try assumption.
Qed.

(** ** Slash commands *)

Lemma rebind_users_telegram_ids db key tg u' :
  In u' (users (fst (Admin.rebind_payment_to_user db key tg))) ->
  (exists u, In u (users db) /\ User.telegram_id u' = User.telegram_id u)
  \/ User.telegram_id u' = tg.
Proof.
  unfold Admin.rebind_payment_to_user.
  destruct (Admin.find_payment db key) as [payment|]; [|simpl; eauto].
  cbv zeta. cbn [fst users].
  assert (Hclear : forall x,
            In x (match Query.first_where
                          (fun u => match User.payment_id u with
                                    | Some k => k =? Payment.id payment
                                    | None => false
                                    end) (users db) with
                  | Some old =>
                      if match Query.first_where
                                 (fun u => String.eqb (User.telegram_id u) tg)
                                 (users db) with
                         | Some nu => negb (User.id old =? User.id nu)
                         | None => true
                         end
                      then update_user (User.id old) (set_payment_id None)
                             (users db)
                      else users db
                  | None => users db
                  end) ->
            exists u, In u (users db)
                      /\ User.telegram_id x = User.telegram_id u).
  { intros x Hx. destruct (Query.first_where _ (users db)) as [old|]; eauto.
    destruct (match Query.first_where _ (users db) with
              | Some nu => _
              | None => true
              end); eauto.
    apply in_update_user in Hx as (a & Ha & _ & Htg & _). eauto. }
  destruct (Query.first_where
              (fun u => String.eqb (User.telegram_id u) tg) (users db))
    as [nu|] eqn:Enu; intros Hu'.
  - apply in_update_user in Hu' as (a & Ha & _ & Htg & _).
    destruct (Hclear a Ha) as (u & Hu & Eu). left. exists u. split; congruence.
  - apply in_app_iff in Hu' as [Hu'|[<-|[]]]; [left; now apply Hclear|].
    now right.
Qed.

(** X17.  The [/rebind_payment] command runs the rebind only for an
    administrator and only with a non-empty payment key and a telegram id of
    which [str.isdigit] holds; in every other case it leaves the database as
    it was.  So every identity row present afterwards carries the telegram
    id of a row present before, or one of which [str.isdigit] holds. *)
Theorem rebind_command_needs_numeric_id (ADMIN_IDS : list Z) (db : DB)
    (message : Message) :
  let outcome := Commands.rebind_payment ADMIN_IDS db message in
  (forall result,
     outcome = Commands.Ran result ->
     Admin.is_admin ADMIN_IDS message = true
     /\ exists key tg,
          key <> "" /\ PyStr.str_isdigit tg = true
          /\ result = Admin.rebind_payment_to_user db key tg)
  /\ ((forall result, outcome <> Commands.Ran result) ->
      Commands.outcome_db db outcome = db)
  /\ (forall u',
        In u' (users (Commands.outcome_db db outcome)) ->
        (exists u, In u (users db)
                   /\ User.telegram_id u' = User.telegram_id u)
        \/ PyStr.str_isdigit (User.telegram_id u') = true).
Proof.
  cbv zeta. unfold Commands.rebind_payment.
  assert (Hsame : forall u' : User.t,
            In u' (users db) ->
            (exists u, In u (users db)
                       /\ User.telegram_id u' = User.telegram_id u)
            \/ PyStr.str_isdigit (User.telegram_id u') = true)
    by (intros u' Hu'; left; eauto).
  destruct (Admin.is_admin ADMIN_IDS message); cbn [negb];
    [|repeat split; try discriminate; auto].
  destruct (text message) as [raw|];
    [|repeat split; try discriminate; auto].
  destruct (negb (PyStr.truthy raw));
    [repeat split; try discriminate; auto|].
  destruct (PyStr.split_max 2 raw) as [|p0 [|p1 [|p2 rest]]];
    try (repeat split; try discriminate; auto; fail).
  cbv zeta.
  destruct (PyStr.truthy (PyStr.strip p1)) eqn:Ek; cbn [negb orb];
    [|repeat split; try discriminate; auto].
  destruct (PyStr.str_isdigit (PyStr.strip p2)) eqn:Ed; cbn [negb];
    [|repeat split; try discriminate; auto].
  apply truthy_true in Ek.
  split; [|split].
  - intros result [= <-]. split; [reflexivity|]. eauto.
  - intros H. exfalso. eapply H. reflexivity.
  - cbn [Commands.outcome_db]. intros u' Hu'.
    destruct (rebind_users_telegram_ids _ _ _ _ Hu') as [H| ->]; auto.
Qed.


(** ** The payment report *)

Lemma in_firstn {A} n (l : list A) x : In x (firstn n l) -> In x l.
Proof.
  revert l. induction n as [|n IH]; intros [|y l]; simpl; try tauto.
  intros [->|H]; auto.
Qed.

Lemma firstn_at_most {A} n (l : list A) : (length (firstn n l) <= n)%nat.
Proof.
  revert l. induction n as [|n IH]; intros [|y l]; simpl; try lia.
  specialize (IH l). lia.
Qed.

Lemma strongly_sorted_firstn {A} (R : A -> A -> Prop) n l :
  StronglySorted R l -> StronglySorted R (firstn n l).
Proof.
  revert l. induction n as [|n IH]; intros l Hs; [constructor|].
  destruct Hs as [|a l Hs Ha]; simpl; constructor; [now apply IH|].
  apply List.Forall_forall. intros x Hx. apply in_firstn in Hx.
  now apply (proj1 (List.Forall_forall _ _) Ha).
Qed.

(** X19.  The payment report is read-only and bounded.  It never writes to
    the database.  When it shows a payment, that payment is the one the
    administrative lookup returns, the identity shown is the one bound to
    it, and the log rows shown are at most five rows of the audit log, each
    with the payment's order id or email, newest first.  When the lookup
    finds nothing the only answer is "payment not found". *)
Theorem payment_report_is_bounded (db : DB) (query : string) :
  fst (Admin.send_payment_info db query) = db
  /\ (Admin.find_payment db query = None ->
      snd (Admin.send_payment_info db query) = [Answer PaymentNotFound])
  /\ (forall p u logs,
        In (Answer (PaymentInfo p u logs))
          (snd (Admin.send_payment_info db query)) ->
        Admin.find_payment db query = Some p
        /\ u = payment_user db p
        /\ (length logs <= 5)%nat
        /\ (forall l, In l logs ->
              In l (access_logs db)
              /\ (AccessLog.order_id l = Payment.order_id p
                  \/ AccessLog.email l = Payment.email p))
        /\ StronglySorted
             (fun a b => AccessLog.timestamp b <= AccessLog.timestamp a) logs).
Proof.
  split; [apply send_payment_info_db|].
  unfold Admin.send_payment_info.
  destruct (Admin.find_payment db query) as [payment|].
  2:{ split; [reflexivity|]. intros p u logs [H|[]]. discriminate. }
  split; [discriminate|].
  cbv zeta. intros p u logs [H|[]]. injection H as <- <- <-.
  split; [reflexivity|]. split; [reflexivity|].
  split; [apply firstn_at_most|]. split.
  - intros l Hl. apply in_firstn in Hl.
    apply (Permutation_in _ (order_by_permutation _ _)) in Hl.
    apply filter_In in Hl as [Hin Hc]. split; [assumption|].
    apply orb_true_iff in Hc as [Hc|Hc].
    + right. destruct (Payment.email payment) as [e|],
        (AccessLog.email l) as [e'|]; try discriminate; [|reflexivity].
      apply String.eqb_eq in Hc. now subst.
    + left. now apply String.eqb_eq.
  - apply strongly_sorted_firstn.
    apply (strongly_sorted_impl
             (fun a b => (AccessLog.timestamp b <=? AccessLog.timestamp a)
                         = true)).
    + intros a b H. now apply Z.leb_le.
    + apply (order_by_sorted
               (fun a b => AccessLog.timestamp b <=? AccessLog.timestamp a)).
      * intros a b. rewrite !Z.leb_le. lia.
      * intros a b c. rewrite !Z.leb_le. lia.
Qed.

(** ** Test payments *)




(** ** The audit row names what the transport was asked to do *)

(** X21.  When a removal or an unban commits, the row it appends records
    the call it made: the row's telegram id is the user and its group id is
    the chat the ban or unban was issued for, its action is revoked for a
    removal and unbanned for an unban, its timestamp is the handler's clock,
    and its order id is that of the payment the lookup returned. *)
Theorem audit_row_matches_transport_call (ADMIN_IDS : list Z) (now : Z)
    (db : DB) (message : Message) (ok : bool) :
  let removal := Admin.admin_remove_user ADMIN_IDS ok now db message in
  let unban := Admin.admin_unban_user ADMIN_IDS ok now db message in
  (In Commit (snd removal) ->
   exists chat uid row payment raw,
     snd removal = [BanChatMember chat uid; Commit; Answer UserRemoved]
     /\ access_logs (fst removal) = access_logs db ++ [row]
     /\ AccessLog.telegram_id row = uid /\ AccessLog.group_id row = chat
     /\ AccessLog.action row = "revoked" /\ AccessLog.timestamp row = now
     /\ text message = Some raw
     /\ Admin.find_payment db (PyStr.strip raw) = Some payment
     /\ AccessLog.order_id row = PyStr.str_or (Payment.order_id payment) "unknown")
  /\ (In Commit (snd unban) ->
      exists chat uid row payment raw,
        snd unban = [UnbanChatMember chat uid; Commit; Answer UserUnbanned]
        /\ access_logs (fst unban) = access_logs db ++ [row]
        /\ AccessLog.telegram_id row = uid /\ AccessLog.group_id row = chat
        /\ AccessLog.action row = "unbanned" /\ AccessLog.timestamp row = now
        /\ text message = Some raw
        /\ Admin.find_payment db (PyStr.strip raw) = Some payment
        /\ AccessLog.order_id row
           = PyStr.str_or (Payment.order_id payment) "unknown").
Proof.
  cbv zeta. split.
  - unfold Admin.admin_remove_user.
    destruct (negb (Admin.is_admin ADMIN_IDS message)); [intros []|].
    destruct (text message) as [raw|]; [|intros []].
    destruct (negb (PyStr.truthy raw)); [intros []|].
    cbv zeta.
    destruct (String.eqb (PyStr.strip raw) Admin.ADMIN_CANCEL);
      [intros [H|[]]; discriminate|].
    destruct (Admin.find_payment db (PyStr.strip raw)) as [payment|] eqn:Ef;
      [|intros [H|[]]; discriminate].
    destruct (Admin.bound_numeric_user db payment) as [user|];
      [|intros [H|[]]; discriminate].
    destruct (match from_user message with
              | Some sender => _
              | None => false
              end); [intros [H|[]]; discriminate|].
    destruct (Query.latest_group db) as [cg|];
      [|intros [H|[]]; discriminate].
    destruct (CurrentGroup.chat_id cg) as [chat|];
      [|intros [H|[]]; discriminate].
    destruct (negb (PyStr.truthy chat)); [intros [H|[]]; discriminate|].
    destruct ok; cbn [negb]; [|intros [H|[H|[]]]; discriminate].
    intros _. cbn [fst snd access_logs].
    do 3 eexists. exists payment, raw.
    repeat split; try reflexivity; exact Ef.
  - unfold Admin.admin_unban_user.
    destruct (negb (Admin.is_admin ADMIN_IDS message)); [intros []|].
    destruct (text message) as [raw|]; [|intros []].
    destruct (negb (PyStr.truthy raw)); [intros []|].
    cbv zeta.
    destruct (String.eqb (PyStr.strip raw) Admin.ADMIN_CANCEL);
      [intros [H|[]]; discriminate|].
    destruct (Admin.find_payment db (PyStr.strip raw)) as [payment|] eqn:Ef;
      [|intros [H|[]]; discriminate].
    destruct (Admin.bound_numeric_user db payment) as [user|];
      [|intros [H|[]]; discriminate].
    destruct (Query.latest_group db) as [cg|];
      [|intros [H|[]]; discriminate].
    destruct (CurrentGroup.chat_id cg) as [chat|];
      [|intros [H|[]]; discriminate].
    destruct (negb (PyStr.truthy chat)); [intros [H|[]]; discriminate|].
    destruct ok; cbn [negb]; [|intros [H|[H|[]]]; discriminate].
    intros _. cbn [fst snd access_logs].
    do 3 eexists. exists payment, raw.
    repeat split; try reflexivity; exact Ef.
Qed.

End Properties.

(* ================================================================== *)
(** * The properties on concrete runs *)
(* ================================================================== *)

(** From here on the string methods are those of [AsciiText]. *)
#[global] Existing Instance AsciiText.ascii_text.

(** ** Bindings and the two resolvers *)

Lemma at_most_one_binding_witness :
  let db := Scenario.run Scenario.claimed in
  let db' := fst (Admin.rebind_payment_to_user db "A1" "222") in
  at_most_one_binding db
  /\ (exists a', user_by_telegram_id db' "111" = Some a'
                 /\ User.payment_id a' = None)
  /\ (exists b', user_by_telegram_id db' "222" = Some b'
                 /\ User.payment_id b' = Some 1).
Proof.
  cbv zeta.
  destruct (at_most_one_binding_invariant Scenario.strptime
              Scenario.WEBHOOK_TOKEN Scenario.ADMIN_IDS Scenario.claimed)
    as [Hinv [_ Hrebind]].
  split; [exact Hinv|].
  apply (Hrebind "A1" "111" "222"
           (Payment.mk 1 "A1" (Some "a@b.com") None "paid" None 100 true)
           (User.mk 1 "111" (Some "alice") (Some "Alice") (Some 1))).
  - vm_compute. reflexivity.
  - vm_compute. reflexivity.
  - reflexivity.
  - discriminate.
Defined.

(** The resolver on the phone example: the provider sends
    ["+7 916 123-45-67"], stored as digits; the buyer types the number with
    a leading 8 and is matched by its last ten digits, in both modes. *)
Example phone_suffix_match :
  let db :=
    Scenario.run
      [Webhook 100
         (Scenario.webhook {[ "order_id" := "X1";
                              "phone" := "+7 916 123-45-67" ]})] in
  let x1 := Payment.mk 1 "X1" None (Some "79161234567") "paid" None 100 false in
  payments db = [x1]
  /\ Main.claim_query db "89161234567" = Some x1
  /\ Admin.find_payment db "8 (916) 123-45-67" = Some x1
  /\ Main.claim_query db "9161234" = None.
Proof. cbv zeta. repeat split; vm_compute; reflexivity. Qed.

(** C5 as stated fails in the administrative mode: the query
    ["promo@2025"] contains an at-sign and the administrative lookup returns
    the payment whose order id it is, although its email is another one. *)
Lemma admin_lookup_matches_order_id_with_at_sign :
  let db :=
    Scenario.run
      [Webhook 100
         (Scenario.webhook {[ "order_id" := "promo@2025";
                              "email" := "a@b.com" ]})] in
  PyStr.contains_at "promo@2025" = true
  /\ Admin.find_payment db "promo@2025"
     = Some (Payment.mk 1 "promo@2025" (Some "a@b.com") None "paid" None 100
               false)
  /\ ~ (forall p, Admin.find_payment db "promo@2025" = Some p ->
                  Payment.email p = Some "promo@2025").
Proof.
  cbv zeta. split; [reflexivity|]. split; [vm_compute; reflexivity|].
  intros H. specialize (H _ eq_refl). vm_compute in H. discriminate.
Qed.

Lemma at_sign_lookup_by_mode_witness :
  let db :=
    Scenario.run
      [Webhook 100
         (Scenario.webhook {[ "order_id" := "promo@2025";
                              "email" := "a@b.com" ]})] in
  let q := Payment.mk 1 "promo@2025" (Some "a@b.com") None "paid" None 100
             false in
  PyStr.contains_at "promo@2025" = true
  /\ In q (payments db)
  /\ Main.identifier_matches "promo@2025" q <> true
  /\ Main.claim_query db "promo@2025" = None
  /\ Admin.payment_filters "promo@2025" q = true
  /\ exists p, Admin.find_payment db "promo@2025" = Some p
               /\ Payment.id q <= Payment.id p.
Proof.
  cbv zeta. split; [reflexivity|].
  assert (Hin : In (Payment.mk 1 "promo@2025" (Some "a@b.com") None "paid"
                      None 100 false)
                  (payments
                     (Scenario.run
                        [Webhook 100
                           (Scenario.webhook
                              {[ "order_id" := "promo@2025";
                                 "email" := "a@b.com" ]})])))
    by (vm_compute; auto).
  split; [exact Hin|].
  destruct (at_sign_lookup_by_mode
              (Scenario.run
                 [Webhook 100
                    (Scenario.webhook {[ "order_id" := "promo@2025";
                                         "email" := "a@b.com" ]})])
              "promo@2025")
    as (Hself & _ & _ & Hadmin & _ & Hfound); [reflexivity|].
  split; [intros Hm; apply Hself in Hm; discriminate Hm|].
  split.
  - vm_compute. reflexivity.
  - split; [apply Hadmin; right; left; reflexivity|].
    apply (Hfound _ Hin). right; left. reflexivity.
Defined.

(** C6 as stated fails in the administrative mode.  Order A1 is ingested,
    then A2, then the webhook for A1 arrives again and overwrites its
    [created_at]: A1 is now the most recently created of the two records
    with this email, and the administrative lookup returns A2, the one with
    the higher id.  The self-service lookup returns A1. *)
Lemma admin_lookup_ignores_created_at :
  let db :=
    Scenario.run
      [Webhook 100 Scenario.webhook_A1; Webhook 200 Scenario.webhook_A2;
       Webhook 300 Scenario.webhook_A1] in
  let a1 := Payment.mk 1 "A1" (Some "a@b.com") None "paid" None 300 false in
  let a2 := Payment.mk 2 "A2" (Some "a@b.com") None "paid" None 200 false in
  payments db = [a1; a2]
  /\ Admin.find_payment db "a@b.com" = Some a2
  /\ Payment.created_at a2 < Payment.created_at a1
  /\ Main.claim_query db "a@b.com" = Some a1.
Proof. cbv zeta. repeat split; vm_compute; reflexivity. Qed.

Lemma resolver_tie_break_witness :
  let db :=
    Scenario.run
      [Webhook 100 Scenario.webhook_A1; Webhook 200 Scenario.webhook_A2;
       Webhook 300 Scenario.webhook_A1] in
  let a2 := Payment.mk 2 "A2" (Some "a@b.com") None "paid" None 200 false in
  In a2 (payments db)
  /\ (exists p, Main.claim_query db "a@b.com" = Some p
                /\ (Payment.created_at a2 < Payment.created_at p
                    \/ (Payment.created_at a2 = Payment.created_at p
                        /\ Payment.id a2 <= Payment.id p)))
  /\ (exists p, Admin.find_payment db "a@b.com" = Some p
                /\ Payment.id a2 <= Payment.id p).
Proof.
  cbv zeta.
  assert (Hin : In (Payment.mk 2 "A2" (Some "a@b.com") None "paid" None 200
                      false)
                  (payments
                     (Scenario.run
                        [Webhook 100 Scenario.webhook_A1;
                         Webhook 200 Scenario.webhook_A2;
                         Webhook 300 Scenario.webhook_A1])))
    by (vm_compute; auto).
  split; [exact Hin|].
  destruct (resolver_tie_break
              (Scenario.run
                 [Webhook 100 Scenario.webhook_A1;
                  Webhook 200 Scenario.webhook_A2;
                  Webhook 300 Scenario.webhook_A1]) "a@b.com")
    as (Hclaim & _ & Hadmin).
  split.
  - destruct (Hclaim _ Hin eq_refl) as (p & Hp & _ & _ & Hnew). eauto.
  - destruct (Hadmin _ Hin eq_refl) as (p & Hp & _ & _ & Hid). eauto.
Defined.

(** ** Resubmission, transport failures and join requests *)

(** C3 at the failing input.  Alice claims payment A1 with her email and
    receives the invite link; she sends the same email again, before any
    join request, and receives the "already used" notice instead of the
    link.  The claim has set [used = True] at once, although the comment in
    [approve_join_request] says the payment is marked used only when the
    buyer actually joins, and the claim query asks for [used = False]: the
    branch of the handler that lets the owner of a payment through
    ([existing_user.telegram_id == str(message.from_user.id)]) is never
    reached with an owner (see [claimable_has_no_owner]). *)
Theorem resend_is_answered_already_used :
  let db0 := Scenario.run Scenario.paid in
  let db1 := Scenario.run Scenario.claimed in
  let message := Scenario.alice_sends "a@b.com" in
  Main.handle_email_or_order_filter message = true
  /\ Main.handle_email_or_order true db0 message
     = (db1, [Commit; Answer (InviteLink "Marathon" Scenario.invite)])
  /\ access_logs db1 = []
  /\ Main.handle_email_or_order true db1 message
     = (db1, [Answer PaymentAlreadyUsed])
  /\ ~ (exists g l, In (Answer (InviteLink g l))
                      (snd (Main.handle_email_or_order true db1 message))).
Proof.
  cbv zeta. split; [vm_compute; reflexivity|].
  split; [vm_compute; reflexivity|].
  split; [vm_compute; reflexivity|].
  split; [vm_compute; reflexivity|].
  intros (g & l & H). vm_compute in H. destruct H as [H|[]]. discriminate.
Qed.

(** The failing path is taken: with Alice in the group, the administrator
    asks for her removal and the ban call fails. *)
Example remove_with_failing_transport :
  let db := Scenario.run Scenario.joined in
  Admin.admin_remove_user Scenario.ADMIN_IDS false 200 db
    (Scenario.admin_sends "a@b.com")
  = (db, [BanChatMember "-1001" "111"; Answer RemoveFailed])
  /\ length (access_logs
               (fst (Admin.admin_remove_user Scenario.ADMIN_IDS true 200 db
                       (Scenario.admin_sends "a@b.com"))))
     = S (length (access_logs db)).
Proof. cbv zeta. split; vm_compute; reflexivity. Qed.

Lemma revoke_restore_all_or_nothing_witness :
  let db := Scenario.run Scenario.joined in
  let message := Scenario.admin_sends "a@b.com" in
  In Commit (snd (Admin.admin_remove_user Scenario.ADMIN_IDS true 200 db message))
  /\ exists chat user,
       snd (Admin.admin_remove_user Scenario.ADMIN_IDS true 200 db message)
       = [BanChatMember chat user; Commit; Answer UserRemoved].
Proof.
  cbv zeta.
  assert (H : In Commit
                (snd (Admin.admin_remove_user Scenario.ADMIN_IDS true 200
                        (Scenario.run Scenario.joined)
                        (Scenario.admin_sends "a@b.com"))))
    by (vm_compute; auto).
  split; [exact H|].
  destruct (revoke_restore_all_or_nothing Scenario.ADMIN_IDS 200
              (Scenario.run Scenario.joined) (Scenario.admin_sends "a@b.com"))
    as (_ & _ & Hremove & _).
  exact (proj2 (Hremove true H)).
Defined.

(** C2 at the failing input.  Alice, bound to the paid payment A1, asks to
    join and the approval call raises: the ["granted"] audit row and
    [used = True] are committed all the same, and the commit precedes the
    approval call in the trace. *)
Theorem approval_failure_leaves_grant_committed :
  let db := Scenario.run Scenario.claimed in
  let result :=
    JoinRequests.approve_join_request false 150 db Scenario.alice_joins in
  access_logs db = []
  /\ snd result = [Commit; ApproveJoinRequest; Raised]
  /\ access_logs (fst result)
     = [AccessLog.mk 1 "111" (Some "a@b.com") "A1" "Marathon" "-1001"
          "granted" 150 "Auto-approved join request"]
  /\ map Payment.used (payments (fst result)) = [true]
  /\ fst result = Scenario.run Scenario.joined.
Proof. cbv zeta. repeat split; vm_compute; reflexivity. Qed.

(** With a group configured and its chat id not yet known, the first join
    request is approved and reveals the chat id; a later request for another
    chat is ignored. *)
Example join_adopts_then_rejects_other_chat :
  let db := Scenario.run Scenario.claimed in
  let db' := Scenario.run Scenario.joined in
  map CurrentGroup.chat_id (current_group db) = [None]
  /\ map CurrentGroup.chat_id (current_group db') = [Some "-1001"]
  /\ map AccessLog.action (access_logs db') = ["granted"]
  /\ JoinRequests.approve_join_request true 160 db'
       (JoinRequests.mkEvent 111 (-2002) "Elsewhere") = (db', []).
Proof. cbv zeta. repeat split; vm_compute; reflexivity. Qed.

Lemma join_confirmation_by_group_record_witness :
  let db := Scenario.run [Webhook 100 Scenario.webhook_A1;
                          TextMessage true (Scenario.alice_sends "a@b.com")] in
  let result :=
    JoinRequests.approve_join_request true 150 db Scenario.alice_joins in
  current_group db = []
  /\ map AccessLog.action (access_logs (fst result)) = ["granted"]
  /\ map AccessLog.group_id (access_logs (fst result)) = ["-1001"]
  /\ In (Payment.mk 1 "A1" (Some "a@b.com") None "paid" None 100 true)
       (payments (fst result))
  /\ exists rest, snd result = Commit :: ApproveJoinRequest :: rest.
Proof.
  cbv zeta.
  assert (Hg : current_group
                 (Scenario.run [Webhook 100 Scenario.webhook_A1;
                                TextMessage true (Scenario.alice_sends "a@b.com")])
               = []) by (vm_compute; reflexivity).
  split; [exact Hg|].
  destruct (join_confirmation_by_group_record true 150
              (Scenario.run [Webhook 100 Scenario.webhook_A1;
                             TextMessage true (Scenario.alice_sends "a@b.com")])
              Scenario.alice_joins
              (User.mk 1 "111" (Some "alice") (Some "Alice") (Some 1))
              (Payment.mk 1 "A1" (Some "a@b.com") None "paid" None 100 true))
    as (Hnone & _ & _).
  - vm_compute. reflexivity.
  - reflexivity.
  - simpl. lia.
  - vm_compute. reflexivity.
  - reflexivity.
  - destruct (Hnone Hg) as (Hdb & Hused & Htrace).
    rewrite Hdb. split; [vm_compute; reflexivity|].
    split; [vm_compute; reflexivity|].
    rewrite <- Hdb. split; [exact Hused|exact Htrace].
Defined.

(** ** Webhook ingestion *)

Lemma scenario_paid_ledger_ok : ledger_ok (Scenario.run Scenario.paid).
Proof.
  split; unfold order_ids_unique; vm_compute;
    repeat constructor; simpl; tauto.
Qed.

Lemma webhook_upsert_witness :
  let db := Scenario.run Scenario.paid in
  let request :=
    Scenario.webhook {[ "order_id" := "A1"; "phone" := "+7 916 123-45-67";
                        "status" := "failed" ]} in
  let db' :=
    fst (Webhooks.handle_prodamus Scenario.strptime Scenario.WEBHOOK_TOKEN
           500 db request) in
  ledger_ok db
  /\ ingested Scenario.WEBHOOK_TOKEN request "A1"
  /\ ledger_ok db'
  /\ payment_by_order_id db' "A1"
     = Some (Payment.mk 1 "A1" (Some "a@b.com") (Some "79161234567") "failed"
               None 500 false).
Proof.
  cbv zeta. split; [exact scenario_paid_ledger_ok|].
  assert (Hin : ingested Scenario.WEBHOOK_TOKEN
                  (Scenario.webhook
                     {[ "order_id" := "A1"; "phone" := "+7 916 123-45-67";
                        "status" := "failed" ]}) "A1")
    by (repeat split; vm_compute; reflexivity).
  split; [exact Hin|].
  destruct (webhook_upsert Scenario.strptime Scenario.WEBHOOK_TOKEN 500
              (Scenario.run Scenario.paid) _ "A1"
              scenario_paid_ledger_ok Hin) as (Hok & _ & Hupd).
  split; [exact Hok|].
  destruct (Hupd (Payment.mk 1 "A1" (Some "a@b.com") None "paid" None 100 false))
    as (_ & Hfound & _); [vm_compute; reflexivity|].
  rewrite Hfound. vm_compute. reflexivity.
Defined.

Lemma webhook_keeps_consumption_flag_witness :
  let db := Scenario.run Scenario.claimed in
  let db' :=
    fst (Webhooks.handle_prodamus Scenario.strptime Scenario.WEBHOOK_TOKEN
           500 db Scenario.webhook_A1) in
  ingested Scenario.WEBHOOK_TOKEN Scenario.webhook_A1 "A1"
  /\ map consumption_key (payments db) = [(1, "A1", true)]
  /\ map consumption_key (payments db') = [(1, "A1", true)].
Proof.
  cbv zeta.
  assert (Hin : ingested Scenario.WEBHOOK_TOKEN Scenario.webhook_A1 "A1")
    by (repeat split; vm_compute; reflexivity).
  split; [exact Hin|].
  assert (Hkeys : map consumption_key
                    (payments (Scenario.run Scenario.claimed))
                  = [(1, "A1", true)]) by (vm_compute; reflexivity).
  split; [exact Hkeys|].
  destruct (webhook_keeps_consumption_flag Scenario.strptime
              Scenario.WEBHOOK_TOKEN 500 (Scenario.run Scenario.claimed)
              Scenario.webhook_A1) as [_ Hsame].
  destruct (Hsame "A1"
              (Payment.mk 1 "A1" (Some "a@b.com") None "paid" None 100 true)
              Hin) as [Heq _]; [vm_compute; reflexivity|].
  rewrite Heq. exact Hkeys.
Defined.

(** C8 as stated fails: the status ["Refunded"] is outside the vocabulary
    and is stored as ["refunded"], not verbatim. *)
Lemma unrecognized_status_is_lowercased :
  let request :=
    Scenario.webhook {[ "order_id" := "A9"; "email" := "a@b.com";
                        "status" := "Refunded" ]} in
  let db' :=
    fst (Webhooks.handle_prodamus Scenario.strptime Scenario.WEBHOOK_TOKEN
           100 empty_db request) in
  ~ In (PyStr.lower "Refunded") status_keys
  /\ Webhooks._normalize_status (Some "Refunded") = "refunded"
  /\ option_map Payment.status (payment_by_order_id db' "A9") = Some "refunded"
  /\ option_map Payment.status (payment_by_order_id db' "A9")
     <> Some "Refunded".
Proof.
  cbv zeta. split; [vm_compute; intuition discriminate|].
  split; [vm_compute; reflexivity|].
  split; [vm_compute; reflexivity|]. vm_compute. discriminate.
Qed.

Lemma status_normalization_witness :
  let request :=
    Scenario.webhook {[ "order_id" := "A9"; "email" := "a@b.com";
                        "status" := " Succeeded " ]} in
  PyStr.truthy "Chargeback" = true
  /\ ~ In (PyStr.lower (PyStr.strip "Chargeback")) status_keys
  /\ Webhooks._normalize_status (Some "Chargeback") = "chargeback"
  /\ ingested Scenario.WEBHOOK_TOKEN request "A9"
  /\ exists p',
       payment_by_order_id
         (fst (Webhooks.handle_prodamus Scenario.strptime
                 Scenario.WEBHOOK_TOKEN 100 empty_db request)) "A9"
       = Some p'
       /\ Payment.status p' = "paid".
Proof.
  cbv zeta.
  assert (Hn : ~ In (PyStr.lower (PyStr.strip "Chargeback")) status_keys)
    by (vm_compute; intuition discriminate).
  assert (Hin : ingested Scenario.WEBHOOK_TOKEN
                  (Scenario.webhook
                     {[ "order_id" := "A9"; "email" := "a@b.com";
                        "status" := " Succeeded " ]}) "A9")
    by (repeat split; vm_compute; reflexivity).
  destruct (status_normalization Scenario.strptime Scenario.WEBHOOK_TOKEN 100
              empty_db
              (Scenario.webhook
                 {[ "order_id" := "A9"; "email" := "a@b.com";
                    "status" := " Succeeded " ]}) "A9")
    as (Hmap & _ & Hstored).
  split; [reflexivity|]. split; [exact Hn|]. split.
  - destruct (Hmap "Chargeback" eq_refl) as (_ & _ & _ & _ & Hother & _).
    rewrite (Hother Hn). vm_compute. reflexivity.
  - split; [exact Hin|].
    destruct (Hstored Hin) as (p' & Hp & Hs).
    exists p'. split; [exact Hp|]. rewrite Hs. vm_compute. reflexivity.
Defined.

(** ** Further properties of the handlers *)

Lemma get_first_is_first_non_blank_witness :
  let payload : Webhooks.Payload :=
    {[ "order_id" := "   "; "orderId" := " A7 "; "order" := "B8" ]} in
  Webhooks._get_first payload Webhooks.ORDER_ID_KEYS = Some "A7"
  /\ PyStr.strip "A7" = "A7".
Proof.
  cbv zeta.
  assert (H : Webhooks._get_first
                ({[ "order_id" := "   "; "orderId" := " A7 ";
                    "order" := "B8" ]} : Webhooks.Payload)
                Webhooks.ORDER_ID_KEYS = Some "A7")
    by (vm_compute; reflexivity).
  split; [exact H|].
  exact (proj1 (proj2 (proj1 (get_first_is_first_non_blank _ _) _ H))).
Defined.

Lemma claim_never_meets_other_owner_witness :
  let db := Scenario.run Scenario.paid in
  let message := Scenario.alice_sends " a@b.com " in
  let result := Main.dispatch_email_or_order true db message in
  Main.handle_email_or_order_filter message = true
  /\ PyStr.strip " a@b.com " <> ""
  /\ Main.claim_query db (PyStr.strip " a@b.com ")
     = Some (Payment.mk 1 "A1" (Some "a@b.com") None "paid" None 100 false)
  /\ In Commit (snd result)
  /\ exists u,
       user_by_telegram_id (fst result) "111" = Some u
       /\ User.payment_id u = Some 1.
Proof.
  cbv zeta.
  assert (Hf : Main.handle_email_or_order_filter
                 (Scenario.alice_sends " a@b.com ") = true)
    by (vm_compute; reflexivity).
  assert (Hq : Main.claim_query (Scenario.run Scenario.paid)
                 (PyStr.strip " a@b.com ")
               = Some (Payment.mk 1 "A1" (Some "a@b.com") None "paid" None 100
                         false)) by (vm_compute; reflexivity).
  split; [exact Hf|].
  split; [vm_compute; discriminate|]. split; [exact Hq|].
  destruct (claim_never_meets_other_owner Scenario.strptime
              Scenario.WEBHOOK_TOKEN Scenario.ADMIN_IDS Scenario.paid true
              (Scenario.alice_sends " a@b.com ")) as [_ H].
  destruct (H Scenario.alice " a@b.com "
              (Payment.mk 1 "A1" (Some "a@b.com") None "paid" None 100 false)
              eq_refl Hf) as ((Hc & _ & Hu) & _);
    [vm_compute; discriminate..|exact Hq|left; reflexivity|].
  split; [exact Hc|exact Hu].
Defined.

Lemma consumption_is_never_undone_witness :
  let a1 := Payment.mk 1 "A1" (Some "a@b.com") None "paid" None 100 true in
  In a1 (payments (Scenario.run Scenario.claimed))
  /\ exists p',
       In p' (payments
                (Scenario.run
                   (Scenario.claimed ++
                      [Webhook 500 Scenario.webhook_A1;
                       Rebind "A1" "222"])))
       /\ Payment.id p' = 1 /\ Payment.used p' = true.
Proof.
  cbv zeta.
  assert (Hin : In (Payment.mk 1 "A1" (Some "a@b.com") None "paid" None 100
                      true)
                  (payments (Scenario.run Scenario.claimed)))
    by (vm_compute; auto).
  split; [exact Hin|].
  destruct (consumption_is_never_undone Scenario.strptime
              Scenario.WEBHOOK_TOKEN Scenario.ADMIN_IDS Scenario.claimed
              [Webhook 500 Scenario.webhook_A1; Rebind "A1" "222"] _ Hin)
    as (p' & Hp' & Hid & _ & Hused).
  exists p'. split; [exact Hp'|]. split; [exact Hid|]. now apply Hused.
Defined.

Lemma removal_can_be_reverted_witness :
  let db := Scenario.run Scenario.joined in
  let message := Scenario.admin_sends "A1" in
  let removal := Admin.admin_remove_user Scenario.ADMIN_IDS true 200 db message in
  let unban :=
    Admin.admin_unban_user Scenario.ADMIN_IDS true 300 (fst removal) message in
  In Commit (snd removal)
  /\ users (fst removal) = users db
  /\ map AccessLog.action (access_logs (fst unban))
     = ["granted"; "revoked"; "unbanned"].
Proof.
  cbv zeta.
  assert (H : In Commit
                (snd (Admin.admin_remove_user Scenario.ADMIN_IDS true 200
                        (Scenario.run Scenario.joined)
                        (Scenario.admin_sends "A1"))))
    by (vm_compute; auto).
  split; [exact H|].
  destruct (removal_can_be_reverted Scenario.ADMIN_IDS true 200 300
              (Scenario.run Scenario.joined) (Scenario.admin_sends "A1") H)
    as (Hu & _ & _ & _ & Hlog).
  split; [exact Hu|]. rewrite Hlog. vm_compute. reflexivity.
Defined.

Lemma ban_targets_bound_identity_witness :
  let db := Scenario.run Scenario.joined in
  let message := Scenario.admin_sends "a@b.com" in
  In (BanChatMember "-1001" "111")
    (snd (Admin.admin_remove_user Scenario.ADMIN_IDS true 200 db message))
  /\ Admin.is_admin Scenario.ADMIN_IDS message = true
  /\ PyStr.str_isdigit "111" = true
  /\ exists cg, Query.latest_group db = Some cg
                /\ CurrentGroup.chat_id cg = Some "-1001".
Proof.
  cbv zeta.
  assert (H : In (BanChatMember "-1001" "111")
                (snd (Admin.admin_remove_user Scenario.ADMIN_IDS true 200
                        (Scenario.run Scenario.joined)
                        (Scenario.admin_sends "a@b.com"))))
    by (vm_compute; auto).
  split; [exact H|].
  destruct (ban_targets_bound_identity Scenario.ADMIN_IDS true 200
              (Scenario.run Scenario.joined) (Scenario.admin_sends "a@b.com")
              "-1001" "111" H) as (Ha & Hd & _ & (cg & Hg & Hc & _)).
  split; [exact Ha|]. split; [exact Hd|]. exists cg. split; assumption.
Defined.

(** The guard against removing oneself compares [str(message.from_user.id)]
    with the stored telegram id as texts, while the transport is called with
    [int(user.telegram_id)].  A payment rebound to the telegram id ["0900"]
    (which [/rebind_payment] accepts: [str.isdigit] holds of it) passes the
    guard for administrator 900, and the ban is issued for the account
    [int("0900")], the administrator's own. *)
Example leading_zero_id_passes_the_self_guard :
  let db := Scenario.run (Scenario.joined ++ [Rebind "A1" "0900"]) in
  py_str (fu_id Scenario.admin) = "900"
  /\ Admin.admin_remove_user Scenario.ADMIN_IDS true 200 db
       (Scenario.admin_sends "A1")
     = (mkDB (payments db) (users db)
          (access_logs db ++
             [AccessLog.mk 2 "0900" (Some "a@b.com") "A1" "Marathon" "-1001"
                "revoked" 200 "Removed by admin"])
          (current_group db),
        [BanChatMember "-1001" "0900"; Commit; Answer UserRemoved]).
Proof. cbv zeta. split; vm_compute; reflexivity. Qed.

Lemma approval_requires_paid_binding_witness :
  let db := Scenario.run Scenario.claimed in
  let result := JoinRequests.approve_join_request true 150 db Scenario.alice_joins in
  In ApproveJoinRequest (snd result)
  /\ exists user payment,
       user_by_telegram_id db "111" = Some user
       /\ User.payment_id user = Some (Payment.id payment)
       /\ Payment.status payment = "paid".
Proof.
  cbv zeta.
  assert (H : In ApproveJoinRequest
                (snd (JoinRequests.approve_join_request true 150
                        (Scenario.run Scenario.claimed) Scenario.alice_joins)))
    by (vm_compute; auto).
  split; [exact H|].
  destruct (approval_requires_paid_binding true 150
              (Scenario.run Scenario.claimed) Scenario.alice_joins)
    as (Hsafe & _).
  destruct (Hsafe H) as (user & payment & Hu & Hp & _ & Hs & _).
  exists user, payment. repeat split; assumption.
Defined.

Lemma chat_id_is_written_once_witness :
  let g := CurrentGroup.mk 1 (Some "-1001") "Marathon" Scenario.invite in
  let more :=
    [JoinRequest true 160 (JoinRequests.mkEvent 111 (-2002) "Elsewhere");
     SetGroup "https://t.me/+next" "Next"] in
  In g (current_group (Scenario.run Scenario.joined))
  /\ In g (current_group (Scenario.run (Scenario.joined ++ more))).
Proof.
  cbv zeta.
  assert (Hin : In (CurrentGroup.mk 1 (Some "-1001") "Marathon" Scenario.invite)
                  (current_group (Scenario.run Scenario.joined)))
    by (vm_compute; auto).
  split; [exact Hin|].
  exact (proj2 (chat_id_is_written_once Scenario.strptime
                  Scenario.WEBHOOK_TOKEN Scenario.ADMIN_IDS Scenario.joined _ _
                  Hin eq_refl)).
Defined.

Lemma paid_webhook_makes_email_claimable_witness :
  let db := Scenario.run [SetGroup Scenario.invite "Marathon"] in
  let db1 :=
    fst (Webhooks.handle_prodamus Scenario.strptime Scenario.WEBHOOK_TOKEN 100
           db Scenario.webhook_A1) in
  let message := Scenario.alice_sends "  a@b.com " in
  let result := Main.dispatch_email_or_order false db1 message in
  ingested Scenario.WEBHOOK_TOKEN Scenario.webhook_A1 "A1"
  /\ Main.handle_email_or_order_filter message = true
  /\ PyStr.strip "  a@b.com " = "a@b.com"
  /\ Query.latest_group db <> None
  /\ snd result
     = [Commit; Answer (InviteLink "Marathon" Scenario.invite); Raised]
  /\ In Commit (snd result)
  /\ exists u p,
       user_by_telegram_id (fst result) "111" = Some u
       /\ User.payment_id u = Some (Payment.id p)
       /\ Payment.email p = Some "a@b.com"
       /\ Payment.used p = true.
Proof.
  cbv zeta.
  assert (Hin : ingested Scenario.WEBHOOK_TOKEN Scenario.webhook_A1 "A1")
    by (repeat split; vm_compute; reflexivity).
  assert (Hf : Main.handle_email_or_order_filter
                 (Scenario.alice_sends "  a@b.com ") = true)
    by (vm_compute; reflexivity).
  assert (Hg : Query.latest_group
                 (Scenario.run [SetGroup Scenario.invite "Marathon"]) <> None)
    by (vm_compute; discriminate).
  split; [exact Hin|]. split; [exact Hf|].
  split; [vm_compute; reflexivity|]. split; [exact Hg|].
  split; [vm_compute; reflexivity|].
  destruct (paid_webhook_makes_email_claimable Scenario.strptime
              Scenario.WEBHOOK_TOKEN Scenario.ADMIN_IDS
              [SetGroup Scenario.invite "Marathon"] 100
              Scenario.webhook_A1 "A1" "a@b.com" false Scenario.alice
              "  a@b.com " Hin)
    as (Hc & u & p & Hu & Hp & _ & He & Hused);
    try (vm_compute; reflexivity); [right; exact Hg|].
  split; [exact Hc|]. exists u, p. auto.
Defined.

Lemma rebind_command_needs_numeric_id_witness :
  let db := Scenario.run Scenario.claimed in
  let good := Scenario.admin_sends "/rebind_payment a@b.com 222" in
  let bad := Scenario.admin_sends "/rebind_payment a@b.com @bob" in
  Commands.rebind_payment Scenario.ADMIN_IDS db good
  = Commands.Ran (Admin.rebind_payment_to_user db "a@b.com" "222")
  /\ Admin.is_admin Scenario.ADMIN_IDS good = true
  /\ Commands.rebind_payment Scenario.ADMIN_IDS db bad = Commands.UsageShown.
Proof.
  cbv zeta.
  assert (H : Commands.rebind_payment Scenario.ADMIN_IDS
                (Scenario.run Scenario.claimed)
                (Scenario.admin_sends "/rebind_payment a@b.com 222")
              = Commands.Ran
                  (Admin.rebind_payment_to_user
                     (Scenario.run Scenario.claimed) "a@b.com" "222"))
    by (vm_compute; reflexivity).
  split; [exact H|]. split; [|vm_compute; reflexivity].
  exact (proj1 (proj1 (rebind_command_needs_numeric_id Scenario.ADMIN_IDS
                         (Scenario.run Scenario.claimed)
                         (Scenario.admin_sends "/rebind_payment a@b.com 222"))
                  _ H)).
Defined.


Lemma payment_report_is_bounded_witness :
  let db := Scenario.run Scenario.joined in
  let p := Payment.mk 1 "A1" (Some "a@b.com") None "paid" None 100 true in
  let u := Some (User.mk 1 "111" (Some "alice") (Some "Alice") (Some 1)) in
  let logs :=
    [AccessLog.mk 1 "111" (Some "a@b.com") "A1" "Marathon" "-1001" "granted"
       150 "Auto-approved join request"] in
  In (Answer (PaymentInfo p u logs)) (snd (Admin.send_payment_info db "a@b.com"))
  /\ Admin.find_payment db "a@b.com" = Some p
  /\ u = payment_user db p
  /\ (forall l, In l logs -> In l (access_logs db))
  /\ Admin.find_payment db "nobody@x.org" = None
  /\ snd (Admin.send_payment_info db "nobody@x.org") = [Answer PaymentNotFound].
Proof.
  cbv zeta.
  destruct (payment_report_is_bounded (Scenario.run Scenario.joined) "a@b.com")
    as (_ & _ & Hshown).
  assert (Hin : In (Answer
                      (PaymentInfo
                         (Payment.mk 1 "A1" (Some "a@b.com") None "paid" None
                            100 true)
                         (Some (User.mk 1 "111" (Some "alice") (Some "Alice")
                                  (Some 1)))
                         [AccessLog.mk 1 "111" (Some "a@b.com") "A1" "Marathon"
                            "-1001" "granted" 150
                            "Auto-approved join request"]))
                  (snd (Admin.send_payment_info (Scenario.run Scenario.joined)
                          "a@b.com")))
    by (vm_compute; auto).
  split; [exact Hin|].
  destruct (Hshown _ _ _ Hin) as (Hf & Hu & _ & Hlogs & _).
  split; [exact Hf|]. split; [exact Hu|].
  split; [intros l Hl; exact (proj1 (Hlogs l Hl))|].
  assert (H : Admin.find_payment (Scenario.run Scenario.joined) "nobody@x.org"
              = None) by (vm_compute; reflexivity).
  split; [exact H|].
  exact (proj1 (proj2 (payment_report_is_bounded
                         (Scenario.run Scenario.joined) "nobody@x.org")) H).
Defined.



Lemma stored_phones_are_digits_witness :
  let events :=
    [Webhook 100
       (Scenario.webhook {[ "order_id" := "X1";
                            "phone" := "+7 916 123-45-67" ]})] in
  let p := Payment.mk 1 "X1" None (Some "79161234567") "paid" None 100 false in
  In p (payments (Scenario.run events))
  /\ PyStr.digits "79161234567" = "79161234567".
Proof.
  cbv zeta.
  assert (Hin : In (Payment.mk 1 "X1" None (Some "79161234567") "paid" None
                      100 false)
                  (payments
                     (Scenario.run
                        [Webhook 100
                           (Scenario.webhook
                              {[ "order_id" := "X1";
                                 "phone" := "+7 916 123-45-67" ]})])))
    by (vm_compute; auto).
  split; [exact Hin|].
  exact (proj1 (stored_phones_are_digits Scenario.strptime
                  Scenario.WEBHOOK_TOKEN Scenario.ADMIN_IDS _) _ _ Hin eq_refl).
Defined.

Lemma self_service_match_is_admin_match_witness :
  let db := Scenario.run Scenario.paid in
  let a1 := Payment.mk 1 "A1" (Some "a@b.com") None "paid" None 100 false in
  Main.claim_query db "a@b.com" = Some a1
  /\ exists p', Admin.find_payment db "a@b.com" = Some p'
                /\ Payment.id a1 <= Payment.id p'.
Proof.
  cbv zeta.
  assert (H : Main.claim_query (Scenario.run Scenario.paid) "a@b.com"
              = Some (Payment.mk 1 "A1" (Some "a@b.com") None "paid" None 100
                        false)) by (vm_compute; reflexivity).
  split; [exact H|].
  exact (proj1 (proj2 (self_service_match_is_admin_match
                         (Scenario.run Scenario.paid) "a@b.com")) _ H).
Defined.

Lemma bound_payments_are_consumed_witness :
  let db := Scenario.run Scenario.claimed in
  let alice := User.mk 1 "111" (Some "alice") (Some "Alice") (Some 1) in
  In alice (users db)
  /\ exists p, In p (payments db) /\ Payment.id p = 1
               /\ Payment.used p = true.
Proof.
  cbv zeta.
  assert (H : In (User.mk 1 "111" (Some "alice") (Some "Alice") (Some 1))
                (users (Scenario.run Scenario.claimed)))
    by (vm_compute; auto).
  split; [exact H|].
  exact (proj1 (bound_payments_are_consumed Scenario.strptime
                  Scenario.WEBHOOK_TOKEN Scenario.ADMIN_IDS Scenario.claimed)
           _ 1 H eq_refl).
Defined.

Lemma audit_log_is_append_only_witness :
  exists added,
    access_logs (Scenario.run Scenario.joined)
    = access_logs (Scenario.run Scenario.claimed) ++ added.
Proof.
  exact (proj2 (audit_log_is_append_only Scenario.strptime
                  Scenario.WEBHOOK_TOKEN Scenario.ADMIN_IDS)
           Scenario.claimed [JoinRequest true 150 Scenario.alice_joins]).
Defined.

Lemma new_group_is_authoritative_witness :
  let db := Scenario.run Scenario.joined in
  let db' := fst (Admin.create_current_group db "https://t.me/+next" "Next") in
  Query.latest_group db'
  = Some (CurrentGroup.mk 2 None "Next" "https://t.me/+next")
  /\ fst (Admin.admin_remove_user Scenario.ADMIN_IDS true 400 db'
            (Scenario.admin_sends "a@b.com")) = db'.
Proof.
  cbv zeta.
  destruct (new_group_is_authoritative Scenario.ADMIN_IDS true 400
              (Scenario.run Scenario.joined) "https://t.me/+next" "Next"
              (Scenario.admin_sends "a@b.com")) as (Hl & _ & (Hr & _) & _).
  split; [rewrite Hl; vm_compute; reflexivity|exact Hr].
Defined.

Lemma export_is_the_sorted_window_witness :
  let db :=
    fst (Admin.admin_remove_user Scenario.ADMIN_IDS true 200
           (Scenario.run Scenario.joined) (Scenario.admin_sends "A1")) in
  map AccessLog.action (access_logs db) = ["granted"; "revoked"]
  /\ map AccessLog.action
       (exported_rows (LogExport.export_logs_report db 100 200 None))
     = ["granted"]
  /\ LogExport.export_logs_report db 300 400 None = LogExport.NoRecords.
Proof.
  cbv zeta. split; [vm_compute; reflexivity|].
  split; [vm_compute; reflexivity|].
  apply (export_is_the_sorted_window _ 300 400 None).
  intros l Hl. vm_compute in Hl.
  destruct Hl as [<-|[<-|[]]]; vm_compute; reflexivity.
Defined.

Lemma audit_row_matches_transport_call_witness :
  let db := Scenario.run Scenario.joined in
  let unban :=
    Admin.admin_unban_user Scenario.ADMIN_IDS true 400 db
      (Scenario.admin_sends "A1") in
  In Commit (snd unban)
  /\ exists row,
       access_logs (fst unban) = access_logs db ++ [row]
       /\ AccessLog.action row = "unbanned" /\ AccessLog.timestamp row = 400.
Proof.
  cbv zeta.
  assert (H : In Commit
                (snd (Admin.admin_unban_user Scenario.ADMIN_IDS true 400
                        (Scenario.run Scenario.joined)
                        (Scenario.admin_sends "A1"))))
    by (vm_compute; auto).
  split; [exact H|].
  destruct (proj2 (audit_row_matches_transport_call Scenario.ADMIN_IDS 400
                     (Scenario.run Scenario.joined)
                     (Scenario.admin_sends "A1") true) H)
    as (chat & uid & row & payment & raw & _ & Hl & _ & _ & Ha & Ht & _).
  exists row. auto.
Defined.
